(** * tg_ai_bot2: state management and ingestion of the group-chat assistant

    A shallow embedding of [src/tgAutoResponse/tg_ai_bot2.py] and the
    properties of its specification, proved or refuted on it.

    Modelled from the source: [save_data], [load_data], [load_all_docs] and
    [handle_mention] (the latter two cut into the steps their comments
    number); [load_config], the commands ([start_cmd], [reload_all_cmd],
    [weather_cmd], [show_kb_cmd], [set_prompt_cmd], [clear_all_cmd]),
    [handle_file_upload] and the start of [main].  Modelled from the Python
    runtime they run on: UTF-8 encoding and decoding ([Utf8]), the [str]
    methods they call ([Py]), the [json] module as they call it ([Json]),
    the one regular expression of the source, and text and binary files.

    Conventions.
    - A Python [str] is a list of code points ([Z]); a [bytes] value and the
      content of a file is a list of byte values ([Z]).
    - The file system is a list of (path, content) pairs in directory order.
      Directories are not represented, a write always reaches the disk, and
      text is written with [os.linesep = "\n"] (no newline translation on
      output, as on POSIX).
    - Handlers run in a state-and-exception monad over [World]: the files,
      the globals [bot_data] and [BOT_USERNAME], and the trace of what was
      written and sent.  What Python raises is an [exn] value; state changes
      made before a raise stay.
    - Calls to [logger] have no effect on the modelled state and are left out.

    The file has two parts: the definitions (runtime, world, handlers, the
    vocabulary of the specification, sample inputs), then the properties,
    runtime first and the claims of the specification (C1 to C10) after the
    lemmas each of them rests on, and after them further properties of the
    code (X1 to X24). *)

From Stdlib Require Import ZArith List Lia Bool String Ascii.
Import ListNotations.
Open Scope Z_scope.
Set Warnings "-register-all".

Definition str := list Z.
Definition bytes := list Z.

(** ** Generic list helpers *)

Fixpoint list_eqb {A} (eqb : A -> A -> bool) (a b : list A) : bool :=
  match a, b with
  | [], [] => true
  | x :: a', y :: b' => eqb x y && list_eqb eqb a' b'
  | _, _ => false
  end.

Definition str_eqb : str -> str -> bool := list_eqb Z.eqb.

Definition len {A} (l : list A) : Z := Z.of_nat (List.length l).

Fixpoint omap {A B} (f : A -> option B) (l : list A) : list B :=
  match l with
  | [] => []
  | x :: r => match f x with Some y => y :: omap f r | None => omap f r end
  end.

(** ** UTF-8 *)

Module Utf8.

Definition in_range (lo hi c : Z) : bool := (lo <=? c) && (c <=? hi).

(** Code points UTF-8 can carry: everything up to U+10FFFF but the surrogates. *)
Definition is_scalar (c : Z) : bool :=
  in_range 0 0xD7FF c || in_range 0xE000 0x10FFFF c.

Definition encode_cp (c : Z) : option bytes :=
  if in_range 0 0x7F c then Some [c]
  else if in_range 0x80 0x7FF c then Some [0xC0 + c / 64; 0x80 + c mod 64]
  else if in_range 0x800 0xD7FF c || in_range 0xE000 0xFFFF c then
    Some [0xE0 + c / 4096; 0x80 + (c / 64) mod 64; 0x80 + c mod 64]
  else if in_range 0x10000 0x10FFFF c then
    Some [0xF0 + c / 262144; 0x80 + (c / 4096) mod 64;
          0x80 + (c / 64) mod 64; 0x80 + c mod 64]
  else None.

(** [s.encode("utf-8")]: [None] stands for UnicodeEncodeError. *)
Fixpoint encode (s : str) : option bytes :=
  match s with
  | [] => Some []
  | c :: r =>
      match encode_cp c, encode r with
      | Some b, Some br => Some (b ++ br)
      | _, _ => None
      end
  end.

Definition cont (b : Z) : bool := in_range 0x80 0xBF b.

(** Second byte of a three-byte form: E0 excludes overlong forms, ED the
    surrogates. *)
Definition second3 (b0 b1 : Z) : bool :=
  if b0 =? 0xE0 then in_range 0xA0 0xBF b1
  else if b0 =? 0xED then in_range 0x80 0x9F b1
  else cont b1.

Definition second4 (b0 b1 : Z) : bool :=
  if b0 =? 0xF0 then in_range 0x90 0xBF b1
  else if b0 =? 0xF4 then in_range 0x80 0x8F b1
  else cont b1.

Definition valid2 (b0 b1 : Z) : bool := in_range 0xC2 0xDF b0 && cont b1.
Definition valid3 (b0 b1 b2 : Z) : bool :=
  in_range 0xE0 0xEF b0 && second3 b0 b1 && cont b2.
Definition valid4 (b0 b1 b2 b3 : Z) : bool :=
  in_range 0xF0 0xF4 b0 && second4 b0 b1 && cont b2 && cont b3.

Definition cp2 (b0 b1 : Z) : Z := (b0 - 0xC0) * 64 + (b1 - 0x80).
Definition cp3 (b0 b1 b2 : Z) : Z :=
  (b0 - 0xE0) * 4096 + (b1 - 0x80) * 64 + (b2 - 0x80).
Definition cp4 (b0 b1 b2 b3 : Z) : Z :=
  (b0 - 0xF0) * 262144 + (b1 - 0x80) * 4096 + (b2 - 0x80) * 64 + (b3 - 0x80).

(** One pass of the decoder: [Some c] for a decoded character, [None] for a
    byte that belongs to no well-formed sequence.  After such a byte the
    decoder resumes at the next one; the continuation bytes of a broken
    sequence start nothing themselves, so this yields what CPython yields
    when it steps over the whole broken prefix at once. *)
Fixpoint scan (bs : bytes) : list (option Z) :=
  match bs with
  | [] => []
  | b0 :: r0 =>
      if in_range 0 0x7F b0 then Some b0 :: scan r0
      else
        match r0 with
        | [] => [None]
        | b1 :: r1 =>
            if valid2 b0 b1 then Some (cp2 b0 b1) :: scan r1
            else
              match r1 with
              | [] => None :: scan r0
              | b2 :: r2 =>
                  if valid3 b0 b1 b2 then Some (cp3 b0 b1 b2) :: scan r2
                  else
                    match r2 with
                    | [] => None :: scan r0
                    | b3 :: r3 =>
                        if valid4 b0 b1 b2 b3
                        then Some (cp4 b0 b1 b2 b3) :: scan r3
                        else None :: scan r0
                    end
              end
        end
  end.

Fixpoint all_some {A} (l : list (option A)) : option (list A) :=
  match l with
  | [] => Some []
  | Some x :: r => match all_some r with Some r' => Some (x :: r') | None => None end
  | None :: _ => None
  end.

(** [bs.decode("utf-8")]: [None] stands for UnicodeDecodeError. *)
Definition decode (bs : bytes) : option str := all_some (scan bs).

(** [bs.decode("utf-8", errors="ignore")]. *)
Definition decode_ignore (bs : bytes) : str := omap (fun o => o) (scan bs).

End Utf8.

(** A literal of the source, written as a Rocq string (its UTF-8 bytes). *)
Definition bytes_of_string (s : string) : bytes :=
  map (fun a => Z.of_N (N_of_ascii a)) (list_ascii_of_string s).

Definition lit (s : string) : str := Utf8.decode_ignore (bytes_of_string s).

(** ** Methods of [str] *)

Module Py.

(** [str.isspace] on one character: the code points Unicode classes as
    white space. *)
Definition isspace (c : Z) : bool :=
  Utf8.in_range 0x09 0x0D c || Utf8.in_range 0x1C 0x20 c || (c =? 0x85)
  || (c =? 0xA0) || (c =? 0x1680) || Utf8.in_range 0x2000 0x200A c
  || (c =? 0x2028) || (c =? 0x2029) || (c =? 0x202F) || (c =? 0x205F)
  || (c =? 0x3000).

Fixpoint lstrip (s : str) : str :=
  match s with
  | [] => []
  | c :: r => if isspace c then lstrip r else s
  end.

Definition rstrip (s : str) : str := rev (lstrip (rev s)).

(** [s.strip()]. *)
Definition strip (s : str) : str := rstrip (lstrip s).

(** [s.lower()] on the ASCII letters.  The handles of the transport are
    ASCII; other cased letters are left as they are. *)
Definition lower_cp (c : Z) : Z := if Utf8.in_range 0x41 0x5A c then c + 32 else c.
Definition lower (s : str) : str := map lower_cp s.

Fixpoint startswith (s p : str) : bool :=
  match p, s with
  | [], _ => true
  | x :: p', y :: s' => (x =? y) && startswith s' p'
  | _ :: _, [] => false
  end.

Definition endswith (s p : str) : bool := startswith (rev s) (rev p).

(** [s.replace(old, new)] for a non-empty [old]: occurrences are replaced
    from the left and do not overlap.  [skip] counts the characters of an
    occurrence still to be passed over. *)
Fixpoint replace_from (old new : str) (skip : nat) (s : str) : str :=
  match s with
  | [] => []
  | c :: r =>
      match skip with
      | S k => replace_from old new k r
      | O =>
          if startswith s old
          then new ++ replace_from old new (Nat.pred (List.length old)) r
          else c :: replace_from old new O r
      end
  end.

Definition replace (s old new : str) : str :=
  match old with
  | [] => s
  | _ => replace_from old new O s
  end.

(** [s[i:j]] for non-negative [i] and [j]. *)
Definition slice {A} (s : list A) (i j : nat) : list A := firstn (j - i) (skipn i s).

(** [l[i:]] for any integer [i]: a negative index counts from the end and
    is clamped at the start of the list; [-0] is [0]. *)
Definition slice_from {A} (l : list A) (i : Z) : list A :=
  if 0 <=? i then skipn (Z.to_nat i) l
  else skipn (Z.to_nat (len l + i)) l.

(** Universal newlines on input: ["\r\n"] and ["\r"] become ["\n"]. *)
Fixpoint universal_newlines (s : str) : str :=
  match s with
  | [] => []
  | c :: r =>
      if c =? 13 then
        match r with
        | d :: r' => if d =? 10 then 10 :: universal_newlines r'
                     else 10 :: universal_newlines r
        | [] => [10]
        end
      else c :: universal_newlines r
  end.

(** [s.splitlines(keepends=True)] on ["\n"] only, as [readlines] does once
    the newlines are translated.  [cur] is the line being read, reversed. *)
Fixpoint lines_from (cur : str) (s : str) : list str :=
  match s with
  | [] => match cur with [] => [] | _ => [rev cur] end
  | c :: r =>
      if c =? 10 then rev (c :: cur) :: lines_from [] r
      else lines_from (c :: cur) r
  end.

Definition readlines (s : str) : list str := lines_from [] s.

End Py.

(** ** Python values and the [json] module *)

(** The values [json.load] can return.  A float is carried as the text of
    its literal; no claim depends on its numeric value. *)
Inductive pyval :=
| PNone
| PBool (b : bool)
| PInt (z : Z)
| PFloat (lexeme : str)
| PStr (s : str)
| PList (l : list pyval)
| PDict (d : list (str * pyval)).

(** A [dict] with [str] keys, in insertion order. *)
Definition pydict := list (str * pyval).

Fixpoint dict_get (d : pydict) (k : str) : option pyval :=
  match d with
  | [] => None
  | (k', v) :: r => if str_eqb k' k then Some v else dict_get r k
  end.

(** [d[k] = v]: an existing key keeps its place. *)
Fixpoint dict_set (d : pydict) (k : str) (v : pyval) : pydict :=
  match d with
  | [] => [(k, v)]
  | (k', v') :: r =>
      if str_eqb k' k then (k', v) :: r else (k', v') :: dict_set r k v
  end.

Module Json.

(** *** [json.dumps(v, ensure_ascii=False, indent=2)] *)

Definition hex_digit (d : Z) : Z := if d <? 10 then 48 + d else 87 + d.

(** With [ensure_ascii=False] only the quote, the backslash and the control
    characters below U+0020 are escaped. *)
Definition escape_cp (c : Z) : str :=
  if c =? 34 then [92; 34]
  else if c =? 92 then [92; 92]
  else if c =? 10 then [92; 110]
  else if c =? 13 then [92; 114]
  else if c =? 9 then [92; 116]
  else if c =? 8 then [92; 98]
  else if c =? 12 then [92; 102]
  else if Utf8.in_range 0 0x1F c then
    [92; 117; 48; 48; hex_digit (c / 16); hex_digit (c mod 16)]
  else [c].

Definition encode_str (s : str) : str := 34 :: flat_map escape_cp s ++ [34].

Fixpoint uint_digits (u : Decimal.uint) : str :=
  match u with
  | Decimal.Nil => []
  | Decimal.D0 r => 48 :: uint_digits r
  | Decimal.D1 r => 49 :: uint_digits r
  | Decimal.D2 r => 50 :: uint_digits r
  | Decimal.D3 r => 51 :: uint_digits r
  | Decimal.D4 r => 52 :: uint_digits r
  | Decimal.D5 r => 53 :: uint_digits r
  | Decimal.D6 r => 54 :: uint_digits r
  | Decimal.D7 r => 55 :: uint_digits r
  | Decimal.D8 r => 56 :: uint_digits r
  | Decimal.D9 r => 57 :: uint_digits r
  end.

Definition int_repr (z : Z) : str :=
  match Z.to_int z with
  | Decimal.Pos u => uint_digits u
  | Decimal.Neg u => 45 :: uint_digits u
  end.

Definition newline_indent (lvl : nat) : str := 10 :: repeat 32 (2 * lvl)%nat.

Fixpoint join (sep : str) (l : list str) : str :=
  match l with
  | [] => []
  | [x] => x
  | x :: r => x ++ sep ++ join sep r
  end.

Fixpoint dumps_at (lvl : nat) (v : pyval) : str :=
  match v with
  | PNone => [110; 117; 108; 108]
  | PBool true => [116; 114; 117; 101]
  | PBool false => [102; 97; 108; 115; 101]
  | PInt z => int_repr z
  | PFloat x => x
  | PStr s => encode_str s
  | PList [] => [91; 93]
  | PList l =>
      [91] ++ newline_indent (S lvl)
      ++ join (44 :: newline_indent (S lvl)) (map (dumps_at (S lvl)) l)
      ++ newline_indent lvl ++ [93]
  | PDict [] => [123; 125]
  | PDict d =>
      [123] ++ newline_indent (S lvl)
      ++ join (44 :: newline_indent (S lvl))
           (map (fun kv => encode_str (fst kv) ++ [58; 32] ++ dumps_at (S lvl) (snd kv)) d)
      ++ newline_indent lvl ++ [125]
  end.

Definition dumps (v : pyval) : str := dumps_at 0 v.

(** Values without numbers whose dictionaries have no key twice: what the
    handlers keep in [bot_data]. *)
Fixpoint distinct (l : list str) : bool :=
  match l with
  | [] => true
  | k :: r => negb (existsb (str_eqb k) r) && distinct r
  end.

Fixpoint plain (v : pyval) : bool :=
  match v with
  | PInt _ | PFloat _ => false
  | PList l => forallb plain l
  | PDict d => forallb (fun kv => plain (snd kv)) d && distinct (map fst d)
  | _ => true
  end.

(** Every string of the value satisfies [p]. *)
Fixpoint strings_all (p : str -> bool) (v : pyval) : bool :=
  match v with
  | PStr s => p s
  | PFloat x => p x
  | PList l => forallb (strings_all p) l
  | PDict d => forallb (fun kv => p (fst kv) && strings_all p (snd kv)) d
  | _ => true
  end.

(** *** [json.loads]

    The decoder is written as two automata, one over characters producing
    tokens and one over tokens building the value, so that it is total and
    reads its input once.  It accepts the language CPython's decoder accepts
    (white space between tokens, strict strings, the number grammar, [NaN],
    [Infinity], [-Infinity]) and builds the same values.  The limits CPython
    sets on the depth of nesting and on the digits of an integer literal are
    not modelled. *)

Inductive token :=
| TLBrace | TRBrace | TLBracket | TRBracket | TColon | TComma
| TStr (s : str) | TInt (z : Z) | TFloat (lexeme : str)
| TTrue | TFalse | TNull.

Inductive numphase :=
| NMinus | NZero | NInt | NDot | NFrac | NExp | NExpSign | NExpDig.

(** Accumulators ([acc], [lexeme]) hold what was read in reverse. *)
Inductive lstate :=
| LIdle
| LStr (acc : str)
| LEsc (acc : str)
| LHex (acc : str) (pend : option Z) (n : nat) (val : Z)
| LHigh (acc : str) (hi : Z)
| LHighEsc (acc : str) (hi : Z)
| LKw (rest : str) (t : token)
| LNum (ph : numphase) (lexeme : str).

Definition lexer : Type := lstate * list token.

Definition is_ws (c : Z) : bool := (c =? 32) || (c =? 9) || (c =? 10) || (c =? 13).
Definition is_digit (c : Z) : bool := Utf8.in_range 48 57 c.

Definition hex_val (c : Z) : option Z :=
  if is_digit c then Some (c - 48)
  else if Utf8.in_range 97 102 c then Some (c - 87)
  else if Utf8.in_range 65 70 c then Some (c - 55)
  else None.

Definition idle_step (toks : list token) (c : Z) : option lexer :=
  if is_ws c then Some (LIdle, toks)
  else if c =? 123 then Some (LIdle, TLBrace :: toks)
  else if c =? 125 then Some (LIdle, TRBrace :: toks)
  else if c =? 91 then Some (LIdle, TLBracket :: toks)
  else if c =? 93 then Some (LIdle, TRBracket :: toks)
  else if c =? 58 then Some (LIdle, TColon :: toks)
  else if c =? 44 then Some (LIdle, TComma :: toks)
  else if c =? 34 then Some (LStr [], toks)
  else if c =? 45 then Some (LNum NMinus [45], toks)
  else if c =? 48 then Some (LNum NZero [48], toks)
  else if Utf8.in_range 49 57 c then Some (LNum NInt [c], toks)
  else if c =? 110 then Some (LKw [117; 108; 108] TNull, toks)
  else if c =? 116 then Some (LKw [114; 117; 101] TTrue, toks)
  else if c =? 102 then Some (LKw [97; 108; 115; 101] TFalse, toks)
  else if c =? 78 then Some (LKw [97; 78] (TFloat [78; 97; 78]), toks)
  else if c =? 73 then
    Some (LKw [110; 102; 105; 110; 105; 116; 121]
            (TFloat [73; 110; 102; 105; 110; 105; 116; 121]), toks)
  else None.

(** Inside a string: a raw control character is refused (strict mode). *)
Definition str_step (acc : str) (toks : list token) (c : Z) : option lexer :=
  if c =? 34 then Some (LIdle, TStr (rev acc) :: toks)
  else if c =? 92 then Some (LEsc acc, toks)
  else if Utf8.in_range 0 0x1F c then None
  else Some (LStr (c :: acc), toks).

Definition esc_step (acc : str) (toks : list token) (c : Z) : option lexer :=
  if c =? 34 then Some (LStr (34 :: acc), toks)
  else if c =? 92 then Some (LStr (92 :: acc), toks)
  else if c =? 47 then Some (LStr (47 :: acc), toks)
  else if c =? 98 then Some (LStr (8 :: acc), toks)
  else if c =? 102 then Some (LStr (12 :: acc), toks)
  else if c =? 110 then Some (LStr (10 :: acc), toks)
  else if c =? 114 then Some (LStr (13 :: acc), toks)
  else if c =? 116 then Some (LStr (9 :: acc), toks)
  else if c =? 117 then Some (LHex acc None 0 0, toks)
  else None.

Definition is_high (u : Z) : bool := Utf8.in_range 0xD800 0xDBFF u.
Definition is_low (u : Z) : bool := Utf8.in_range 0xDC00 0xDFFF u.

(** A [\uXXXX] unit has been read: a high surrogate waits for its pair. *)
Definition after_unit (acc : str) (u : Z) : lstate :=
  if is_high u then LHigh acc u else LStr (u :: acc).

Definition hex_done (acc : str) (pend : option Z) (u : Z) : lstate :=
  match pend with
  | None => after_unit acc u
  | Some hi =>
      if is_low u
      then LStr (0x10000 + (hi - 0xD800) * 1024 + (u - 0xDC00) :: acc)
      else after_unit (hi :: acc) u
  end.

Definition hex_step (acc : str) (pend : option Z) (n : nat) (val : Z)
    (toks : list token) (c : Z) : option lexer :=
  match hex_val c with
  | None => None
  | Some d =>
      if Nat.eqb n 3 then Some (hex_done acc pend (16 * val + d), toks)
      else Some (LHex acc pend (S n) (16 * val + d), toks)
  end.

Definition kw_step (rest : str) (t : token) (toks : list token) (c : Z)
    : option lexer :=
  match rest with
  | [] => None
  | x :: [] => if c =? x then Some (LIdle, t :: toks) else None
  | x :: r => if c =? x then Some (LKw r t, toks) else None
  end.

Definition digits_value (ds : str) : Z :=
  fold_left (fun a d => 10 * a + (d - 48)) ds 0.

(** [int(lexeme)] for a lexeme of the integer form. *)
Definition int_of_lexeme (x : str) : Z :=
  match x with
  | 45 :: ds => - digits_value ds
  | _ => digits_value x
  end.

Definition is_e (c : Z) : bool := (c =? 101) || (c =? 69).

(** The number grammar: an optional minus, then 0 or a digit string without
    leading zero, then optionally a dot and digits, then optionally e or E,
    a sign and digits.  A float literal is one with a fraction or exponent.  A
    number ends at the first character that does not continue it; that
    character is then read as the start of the next token. *)
Definition num_step (ph : numphase) (x : str) (toks : list token) (c : Z)
    : option lexer :=
  let as_int := idle_step (TInt (int_of_lexeme (rev x)) :: toks) c in
  let as_float := idle_step (TFloat (rev x) :: toks) c in
  match ph with
  | NMinus =>
      if c =? 48 then Some (LNum NZero (c :: x), toks)
      else if Utf8.in_range 49 57 c then Some (LNum NInt (c :: x), toks)
      else if c =? 73 then
        Some (LKw [110; 102; 105; 110; 105; 116; 121]
                (TFloat [45; 73; 110; 102; 105; 110; 105; 116; 121]), toks)
      else None
  | NZero =>
      if c =? 46 then Some (LNum NDot (c :: x), toks)
      else if is_e c then Some (LNum NExp (c :: x), toks)
      else as_int
  | NInt =>
      if is_digit c then Some (LNum NInt (c :: x), toks)
      else if c =? 46 then Some (LNum NDot (c :: x), toks)
      else if is_e c then Some (LNum NExp (c :: x), toks)
      else as_int
  | NDot => if is_digit c then Some (LNum NFrac (c :: x), toks) else None
  | NFrac =>
      if is_digit c then Some (LNum NFrac (c :: x), toks)
      else if is_e c then Some (LNum NExp (c :: x), toks)
      else as_float
  | NExp =>
      if (c =? 43) || (c =? 45) then Some (LNum NExpSign (c :: x), toks)
      else if is_digit c then Some (LNum NExpDig (c :: x), toks)
      else None
  | NExpSign => if is_digit c then Some (LNum NExpDig (c :: x), toks) else None
  | NExpDig =>
      if is_digit c then Some (LNum NExpDig (c :: x), toks) else as_float
  end.

Definition lex_step (l : lexer) (c : Z) : option lexer :=
  let (st, toks) := l in
  match st with
  | LIdle => idle_step toks c
  | LStr acc => str_step acc toks c
  | LEsc acc => esc_step acc toks c
  | LHex acc pend n val => hex_step acc pend n val toks c
  | LHigh acc hi =>
      if c =? 92 then Some (LHighEsc acc hi, toks)
      else str_step (hi :: acc) toks c
  | LHighEsc acc hi =>
      if c =? 117 then Some (LHex acc (Some hi) 0 0, toks)
      else esc_step (hi :: acc) toks c
  | LKw rest t => kw_step rest t toks c
  | LNum ph x => num_step ph x toks c
  end.

Fixpoint lex_run (l : lexer) (s : str) : option lexer :=
  match s with
  | [] => Some l
  | c :: r => match lex_step l c with Some l' => lex_run l' r | None => None end
  end.

(** At the end of the text only a complete number may still be open. *)
Definition lex_finish (l : lexer) : option (list token) :=
  let (st, toks) := l in
  match st with
  | LIdle => Some (rev toks)
  | LNum NZero x | LNum NInt x => Some (rev (TInt (int_of_lexeme (rev x)) :: toks))
  | LNum NFrac x | LNum NExpDig x => Some (rev (TFloat (rev x) :: toks))
  | _ => None
  end.

Definition lex (s : str) : option (list token) :=
  match lex_run (LIdle, []) s with
  | Some l => lex_finish l
  | None => None
  end.

(** The container a value is being read for. *)
Inductive frame :=
| FArr (items : list pyval)                 (* elements read so far, reversed *)
| FObj (d : pydict) (k : str).              (* pairs read so far, pending key *)

Inductive pstate :=
| SValue (stk : list frame) (first : bool)  (* a value; "]" too right after "[" *)
| SArrNext (stk : list frame) (items : list pyval)
| SKey (stk : list frame) (d : pydict) (first : bool)
| SColon (stk : list frame) (d : pydict) (k : str)
| SObjNext (stk : list frame) (d : pydict)
| SDone (v : pyval).

(** A value is complete: hand it to the enclosing container. *)
Definition push_value (stk : list frame) (v : pyval) : pstate :=
  match stk with
  | [] => SDone v
  | FArr items :: stk' => SArrNext stk' (v :: items)
  | FObj d k :: stk' => SObjNext stk' (dict_set d k v)
  end.

Definition parse_step (st : pstate) (t : token) : option pstate :=
  match st with
  | SValue stk first =>
      match t with
      | TStr s => Some (push_value stk (PStr s))
      | TInt z => Some (push_value stk (PInt z))
      | TFloat x => Some (push_value stk (PFloat x))
      | TTrue => Some (push_value stk (PBool true))
      | TFalse => Some (push_value stk (PBool false))
      | TNull => Some (push_value stk PNone)
      | TLBracket => Some (SValue (FArr [] :: stk) true)
      | TLBrace => Some (SKey stk [] true)
      | TRBracket =>
          match first, stk with
          | true, FArr [] :: stk' => Some (push_value stk' (PList []))
          | _, _ => None
          end
      | _ => None
      end
  | SArrNext stk items =>
      match t with
      | TComma => Some (SValue (FArr items :: stk) false)
      | TRBracket => Some (push_value stk (PList (rev items)))
      | _ => None
      end
  | SKey stk d first =>
      match t with
      | TStr k => Some (SColon stk d k)
      | TRBrace => if first then Some (push_value stk (PDict d)) else None
      | _ => None
      end
  | SColon stk d k =>
      match t with
      | TColon => Some (SValue (FObj d k :: stk) false)
      | _ => None
      end
  | SObjNext stk d =>
      match t with
      | TComma => Some (SKey stk d false)
      | TRBrace => Some (push_value stk (PDict d))
      | _ => None
      end
  | SDone _ => None
  end.

Fixpoint parse_run (st : pstate) (ts : list token) : option pstate :=
  match ts with
  | [] => Some st
  | t :: r => match parse_step st t with Some st' => parse_run st' r | None => None end
  end.

Definition parse (ts : list token) : option pyval :=
  match parse_run (SValue [] false) ts with
  | Some (SDone v) => Some v
  | _ => None
  end.

(** The tokens of the text [dumps] prints for a value. *)
Fixpoint tokens_of (v : pyval) : list token :=
  match v with
  | PNone => [TNull]
  | PBool true => [TTrue]
  | PBool false => [TFalse]
  | PInt z => [TInt z]
  | PFloat x => [TFloat x]
  | PStr s => [TStr s]
  | PList [] => [TLBracket; TRBracket]
  | PList (x :: r) =>
      TLBracket :: tokens_of x
      ++ flat_map (fun y => TComma :: tokens_of y) r ++ [TRBracket]
  | PDict [] => [TLBrace; TRBrace]
  | PDict (kv :: r) =>
      TLBrace :: TStr (fst kv) :: TColon :: tokens_of (snd kv)
      ++ flat_map (fun kv => TComma :: TStr (fst kv) :: TColon :: tokens_of (snd kv)) r
      ++ [TRBrace]
  end.

(** [json.loads(s)]: [None] stands for JSONDecodeError.  CPython's own
    limits are not part of it: there a text nested deeper than the
    interpreter's recursion limit allows raises RecursionError, and an
    integer of more than 4300 digits raises ValueError; [within_limits]
    below bounds a text so that neither is reached.  A number with a
    fraction or an exponent is kept as its literal. *)
Definition loads (s : str) : option pyval :=
  match lex s with
  | Some ts => parse ts
  | None => None
  end.

End Json.

(** ** The world: files, globals and what was sent *)

Inductive exn :=
| OpenAIError (msg : str)
| JSONDecodeError
| UnicodeDecodeError
| UnicodeEncodeError
| FileNotFoundError
| OSError
| KeyError
| TypeError
| IndexError
| AttributeError.

(** Files by path, in the order [os.listdir] reports them. *)
Definition FS := list (str * bytes).

Fixpoint fs_read (fs : FS) (p : str) : option bytes :=
  match fs with
  | [] => None
  | (q, c) :: r => if str_eqb q p then Some c else fs_read r p
  end.

(** An existing file is overwritten in place, a new one comes last. *)
Fixpoint fs_write (fs : FS) (p : str) (c : bytes) : FS :=
  match fs with
  | [] => [(p, c)]
  | (q, c') :: r => if str_eqb q p then (q, c) :: r else (q, c') :: fs_write r p c
  end.

Definition fs_exists (fs : FS) (p : str) : bool :=
  match fs_read fs p with Some _ => true | None => false end.

Definition fs_append (fs : FS) (p : str) (c : bytes) : FS :=
  match fs_read fs p with
  | Some old => fs_write fs p (old ++ c)
  | None => fs_write fs p c
  end.

(** What a handler does to the outside, oldest first in [trace]. *)
Inductive event :=
| EvWrite (path : str) (content : bytes)     (* a file opened with "w", closed *)
| EvAppend (path : str) (content : bytes)    (* a file opened with "a", closed *)
| EvReply (text : str).                      (* [reply_text] *)

Record World := mkWorld {
  fs : FS;
  bot_data : pyval;
  BOT_USERNAME : option str;
  trace : list event
}.

Definition apply_event (f : FS) (e : event) : FS :=
  match e with
  | EvWrite p c => fs_write f p c
  | EvAppend p c => fs_append f p c
  | EvReply _ => f
  end.

(** The file system after the events [es], from [f]. *)
Definition replay (es : list event) (f : FS) : FS := fold_left apply_event es f.

Inductive result (A : Type) :=
| Ok (a : A)
| Raise (e : exn).
Arguments Ok {A} a.
Arguments Raise {A} e.

Definition M (A : Type) : Type := World -> result A * World.

Definition ret {A} (a : A) : M A := fun w => (Ok a, w).
Definition raise {A} (e : exn) : M A := fun w => (Raise e, w).

Definition bind {A B} (m : M A) (k : A -> M B) : M B :=
  fun w =>
    match m w with
    | (Ok a, w') => k a w'
    | (Raise e, w') => (Raise e, w')
    end.

(** [try: m  except Exception as e: h e]. *)
Definition try_except {A} (m : M A) (h : exn -> M A) : M A :=
  fun w =>
    match m w with
    | (Ok a, w') => (Ok a, w')
    | (Raise e, w') => h e w'
    end.

Declare Scope monad_scope.
Delimit Scope monad_scope with monad.
Notation "x <- m ;; k" := (bind m (fun x => k))
  (at level 61, m at next level, right associativity) : monad_scope.
Notation "m ;; k" := (bind m (fun _ => k))
  (at level 61, right associativity) : monad_scope.
Open Scope monad_scope.

Definition emit (e : event) : M unit :=
  fun w => (Ok tt, mkWorld (apply_event (fs w) e) (bot_data w) (BOT_USERNAME w)
                     (trace w ++ [e])).

Definition get_bot_data : M pyval := fun w => (Ok (bot_data w), w).
Definition set_bot_data (v : pyval) : M unit :=
  fun w => (Ok tt, mkWorld (fs w) v (BOT_USERNAME w) (trace w)).
Definition get_BOT_USERNAME : M (option str) := fun w => (Ok (BOT_USERNAME w), w).
Definition set_BOT_USERNAME (u : str) : M unit :=
  fun w => (Ok tt, mkWorld (fs w) (bot_data w) (Some u) (trace w)).

(** [os.path.exists(p)]. *)
Definition path_exists (p : str) : M bool := fun w => (Ok (fs_exists (fs w) p), w).

(** [open(p, "rb").read()]. *)
Definition read_bytes (p : str) : M bytes :=
  fun w =>
    match fs_read (fs w) p with
    | Some c => (Ok c, w)
    | None => (Raise FileNotFoundError, w)
    end.

(** [os.path.getsize(p)]. *)
Definition getsize (p : str) : M Z := c <- read_bytes p ;; ret (len c).

(** [open(p, "r", encoding="utf-8").read()]. *)
Definition read_text (p : str) : M str :=
  c <- read_bytes p ;;
  match Utf8.decode c with
  | Some s => ret (Py.universal_newlines s)
  | None => raise UnicodeDecodeError
  end.

(** [with open(p, "w", encoding="utf-8") as f: f.write(s)].  Opening
    empties the file; text that cannot be encoded leaves it so.  ([json.dump]
    hands its text over in pieces, so that in Python the pieces before the
    offending one reach the file; here the text is one piece.  What is left
    is not a complete document in either case.) *)
Definition write_text (p : str) (s : str) : M unit :=
  match Utf8.encode s with
  | Some c => emit (EvWrite p c)
  | None => emit (EvWrite p []) ;; raise UnicodeEncodeError
  end.

(** [with open(p, "a", encoding="utf-8") as f: f.write(s)]. *)
Definition append_text (p : str) (s : str) : M unit :=
  match Utf8.encode s with
  | Some c => emit (EvAppend p c)
  | None => emit (EvAppend p []) ;; raise UnicodeEncodeError
  end.

Definition reply_text (s : str) : M unit := emit (EvReply s).

(** Where the source expects a value of one type and would carry on in some
    way of its own with another, the model raises TypeError. *)
Definition as_dict (v : pyval) : M pydict :=
  match v with PDict d => ret d | _ => raise TypeError end.
Definition as_str (v : pyval) : M str :=
  match v with PStr s => ret s | _ => raise TypeError end.
Definition as_list (v : pyval) : M (list pyval) :=
  match v with PList l => ret l | _ => raise TypeError end.

(** [bot_data[k]]. *)
Definition get_item (k : str) : M pyval :=
  v <- get_bot_data ;;
  d <- as_dict v ;;
  match dict_get d k with
  | Some x => ret x
  | None => raise KeyError
  end.

(** [bot_data[k] = x]. *)
Definition set_item (k : str) (x : pyval) : M unit :=
  v <- get_bot_data ;;
  d <- as_dict v ;;
  set_bot_data (PDict (dict_set d k x)).

(** ** Paths *)

Definition slash : Z := 47.

(** [os.path.join(a, b)]. *)
Definition path_join (a b : str) : str :=
  if Py.startswith b [slash] then b
  else match a with
       | [] => b
       | _ => if Py.endswith a [slash] then a ++ b else a ++ [slash] ++ b
       end.

Fixpoint strip_prefix (p s : str) : option str :=
  match p, s with
  | [], _ => Some s
  | x :: p', y :: s' => if x =? y then strip_prefix p' s' else None
  | _ :: _, [] => None
  end.

(** The name under which directory [d] lists the file at [path], if it
    lies directly in [d]. *)
Definition entry_name (d path : str) : option str :=
  match strip_prefix (path_join d []) path with
  | Some n =>
      match n with
      | [] => None
      | _ => if existsb (Z.eqb slash) n then None else Some n
      end
  | None => None
  end.

(** [os.listdir(d)]. *)
Definition listdir (d : str) : M (list str) :=
  fun w =>
    match d with
    | [] => (Raise FileNotFoundError, w)
    | _ => (Ok (omap (fun e => entry_name d (fst e)) (fs w)), w)
    end.

(** ** Configuration and collaborators *)

(** The entries of [CONFIG] the modelled functions read. *)
Record Config := mkConfig {
  max_context_msg : Z;
  docs_dir : str;
  chat_history_file : str;
  data_file : str;
  default_system_prompt : str;
  error_tip : str;
  non_text_tip : str;
  no_question_tip : str
}.

Definition nl : str := [10].

(** [default_config] of [load_config]. *)
Definition default_config : Config := Eval vm_compute in
  mkConfig 20
    (lit "docs")
    (lit "docs/chat_history.txt")
    (lit "tg_single_group_data.json")
    (lit "你是本群组的智能助手，核心规则：" ++ nl
     ++ lit "1. 优先且精准参考docs文件夹中的所有txt文件内容回答问题；" ++ nl
     ++ lit "2. 结合历史对话上下文，回答完整、准确，不要遗漏关键信息；" ++ nl
     ++ lit "3. 保持友好的交流语气，语言自然，符合日常聊天习惯。")
    (lit "😥 抱歉，处理你的请求时出错了！" ++ nl
     ++ lit "可能的原因：" ++ nl
     ++ lit "1. 发送了非文本消息（如图片、语音）@我，请发送文字问题；" ++ nl
     ++ lit "2. 网络/OpenAI API Key异常，请稍后再试；" ++ nl
     ++ lit "3. 文档格式错误，请检查后执行/reloadall重新加载。")
    (lit "🙅 抱歉，我暂时只支持文字消息哦！请@我并发送文字问题，我会尽力解答。")
    (lit "@{user_name} 你@我啦，但没说具体问题哦～请输入想咨询的内容，我会参考所有文档尽力解答！").

(** What [client.chat.completions.create] comes back with: a response, whose
    [choices[i].message.content] may be [None], or an [OpenAIError]. *)
Inductive completion :=
| Completion (choices : list (option str))
| ApiError (msg : str).

(** The globals fixed at start-up and the collaborators: [CONFIG], [client]
    ([None] without an API key; it is given the message list) and the
    user name [get_me] reports. *)
Record Env := mkEnv {
  CONFIG : Config;
  client : option (list pyval -> completion);
  me_username : str
}.

(** The transport's view of an inbound update. *)
Module Tg.
Inductive entity_type := mention | other.
Record MessageEntity := mkEntity { type : entity_type; offset : nat; length : nat }.
Record Message := mkMessage { text : option str; entities : list MessageEntity }.
Record Update := mkUpdate { message : option Message; first_name : option str }.
End Tg.

(** ** Literals of the source *)

Definition k_conversation_context : str := Eval vm_compute in lit "conversation_context".
Definition k_knowledge_base : str := Eval vm_compute in lit "knowledge_base".
Definition k_custom_prompt : str := Eval vm_compute in lit "custom_prompt".
Definition k_role : str := Eval vm_compute in lit "role".
Definition k_content : str := Eval vm_compute in lit "content".
Definition r_system : str := Eval vm_compute in lit "system".
Definition r_user : str := Eval vm_compute in lit "user".
Definition r_assistant : str := Eval vm_compute in lit "assistant".
Definition dot_txt : str := Eval vm_compute in lit ".txt".
Definition at_sign : str := Eval vm_compute in lit "@".
Definition USER_TAG : str := Eval vm_compute in lit "【用户】".
Definition ASSISTANT_TAG : str := Eval vm_compute in lit "【助手】".
Definition HISTORY_HEADER : str := Eval vm_compute in lit "# 群聊对话历史" ++ nl ++ nl.
Definition ROTATION_MARKER : str := Eval vm_compute in
  lit "# 群聊对话历史（自动截断，仅保留最后50MB）" ++ nl ++ nl.
Definition DEFAULT_USER_NAME : str := Eval vm_compute in lit "用户".
Definition NO_KEY_TIP : str := Eval vm_compute in
  lit "❌ 未配置OpenAI API Key！请检查.env文件中的OPENAI_API_KEY是否正确".
Definition ANSWER_FAILED : str := Eval vm_compute in lit "❌ 回答失败：".
Definition USER_NAME_FIELD : str := Eval vm_compute in lit "{user_name}".

Definition ROTATION_MARKER_BYTES : bytes := Eval vm_compute in
  bytes_of_string "# 群聊对话历史（自动截断，仅保留最后50MB）" ++ [10; 10].

Definition MAX_SINGLE_FILE_SIZE : Z := 10 * 1024 * 1024.
Definition MAX_CHAT_FILE_SIZE : Z := 100 * 1024 * 1024.
Definition TRIM_TO_SIZE : Z := 50 * 1024 * 1024.

(** [{"role": role, "content": content}]. *)
Definition turn (role content : str) : pyval :=
  PDict [(k_role, PStr role); (k_content, PStr content)].

(** The header a document is filed under in the knowledge base. *)
Definition doc_entry (filename content : str) : str :=
  nl ++ nl ++ lit "===== 【文档：" ++ filename ++ lit "】 =====" ++ nl ++ content.

(** The system entry: the prompt, with the knowledge base beneath it. *)
Definition system_content (prompt kb : str) : str :=
  match kb with
  | [] => prompt
  | _ => prompt ++ nl ++ nl ++ lit "===== 【所有参考文档】 =====" ++ nl ++ kb
  end.

(** One exchange in the history file. *)
Definition history_record (user_question ai_reply : str) : str :=
  USER_TAG ++ user_question ++ nl ++ ASSISTANT_TAG ++ ai_reply ++ nl ++ nl.

(** [template.format(user_name=user_name)] for a template whose only field
    is [{user_name}] and that has no other brace in it ([simple_template]
    below): for such a template [str.format] is the replacement of the
    field.  Other templates (doubled braces, other fields) are outside this
    definition. *)
Definition format_user_name (template user_name : str) : str :=
  Py.replace template USER_NAME_FIELD user_name.

(** [if len(ctx) > n: ctx = ctx[-n:]]. *)
Definition keep_last (n : Z) (ctx : list pyval) : list pyval :=
  if len ctx >? n then Py.slice_from ctx (- n) else ctx.

(** ** The handlers *)

Section Handlers.

Variable env : Env.
Let cfg : Config := CONFIG env.

(** The state a missing or unreadable data file is replaced with. *)
Definition empty_bot_data : pyval :=
  PDict [(k_conversation_context, PList []);
         (k_knowledge_base, PStr []);
         (k_custom_prompt, PStr (default_system_prompt cfg))].

(** [save_data]: a failure to write is logged, not raised. *)
Definition save_data : M unit :=
  try_except
    (d <- get_bot_data ;; write_text (data_file cfg) (Json.dumps d))
    (fun _ => ret tt).

(** [json.load(f)] on the file at [p]. *)
Definition json_load (p : str) : M pyval :=
  s <- read_text p ;;
  match Json.loads s with
  | Some v => ret v
  | None => raise JSONDecodeError
  end.

(** [load_data]. *)
Definition load_data : M unit :=
  ex <- path_exists (data_file cfg) ;;
  if ex then
    try_except
      (v <- json_load (data_file cfg) ;; set_bot_data v)
      (fun e =>
         match e with
         | JSONDecodeError => set_bot_data empty_bot_data ;; save_data
         | _ => set_bot_data empty_bot_data ;; save_data
         end)
  else set_bot_data empty_bot_data ;; save_data.

(** The loop of [load_all_docs] over the lines of the history file.  It
    appends to the conversation in place and cannot raise, so it is given as
    the list it builds. *)
Fixpoint parse_history (lines : list str) (user_msg assistant_msg : str)
    (ctx : list pyval) : list pyval :=
  match lines with
  | [] => ctx
  | l :: r =>
      let line := Py.strip l in
      if Py.startswith line USER_TAG then
        parse_history r (Py.strip (Py.replace line USER_TAG [])) assistant_msg ctx
      else if Py.startswith line ASSISTANT_TAG then
        let assistant_msg' := Py.strip (Py.replace line ASSISTANT_TAG []) in
        match user_msg, assistant_msg' with
        | _ :: _, _ :: _ =>
            parse_history r [] []
              (ctx ++ [turn r_user user_msg; turn r_assistant assistant_msg'])
        | _, _ => parse_history r user_msg assistant_msg' ctx
        end
      else parse_history r user_msg assistant_msg ctx
  end.

(** One round of the loop over [os.listdir(docs_dir)]; [total_files] is
    threaded through. *)
Definition load_doc (filename : str) (total_files : Z) : M Z :=
  if negb (Py.endswith (Py.lower filename) dot_txt) then ret total_files
  else
    let file_path := path_join (docs_dir cfg) filename in
    size <- getsize file_path ;;
    if size >? MAX_SINGLE_FILE_SIZE then ret total_files
    else
      try_except
        (raw <- read_text file_path ;;
         match Py.strip raw with
         | [] => ret total_files
         | content =>
             kb <- get_item k_knowledge_base ;;
             kb <- as_str kb ;;
             set_item k_knowledge_base (PStr (kb ++ doc_entry filename content)) ;;
             ret (total_files + 1)
         end)
        (fun _ => ret total_files).

Fixpoint load_docs (names : list str) (total_files : Z) : M Z :=
  match names with
  | [] => ret total_files
  | n :: r => t <- load_doc n total_files ;; load_docs r t
  end.

(** The third step of [load_all_docs]; the result is [chat_count]. *)
Definition load_history : M Z :=
  ex <- path_exists (chat_history_file cfg) ;;
  if negb ex then
    write_text (chat_history_file cfg) HISTORY_HEADER ;; ret 0
  else
    try_except
      (s <- read_text (chat_history_file cfg) ;;
       let lines := Py.readlines s in
       set_item k_conversation_context (PList []) ;;
       set_item k_conversation_context
         (PList (keep_last (max_context_msg cfg) (parse_history lines [] [] []))) ;;
       c <- get_item k_conversation_context ;;
       c <- as_list c ;;
       ret (len c / 2))
      (fun _ => ret 0).

Definition load_report (total_files chat_count : Z) : str :=
  lit "✅ 文档加载完成！" ++ nl
  ++ lit "📚 成功加载" ++ Json.int_repr total_files
  ++ lit "个TXT文档（所有文档均已加载，无筛选）" ++ nl
  ++ lit "💬 加载" ++ Json.int_repr chat_count ++ lit "轮历史对话（最大保留"
  ++ Json.int_repr (max_context_msg cfg) ++ lit "条消息）" ++ nl
  ++ lit "💡 提示：修改docs目录下的文件后，需发送/reloadall重新加载".

(** [load_all_docs(notify)]. *)
Definition load_all_docs (notify : bool) : M (option str) :=
  set_item k_knowledge_base (PStr []) ;;
  names <- listdir (docs_dir cfg) ;;
  total_files <- load_docs names 0 ;;
  chat_count <- load_history ;;
  save_data ;;
  ret (if notify then Some (load_report total_files chat_count) else None).

(** The third step of [handle_mention]: the first mention entity whose text,
    in lower case and without "@", is the bot's name marks the message as
    addressed to the bot; the question is the text without that span.
    The result is [(is_mention_me, user_question)]. *)
Fixpoint parse_mention (text : str) (bot_username : str)
    (entities : list Tg.MessageEntity) (user_question : str) : bool * str :=
  match entities with
  | [] => (false, user_question)
  | entity :: r =>
      match Tg.type entity with
      | Tg.mention =>
          let first := Tg.offset entity in
          let last := (Tg.offset entity + Tg.length entity)%nat in
          let mention_text := Py.lower (Py.slice text first last) in
          if str_eqb (Py.replace mention_text at_sign []) bot_username
          then (true, Py.strip (firstn first text ++ skipn last text))
          else parse_mention text bot_username r user_question
      | Tg.other => parse_mention text bot_username r user_question
      end
  end.

(** The seventh step of [handle_mention]: an over-long history file is cut
    to its last [TRIM_TO_SIZE] bytes under a marker line. *)
Definition rotate_history : M unit :=
  let p := chat_history_file cfg in
  ex <- path_exists p ;;
  size <- (if ex then getsize p else ret 0) ;;
  if ex && (size >? MAX_CHAT_FILE_SIZE) then
    c <- read_bytes p ;;
    (* f.seek(-TRIM_TO_SIZE, os.SEEK_END) *)
    (if len c <? TRIM_TO_SIZE then raise OSError else ret tt) ;;
    let content := Utf8.decode_ignore (skipn (Z.to_nat (len c - TRIM_TO_SIZE)) c) in
    write_text p (ROTATION_MARKER ++ content)
  else ret tt.

(** Steps six and seven of [handle_mention]: fold the exchange back into
    the state. *)
Definition commit (user_question ai_reply : str) : M unit :=
  ctx <- get_item k_conversation_context ;;
  ctx <- as_list ctx ;;
  set_item k_conversation_context (PList (ctx ++ [turn r_user user_question])) ;;
  ctx <- get_item k_conversation_context ;;
  ctx <- as_list ctx ;;
  set_item k_conversation_context (PList (ctx ++ [turn r_assistant ai_reply])) ;;
  ctx <- get_item k_conversation_context ;;
  ctx <- as_list ctx ;;
  (if len ctx >? max_context_msg cfg
   then set_item k_conversation_context (PList (Py.slice_from ctx (- max_context_msg cfg)))
   else ret tt) ;;
  save_data ;;
  rotate_history ;;
  append_text (chat_history_file cfg) (history_record user_question ai_reply).

(** [response.choices[0].message.content.strip()]. *)
Definition first_content (choices : list (option str)) : M str :=
  match choices with
  | [] => raise IndexError
  | None :: _ => raise AttributeError
  | Some c :: _ => ret (Py.strip c)
  end.

(** Step four of [handle_mention]: the request sent to the model.  It is
    the source's on every state whose entries, where present, have the types
    the handlers give them ([typed_state] below): with a prompt or a
    conversation of another type Python carries on in ways of its own where
    this raises TypeError. *)
Definition build_messages (user_question : str) : M (list pyval) :=
  prompt <- get_item k_custom_prompt ;;
  prompt <- as_str prompt ;;
  kb <- get_item k_knowledge_base ;;
  kb <- as_str kb ;;
  ctx <- get_item k_conversation_context ;;
  ctx <- as_list ctx ;;
  ret ([turn r_system (system_content prompt kb)] ++ ctx ++ [turn r_user user_question]).

(** The [try] block of [handle_mention] with its two [except] clauses. *)
Definition answer (messages : list pyval) (user_question : str) : M unit :=
  try_except
    (match client env with
     | None => reply_text NO_KEY_TIP
     | Some create =>
         match create messages with
         | ApiError msg => raise (OpenAIError msg)
         | Completion choices =>
             ai_reply <- first_content choices ;;
             commit user_question ai_reply ;;
             reply_text ai_reply
         end
     end)
    (fun e =>
       match e with
       | OpenAIError msg => reply_text (ANSWER_FAILED ++ msg)
       | _ => reply_text (error_tip cfg)
       end).

(** [update.effective_user.first_name or "用户"]. *)
Definition user_name_of (update : Tg.Update) : str :=
  match Tg.first_name update with
  | None | Some [] => DEFAULT_USER_NAME
  | Some n => n
  end.

(** [handle_mention(update, context)]. *)
Definition handle_mention (update : Tg.Update) : M unit :=
  match Tg.message update with
  | None => reply_text (non_text_tip cfg)
  | Some message =>
      match Tg.text message with
      | None | Some [] => reply_text (non_text_tip cfg)
      | Some text =>
          let user_name := user_name_of update in
          known <- get_BOT_USERNAME ;;
          bot_username <-
            match known with
            | None | Some [] =>
                let u := Py.lower (me_username env) in
                set_BOT_USERNAME u ;; ret u
            | Some u => ret u
            end ;;
          let (is_mention_me, user_question) :=
            parse_mention text bot_username (Tg.entities message) (Py.strip text) in
          if negb is_mention_me then ret tt
          else
            match user_question with
            | [] => reply_text (format_user_name (no_question_tip cfg) user_name)
            | _ =>
                messages <- build_messages user_question ;;
                answer messages user_question
            end
      end
  end.

End Handlers.

(** ** The data model of the specification *)

(** [bot_data] as the handlers keep it. *)
Definition shaped (ctx : list pyval) (kb prompt : str) : pyval :=
  PDict [(k_conversation_context, PList ctx);
         (k_knowledge_base, PStr kb);
         (k_custom_prompt, PStr prompt)].

Inductive Role := user | assistant.

Record Turn := mkTurn { role : Role; content : str }.

Record PersistedState := mkState {
  conversation : list Turn;
  corpus : str;
  systemPrompt : str
}.

Definition role_name (r : Role) : str :=
  match r with user => r_user | assistant => r_assistant end.

Definition turn_value (t : Turn) : pyval := turn (role_name (role t)) (content t).

Definition state_value (st : PersistedState) : pyval :=
  shaped (map turn_value (conversation st)) (corpus st) (systemPrompt st).

(** Text a UTF-8 file can hold. *)
Definition valid_text (s : str) : bool := forallb Utf8.is_scalar s.

(** Characters that pass through a text file unchanged: text other than
    the carriage return (which reading turns into a line feed). *)
Definition clean (c : Z) : bool := Utf8.is_scalar c && negb (c =? 13).

(** A valid state: every string in it is text. *)
Definition valid_state (st : PersistedState) : bool :=
  forallb (fun t => valid_text (content t)) (conversation st)
  && valid_text (corpus st) && valid_text (systemPrompt st).

(** The conversation held in memory, when [bot_data] has one. *)
Definition conversation_of (w : World) : option (list pyval) :=
  match bot_data w with
  | PDict d =>
      match dict_get d k_conversation_context with
      | Some (PList l) => Some l
      | _ => None
      end
  | _ => None
  end.

(** The knowledge base held in memory. *)
Definition knowledge_of (w : World) : option str :=
  match bot_data w with
  | PDict d =>
      match dict_get d k_knowledge_base with
      | Some (PStr s) => Some s
      | _ => None
      end
  | _ => None
  end.

(** The two turns of an exchange. *)
Definition pair_turns (qa : str * str) : list pyval :=
  [turn r_user (fst qa); turn r_assistant (snd qa)].

(** The conversation after one more exchange, as [commit] leaves it. *)
Definition append_turn_pair (n : Z) (ctx : list pyval) (qa : str * str) : list pyval :=
  keep_last n ((ctx ++ [turn r_user (fst qa)]) ++ [turn r_assistant (snd qa)]).

(** The worlds after each of a run of commits, oldest first. *)
Fixpoint commits (env : Env) (qas : list (str * str)) (w : World) : list World :=
  match qas with
  | [] => []
  | (q, a) :: r =>
      let w' := snd (commit env q a w) in w' :: commits env r w'
  end.

(** Whether entity [e] is a mention of [bot_username] in [text]. *)
Definition addresses (text bot_username : str) (e : Tg.MessageEntity) : bool :=
  match Tg.type e with
  | Tg.mention =>
      str_eqb
        (Py.replace
           (Py.lower (Py.slice text (Tg.offset e) (Tg.offset e + Tg.length e)%nat))
           at_sign [])
        bot_username
  | Tg.other => false
  end.

(** The text a span covers, and the text without the span. *)
Definition span_text (text : str) (e : Tg.MessageEntity) : str :=
  Py.slice text (Tg.offset e) (Tg.offset e + Tg.length e)%nat.
Definition without_span (text : str) (e : Tg.MessageEntity) : str :=
  firstn (Tg.offset e) text ++ skipn (Tg.offset e + Tg.length e)%nat text.

(** [s] occurs in [t] as a contiguous piece. *)
Definition occurs_in (s t : str) : Prop := exists l r, t = l ++ s ++ r.

(** What one document contributes to the knowledge base: nothing unless it
    is a text file of at most [MAX_SINGLE_FILE_SIZE] bytes that decodes and
    is not blank. *)
Definition doc_text (cfg : Config) (f : FS) (filename : str) : str :=
  if negb (Py.endswith (Py.lower filename) dot_txt) then []
  else
    match fs_read f (path_join (docs_dir cfg) filename) with
    | None => []
    | Some c =>
        if len c >? MAX_SINGLE_FILE_SIZE then []
        else
          match Utf8.decode c with
          | None => []
          | Some s =>
              match Py.strip (Py.universal_newlines s) with
              | [] => []
              | content => doc_entry filename content
              end
          end
    end.

(** The knowledge base the directory amounts to. *)
Definition corpus_of (cfg : Config) (f : FS) : str :=
  flat_map (doc_text cfg f) (omap (fun e => entry_name (docs_dir cfg) (fst e)) f).

(** Whether the file at [path] is one the loader reads as a document. *)
Definition is_document (cfg : Config) (path : str) : bool :=
  match entry_name (docs_dir cfg) path with
  | Some n => Py.endswith (Py.lower n) dot_txt
  | None => false
  end.

Definition HISTORY_HEADER_BYTES : bytes := Eval vm_compute in
  bytes_of_string "# 群聊对话历史" ++ [10; 10].

(** What a reload does to the history file: it creates it when absent. *)
Definition history_events (cfg : Config) (f : FS) : list event :=
  if fs_exists f (chat_history_file cfg) then []
  else [EvWrite (chat_history_file cfg) HISTORY_HEADER_BYTES].

(** Whether a data file is one [json.load] accepts. *)
Definition well_formed (c : bytes) : bool :=
  match Utf8.decode c with
  | Some s =>
      match Json.loads (Py.universal_newlines s) with
      | Some _ => true
      | None => false
      end
  | None => false
  end.

(** The history file holds the transcript [s] (as text [read] returns it). *)
Definition transcript (cfg : Config) (f : FS) : option str :=
  match fs_read f (chat_history_file cfg) with
  | Some c =>
      match Utf8.decode c with
      | Some s => Some (Py.universal_newlines s)
      | None => None
      end
  | None => None
  end.

(** The conversation a transcript amounts to. *)
Definition conversation_from (cfg : Config) (s : str) : list pyval :=
  keep_last (max_context_msg cfg) (parse_history (Py.readlines s) [] [] []).


(** An exchange the model collaborator does not answer: the call raises
    ([OpenAIError]: timeout, quota, a response the client rejects), or the
    response has no first choice or no content in it. *)
Definition failed (c : completion) : bool :=
  match c with
  | ApiError _ => true
  | Completion [] => true
  | Completion (None :: _) => true
  | Completion (Some _ :: _) => false
  end.

(** The conversation after a reload: the one the transcript amounts to
    when the history file is there and decodes, the one in memory otherwise. *)
Definition reloaded_conversation (cfg : Config) (f : FS) (ctx : list pyval)
    : list pyval :=
  match transcript cfg f with
  | Some s => conversation_from cfg s
  | None => ctx
  end.

(** ** Where the model is the source *)

(** A template [str.format] fills as [format_user_name] does: every brace in
    it belongs to a field [{user_name}]. *)
Definition simple_template (template : str) : bool :=
  negb (existsb (fun c => (c =? 123) || (c =? 125))
          (Py.replace template USER_NAME_FIELD [])).

Definition is_str (v : pyval) : bool := match v with PStr _ => true | _ => false end.
Definition is_list (v : pyval) : bool := match v with PList _ => true | _ => false end.

(** The entry of [d] under [k], when there is one, passes [ok]. *)
Definition entry_is (ok : pyval -> bool) (d : pydict) (k : str) : bool :=
  match dict_get d k with
  | Some x => ok x
  | None => true
  end.

(** A state whose entries, where present, have the types the handlers give
    them: text for the prompt and for the knowledge base, a list for the
    conversation.  (A state that is no dictionary at all raises TypeError at
    the first subscript, in the source as here.) *)
Definition typed_state (v : pyval) : bool :=
  match v with
  | PDict d =>
      entry_is is_str d k_custom_prompt && entry_is is_str d k_knowledge_base
      && entry_is is_list d k_conversation_context
  | _ => true
  end.

(** The limits CPython puts on [json.load]: a text with at most
    [NESTING_BOUND] opening brackets is nested no deeper than that, far
    below any recursion limit, and an integer has no more digits than the
    longest run of digits in the text. *)
Definition NESTING_BOUND : nat := 100.
Definition INT_MAX_STR_DIGITS : nat := 4300.

Definition is_open (c : Z) : bool := (c =? 91) || (c =? 123).

(** The longest run of decimal digits in [s]; [cur] is the run being read,
    [best] the longest so far. *)
Fixpoint longest_digit_run (cur best : nat) (s : str) : nat :=
  match s with
  | [] => Nat.max cur best
  | c :: r =>
      if Json.is_digit c then longest_digit_run (S cur) best r
      else longest_digit_run O (Nat.max cur best) r
  end.

Definition within_limits (s : str) : bool :=
  (List.length (filter is_open s) <=? NESTING_BOUND)%nat
  && (longest_digit_run O O s <=? INT_MAX_STR_DIGITS)%nat.

(** ** Sample inputs *)

(** A text message with its entities, from a sender named [name]. *)
Definition text_update (t : str) (es : list Tg.MessageEntity) (name : option str)
    : Tg.Update :=
  Tg.mkUpdate (Some (Tg.mkMessage (Some t) es)) name.

(** The default configuration, without and with a model behind it. *)
Definition sample_env : Env := mkEnv default_config None (lit "Bot").
Definition sample_env_with (create : list pyval -> completion) : Env :=
  mkEnv default_config (Some create) (lit "Bot").

Definition sample_state : PersistedState :=
  mkState [mkTurn user (lit "天气?"); mkTurn assistant (lit "Sunny, 25C")]
    (doc_entry (lit "weather.txt") (lit "Sunny, 25C"))
    (default_system_prompt default_config).

(** The default configuration with another context length. *)
Definition with_max (n : Z) (c : Config) : Config :=
  mkConfig n (docs_dir c) (chat_history_file c) (data_file c) (default_system_prompt c)
    (error_tip c) (non_text_tip c) (no_question_tip c).

Definition odd_env : Env := mkEnv (with_max 3 default_config) None (lit "Bot").
Definition zero_env : Env := mkEnv (with_max 0 default_config) None (lit "Bot").

(** A fresh start: no files, the empty state in memory. *)
Definition fresh_world (env : Env) : World := mkWorld [] (empty_bot_data env) None [].

Definition two_exchanges : list (str * str) :=
  [(lit "one", lit "1"); (lit "two", lit "2")].

(** A history file of one byte more than [MAX_CHAT_FILE_SIZE], all "a". *)
Definition big_history : bytes := repeat 97 (Z.to_nat (MAX_CHAT_FILE_SIZE + 1)).

Definition big_world : World :=
  mkWorld [(chat_history_file default_config, big_history)]
    (empty_bot_data sample_env) None [].

(** The bytes of the record of the exchange ("q", "a"). *)
Definition sample_record : bytes := Eval vm_compute in
  match Utf8.encode (history_record (lit "q") (lit "a")) with
  | Some b => b
  | None => []
  end.

(** A data file that is not JSON. *)
Definition corrupt_world : World :=
  mkWorld [(data_file default_config, bytes_of_string "{oops")] PNone None [].

(** A message that mentions the bot twice. *)
Definition first_mention : Tg.MessageEntity := Tg.mkEntity Tg.mention 0 4.
Definition second_mention : Tg.MessageEntity := Tg.mkEntity Tg.mention 8 4.

(** A model that is out of quota. *)
Definition out_of_quota (_ : list pyval) : completion := ApiError (lit "quota exceeded").

(** A reply of two lines, and the world after a first load and one exchange
    answered with it. *)
Definition two_line_reply : str := lit "a" ++ nl ++ lit "b".

Definition warm_world : World :=
  snd (commit sample_env (lit "q") two_line_reply
         (snd (load_all_docs sample_env false (fresh_world sample_env)))).

(** A document directory with one document, and nothing else on disk. *)
Definition weather_world : World :=
  mkWorld [(lit "docs/weather.txt", bytes_of_string "Sunny, 25C")]
    (empty_bot_data sample_env) None [].

(** A document directory with its history file already there. *)
Definition settled_world : World :=
  mkWorld [(lit "docs/weather.txt", bytes_of_string "Sunny, 25C");
           (lit "docs/chat_history.txt", HISTORY_HEADER_BYTES)]
    (empty_bot_data sample_env) None [].

(** A model whose response has no choice, and one whose first choice has no
    content. *)
Definition no_choices (_ : list pyval) : completion := Completion [].
Definition no_content (_ : list pyval) : completion := Completion [None].

(** The world after a first load, and the same world after a crash in the
    middle of the commit of ("q", "a"): of the events of that commit only
    the first, the write of the data file, has happened.  The program
    restarts with nothing in memory. *)
Definition loaded_world : World :=
  snd (load_all_docs sample_env false (fresh_world sample_env)).

Definition crash_world : World :=
  mkWorld
    (replay
       (firstn 1
          (skipn (List.length (trace loaded_world))
             (trace (snd (commit sample_env (lit "q") (lit "a") loaded_world)))))
       (fs loaded_world))
    PNone None [].

(** A data file that holds a JSON list. *)
Definition list_file_world : World :=
  mkWorld [(data_file default_config, bytes_of_string "[1, 2]")] PNone None [].

(** ** The commands, the upload handler and start-up *)

(** Literals of the commands. *)
Definition k_bot_config : str := Eval vm_compute in lit "bot_config".
Definition k_path_config : str := Eval vm_compute in lit "path_config".
Definition k_prompt_config : str := Eval vm_compute in lit "prompt_config".
Definition config_json : str := Eval vm_compute in lit "config.json".
Definition DOC_OPEN : str := Eval vm_compute in lit "【文档：".
Definition DOC_CLOSE : Z := 0x3011.
Definition WEATHER_QUESTION : str := Eval vm_compute in lit "今天的天气是什么？".
Definition WEATHER_PREFIX : str := Eval vm_compute in lit "🌤️ 今天的天气：" ++ nl.
Definition WEATHER_API_FAILED : str := Eval vm_compute in lit "❌ OpenAI API调用失败：".
Definition WEATHER_FAILED : str := Eval vm_compute in lit "❌ 天气查询失败：".
Definition KB_EMPTY_TIP : str := Eval vm_compute in
  lit "📚 知识库为空！请按以下步骤操作：" ++ nl
  ++ lit "1. 将TXT文件放入docs目录" ++ nl
  ++ lit "2. 在群里发送 /reloadall 加载所有文档".
Definition NO_DOCS : str := Eval vm_compute in lit "无".
Definition BULLET : str := Eval vm_compute in nl ++ lit "- ".
Definition PREVIEW_LENGTH : nat := 1500.
Definition PREVIEW_NOTICE : str := Eval vm_compute in
  nl ++ nl ++ lit "...（内容过长，仅展示前1500字符，完整内容已加载到AI知识库）".
Definition CLEARED_TIP : str := Eval vm_compute in
  lit "🆘 所有数据已成功清空！" ++ nl
  ++ lit "- 内存数据：知识库、对话上下文、自定义提示词（已恢复默认）" ++ nl
  ++ lit "- 文件数据：对话历史.txt、数据JSON文件" ++ nl
  ++ nl ++ lit "💡 提示：发送 /reloadall 可重新加载docs目录下的所有文档".
Definition NOT_TXT_TIP : str := Eval vm_compute in
  lit "❌ 仅支持上传TXT格式的文件！请将内容保存为.txt后再上传".
Definition UPLOAD_FAILED : str := Eval vm_compute in lit "❌ 文件上传失败：".
Definition NONE_TEXT : str := Eval vm_compute in lit "None".

(** The default of [CONFIG["prompt_config"]["weather_system_prompt"]]. *)
Definition default_weather_system_prompt : str := Eval vm_compute in
  lit "你必须严格按照docs文件夹中“天气.txt”的内容回答今天的天气，如果没有天气.txt文件，直接回复“未找到今天的天气信息，请检查天气.txt文件”，绝对不要编造任何天气数据。".

(** [default_config] of [load_config] as the dictionary it is. *)
Definition default_config_value : pyval := Eval vm_compute in
  PDict
    [(k_bot_config,
      PDict [(lit "model", PStr (lit "gpt-4o-mini"));
             (lit "max_file_size", PInt 5242880);
             (lit "max_context_msg", PInt (max_context_msg default_config));
             (lit "poll_interval", PInt 1)]);
     (k_path_config,
      PDict [(lit "docs_dir", PStr (docs_dir default_config));
             (lit "chat_history_file", PStr (chat_history_file default_config));
             (lit "data_file", PStr (data_file default_config))]);
     (k_prompt_config,
      PDict [(lit "default_system_prompt", PStr (default_system_prompt default_config));
             (lit "weather_system_prompt", PStr default_weather_system_prompt);
             (lit "error_tip", PStr (error_tip default_config));
             (lit "non_text_tip", PStr (non_text_tip default_config));
             (lit "no_question_tip", PStr (no_question_tip default_config))])].

(** [load_config], with the directory of the script given.  Only a missing
    file and a text that is not JSON are caught. *)
Definition load_config (script_dir : str) : M pyval :=
  try_except
    (json_load (path_join script_dir config_json))
    (fun e =>
       match e with
       | FileNotFoundError => ret default_config_value
       | JSONDecodeError => ret default_config_value
       | _ => raise e
       end).

(** [sep.join(l)]. *)
Definition str_join (sep : str) (l : list str) : str := Json.join sep l.

(** The group of a match of [(.*?)】] at the start of [s]: the characters up
    to the first "】", none of them a line feed. *)
Fixpoint lazy_until_close (s : str) : option str :=
  match s with
  | [] => None
  | c :: r =>
      if c =? DOC_CLOSE then Some []
      else if c =? 10 then None
      else match lazy_until_close r with
           | Some g => Some (c :: g)
           | None => None
           end
  end.

(** The group of a match of [【文档：(.*?)】] at the start of [s]. *)
Definition match_doc_name (s : str) : option str :=
  match strip_prefix DOC_OPEN s with
  | Some r => lazy_until_close r
  | None => None
  end.

(** The matches from the left, not overlapping; [skip] counts the
    characters of a match still to be passed over. *)
Fixpoint findall_from (skip : nat) (s : str) : list str :=
  match s with
  | [] => []
  | _ :: r =>
      match skip with
      | S k => findall_from k r
      | O =>
          match match_doc_name s with
          | Some g => g :: findall_from (List.length DOC_OPEN + List.length g) r
          | None => findall_from O r
          end
      end
  end.

(** [re.findall(r"【文档：(.*?)】", s)]. *)
Definition findall_doc_names (s : str) : list str := findall_from O s.

(** What the commands read besides [Env]: two more entries of [CONFIG], the
    model as [weather_cmd] calls it (temperature 0.0, at most 500 tokens)
    and the text [str(e)] of an exception other than an [OpenAIError]. *)
Record CommandEnv := mkCommandEnv {
  max_file_size : Z;
  weather_system_prompt : str;
  weather_create : list pyval -> completion;
  exn_text : exn -> str
}.

(** [str(e)]. *)
Definition str_of_exn (cenv : CommandEnv) (e : exn) : str :=
  match e with
  | OpenAIError msg => msg
  | _ => exn_text cenv e
  end.

(** [update.message.document] as the upload handler reads it. *)
Record Document := mkDocument {
  file_name : option str;
  file_size : option Z
}.

(** The preview of [show_kb_cmd]. *)
Definition preview_of (kb_content : str) : str :=
  firstn PREVIEW_LENGTH kb_content
  ++ (if len kb_content >? Z.of_nat PREVIEW_LENGTH then PREVIEW_NOTICE else []).

Definition doc_list_text (doc_names : list str) : str :=
  match doc_names with
  | [] => NO_DOCS
  | _ => BULLET ++ str_join BULLET doc_names
  end.

Definition show_kb_reply (kb_content : str) : str :=
  lit "📚 已加载的所有文档列表：" ++ nl
  ++ doc_list_text (findall_doc_names kb_content) ++ nl ++ nl
  ++ lit "📝 知识库内容预览（所有文档均已完整加载）：" ++ nl
  ++ preview_of kb_content ++ nl ++ nl
  ++ lit "💡 提示：若修改了文档内容，请发送/reloadall重新加载".

Definition current_prompt_reply (current_prompt : str) : str :=
  lit "📝 当前使用的系统提示词：" ++ nl ++ current_prompt ++ nl ++ nl
  ++ lit "💡 用法示例：/setprompt 你是专业的天气顾问，回答简洁明了".

Definition prompt_updated_reply (new_prompt : str) : str :=
  lit "✅ AI回答风格已成功更新！" ++ nl ++ lit "新的系统提示词：" ++ nl ++ new_prompt.

Definition too_big_reply (max_file_size file_size : Z) : str :=
  lit "❌ 文件大小超过限制！最大支持 " ++ Json.int_repr (max_file_size / 1024 / 1024)
  ++ lit "MB，当前文件大小：" ++ Json.int_repr (file_size / 1024 / 1024) ++ lit "MB".

Definition upload_ok_reply (save_path : str) : str :=
  lit "✅ 文件上传成功！" ++ nl ++ lit "保存路径：" ++ save_path ++ nl
  ++ lit "已自动重新加载所有文档，AI可立即使用该文件内容".

Definition guide (load_result : str) : str :=
  lit "🎉 群智能助手已成功激活！" ++ nl ++ load_result ++ nl ++ nl
  ++ lit "📌 核心指令说明（所有指令均需在群里发送）：" ++ nl
  ++ lit " 1. /reloadall → 重新加载docs目录下所有TXT文档（修改文件后必用）" ++ nl
  ++ lit " 2. /weather → 查询今天的天气（优先参考weather.txt）" ++ nl
  ++ lit " 3. /showkb → 查看已加载的所有知识库内容（预览）" ++ nl
  ++ lit " 4. /setprompt → 自定义AI回答风格（示例：/setprompt 你是专业的客服助手）" ++ nl
  ++ lit " 5. /clearall → 清空所有数据（知识库+上下文+提示词，谨慎使用）" ++ nl
  ++ lit " 6. @机器人 + 文字问题 → 参考所有文档+历史上下文回答你的问题" ++ nl
  ++ nl ++ lit "💡 重要提示：所有docs目录下的TXT文档都会被加载，AI会参考全部内容回答！".

Section Commands.

Variable env : Env.
Variable cenv : CommandEnv.
Let cfg : Config := CONFIG env.

(** [start_cmd]. *)
Definition start_cmd : M unit :=
  load_result <- load_all_docs env true ;;
  reply_text (guide (match load_result with Some r => r | None => NONE_TEXT end)).

(** [reload_all_cmd]. *)
Definition reload_all_cmd : M unit :=
  result <- load_all_docs env true ;;
  match result with
  | Some r => reply_text r
  | None => raise TypeError
  end.

(** The request of [weather_cmd]. *)
Definition weather_messages : list pyval :=
  [turn r_system (weather_system_prompt cenv); turn r_user WEATHER_QUESTION].

(** [weather_cmd]. *)
Definition weather_cmd : M unit :=
  let messages := weather_messages in
  try_except
    (match client env with
     | None => reply_text NO_KEY_TIP
     | Some _ =>
         match weather_create cenv messages with
         | ApiError msg => raise (OpenAIError msg)
         | Completion choices =>
             weather_reply <- first_content choices ;;
             reply_text (WEATHER_PREFIX ++ weather_reply)
         end
     end)
    (fun e =>
       match e with
       | OpenAIError msg => reply_text (WEATHER_API_FAILED ++ msg)
       | _ => reply_text (WEATHER_FAILED ++ str_of_exn cenv e)
       end).

(** [show_kb_cmd]. *)
Definition show_kb_cmd : M unit :=
  kb_content <- get_item k_knowledge_base ;;
  kb_content <- as_str kb_content ;;
  match kb_content with
  | [] => reply_text KB_EMPTY_TIP
  | _ => reply_text (show_kb_reply kb_content)
  end.

(** [set_prompt_cmd]; [args] is [context.args] ([None] and the empty list
    behave alike). *)
Definition set_prompt_cmd (args : list str) : M unit :=
  let new_prompt :=
    match args with
    | [] => []
    | _ => Py.strip (str_join (lit " ") args)
    end in
  match new_prompt with
  | [] =>
      current_prompt <- get_item k_custom_prompt ;;
      current_prompt <- as_str current_prompt ;;
      reply_text (current_prompt_reply current_prompt)
  | _ =>
      set_item k_custom_prompt (PStr new_prompt) ;;
      save_data env ;;
      reply_text (prompt_updated_reply new_prompt)
  end.

(** [clear_all_cmd]. *)
Definition clear_all_cmd : M unit :=
  set_item k_conversation_context (PList []) ;;
  set_item k_knowledge_base (PStr []) ;;
  set_item k_custom_prompt (PStr (default_system_prompt cfg)) ;;
  save_data env ;;
  write_text (chat_history_file cfg) HISTORY_HEADER ;;
  reply_text CLEARED_TIP.

(** [handle_file_upload]; [fetched] is what [get_file] and
    [download_to_drive] come to: the bytes of the file, or what they raise. *)
Definition handle_file_upload (document : Document) (fetched : result bytes) : M unit :=
  name <- match file_name document with
          | Some n => ret n
          | None => raise AttributeError
          end ;;
  if negb (Py.endswith (Py.lower name) dot_txt) then reply_text NOT_TXT_TIP
  else
    size <- match file_size document with
            | Some n => ret n
            | None => raise TypeError
            end ;;
    if size >? max_file_size cenv then
      reply_text (too_big_reply (max_file_size cenv) size)
    else
      try_except
        (let save_path := path_join (docs_dir cfg) name in
         content <- (fun w => (fetched, w)) ;;
         emit (EvWrite save_path content) ;;
         load_all_docs env false ;;
         reply_text (upload_ok_reply save_path))
        (fun e => reply_text (UPLOAD_FAILED ++ str_of_exn cenv e)).

(** [main], up to the point where the application is built:
    [TG_BOT_TOKEN] is checked, then the state and the documents are loaded. *)
Definition main (TG_BOT_TOKEN : option str) : M unit :=
  match TG_BOT_TOKEN with
  | None | Some [] => ret tt
  | Some _ => load_data env ;; load_all_docs env false ;; ret tt
  end.

End Commands.

(** ** Vocabulary of the further properties *)

(** [m] leaves the part [part] of the world as it was, whatever it returns
    or raises. *)
Definition keeps {A T : Type} (part : World -> T) (m : M A) : Prop :=
  forall w, part (snd (m w)) = part w.

(** The custom prompt held in memory. *)
Definition prompt_of (w : World) : option str :=
  match bot_data w with
  | PDict d =>
      match dict_get d k_custom_prompt with
      | Some (PStr s) => Some s
      | _ => None
      end
  | _ => None
  end.

(** The default entries the commands read. *)
Definition default_cenv (create : list pyval -> completion) : CommandEnv :=
  mkCommandEnv 5242880 default_weather_system_prompt create (fun _ => lit "error").

(** The name [handle_mention] goes by in the world [w]: the one it has
    cached, or else the one [get_me] reports, in lower case. *)
Definition bot_name (env : Env) (w : World) : str :=
  match BOT_USERNAME w with
  | Some (c :: u) => c :: u
  | _ => Py.lower (me_username env)
  end.

(** The question the text of a message puts to the bot named [bot], when one
    of its entities addresses the bot. *)
Definition question_of (text bot : str) (es : list Tg.MessageEntity) : option str :=
  match parse_mention text bot es (Py.strip text) with
  | (true, q) => Some q
  | (false, _) => None
  end.

(** Whether the file listed as [filename] adds to the knowledge base. *)
Definition loaded (cfg : Config) (f : FS) (filename : str) : bool :=
  match doc_text cfg f filename with
  | [] => false
  | _ => true
  end.

(** The number of documents the directory amounts to. *)
Definition doc_count (cfg : Config) (f : FS) : Z :=
  len (filter (loaded cfg f) (omap (fun e => entry_name (docs_dir cfg) (fst e)) f)).

(** The number of exchanges a reload reports. *)
Definition chat_count (cfg : Config) (f : FS) : Z :=
  match transcript cfg f with
  | Some s => len (conversation_from cfg s) / 2
  | None => 0
  end.

(** Text that is read back from the history file as it was logged under
    [tag]: not empty, with nothing for [strip] to remove, on one line (no
    line feed and no carriage return, which reading turns into a line
    feed), and with no [tag] in it. *)
Definition loggable (tag s : str) : bool :=
  match s with [] => false | _ => true end
  && str_eqb (Py.strip s) s
  && negb (existsb (Z.eqb 10) s)
  && negb (existsb (Z.eqb 13) s)
  && str_eqb (Py.replace s tag []) s.

(** The records of a run of exchanges, as [handle_mention] appends them. *)
Definition records (qas : list (str * str)) : str :=
  flat_map (fun qa => history_record (fst qa) (snd qa)) qas.

(** A model that answers every request with " Sunny. " *)
Definition sunny (_ : list pyval) : completion := Completion [Some (lit " Sunny. ")].


(** A knowledge base made of the entries of the documents [docs], given as
    (name, content) pairs. *)
Definition entries (docs : list (str * str)) : str :=
  flat_map (fun nc => doc_entry (fst nc) (snd nc)) docs.

(** A file name with no "】" and no line feed in it. *)
Definition plain_name (n : str) : bool :=
  negb (existsb (fun c => (c =? DOC_CLOSE) || (c =? 10)) n).

(** A text with no "【" in it. *)
Definition no_open (s : str) : bool := negb (existsb (Z.eqb 0x3010) s).

(** An upload of [notes.txt] (12 bytes, as the transport reports it). *)
Definition notes_document : Document := mkDocument (Some (lit "notes.txt")) (Some 12).

(** A data file that holds a JSON list. *)
Definition list_world : World :=
  mkWorld [(data_file default_config, bytes_of_string "[]")] PNone None [].

(** The data file [save_data] writes from [sample_state], alone on disk. *)
Definition sample_data_file : bytes := Eval vm_compute in
  match Utf8.encode (Json.dumps (state_value sample_state)) with
  | Some b => b
  | None => []
  end.

Definition saved_world : World :=
  mkWorld [(data_file default_config, sample_data_file)] PNone None [].

(** A history file with the records of [two_exchanges] under its header,
    and a world that has it. *)
Definition two_exchanges_log : bytes :=
  HISTORY_HEADER_BYTES
  ++ bytes_of_string "【用户】one" ++ [10] ++ bytes_of_string "【助手】1" ++ [10; 10]
  ++ bytes_of_string "【用户】two" ++ [10] ++ bytes_of_string "【助手】2" ++ [10; 10].

Definition logged_world : World :=
  mkWorld [(chat_history_file default_config, two_exchanges_log)]
    (shaped [] [] (lit "p")) None [].
(** * Properties *)

(** ** Tactics *)

(** Run the monad's plumbing, leaving the primitives' arguments alone. *)
Ltac mrun :=
  cbv beta iota zeta delta
    [bind ret raise try_except get_bot_data set_bot_data get_BOT_USERNAME
     set_BOT_USERNAME path_exists read_bytes read_text getsize json_load reply_text
     as_dict as_str as_list get_item set_item fs_exists fst snd];
  cbn [fs bot_data BOT_USERNAME trace andb orb negb].

(** Run the binds only. *)
Ltac mbind :=
  cbv beta iota zeta delta [bind ret raise try_except as_dict as_str as_list].

(** ** The runtime model on examples *)

Example utf8_encode_example :
  Utf8.encode (lit "é群😀") = Some [195; 169; 231; 190; 164; 240; 159; 152; 128].
Proof. reflexivity. Qed.

Example utf8_decode_strict_example : Utf8.decode [97; 0xE7; 0xBE] = None.
Proof. reflexivity. Qed.

Example utf8_decode_ignore_example :
  Utf8.decode_ignore [0xBE; 0xA4; 97; 0xE7; 0xBE; 0xA4; 0xE7] = [97; 0x7FA4].
Proof. reflexivity. Qed.

Example strip_example : Py.strip (10 :: 32 :: lit "a b" ++ [9; 0x3000]) = lit "a b".
Proof. reflexivity. Qed.

Example replace_example : Py.replace (lit "【用户】hi【用户】") USER_TAG [] = lit "hi".
Proof. reflexivity. Qed.

Example slice_from_example :
  Py.slice_from [1; 2; 3; 4] (-3) = [2; 3; 4] /\ Py.slice_from [1; 2; 3; 4] (-0) = [1; 2; 3; 4]
  /\ Py.slice_from [1; 2] (-3) = [1; 2].
Proof. repeat split. Qed.

Example dumps_example :
  Json.dumps (PDict [(lit "a", PList [PStr (34 :: lit "x" ++ nl); PNone])])
  = lit "{" ++ nl ++ lit "  " ++ [34] ++ lit "a" ++ [34] ++ lit ": [" ++ nl
    ++ lit "    " ++ [34; 92; 34] ++ lit "x" ++ [92] ++ lit "n" ++ [34] ++ lit "," ++ nl
    ++ lit "    null" ++ nl ++ lit "  ]" ++ nl ++ lit "}".
Proof. reflexivity. Qed.

Example loads_example :
  Json.loads (lit "{ " ++ [34] ++ lit "k" ++ [34] ++ lit " : [1, -2.5e3, true, "
              ++ [34; 92] ++ lit "u00e9" ++ [92] ++ lit "ud83d" ++ [92] ++ lit "ude00"
              ++ [34] ++ lit "] }")
  = Some (PDict [(lit "k", PList [PInt 1; PFloat (lit "-2.5e3"); PBool true;
                                  PStr (lit "é😀")])]).
Proof. reflexivity. Qed.

Example loads_rejects :
  Json.loads (lit "[1,]") = None /\ Json.loads (lit "[01]") = None
  /\ Json.loads (lit "{} x") = None /\ Json.loads [] = None
  /\ Json.loads (lit "{'a': 1}") = None.
Proof. repeat split. Qed.

Example parse_history_example :
  parse_history
    (Py.readlines (HISTORY_HEADER ++ history_record (lit "q1") (lit "a1")
                   ++ USER_TAG ++ lit "cut off")) [] [] []
  = [turn r_user (lit "q1"); turn r_assistant (lit "a1")].
Proof. reflexivity. Qed.

(** The scenario of the specification: [weather.txt] ends up, under its
    header, in the system entry of the request. *)
Example weather_scenario :
  knowledge_of (snd (load_all_docs sample_env false weather_world))
  = Some (doc_entry (lit "weather.txt") (lit "Sunny, 25C"))
  /\ fst (build_messages (lit "what's the weather")
            (snd (load_all_docs sample_env false weather_world)))
     = Ok [turn r_system
             (default_system_prompt default_config ++ nl ++ nl
              ++ lit "===== 【所有参考文档】 =====" ++ nl
              ++ doc_entry (lit "weather.txt") (lit "Sunny, 25C"));
           turn r_user (lit "what's the weather")].
Proof. split; vm_compute; reflexivity. Qed.

(** ** UTF-8 *)

Module Utf8Facts.
Import Utf8.

Lemma scan1 b0 rest :
  in_range 0 0x7F b0 = true -> scan (b0 :: rest) = Some b0 :: scan rest.
Proof. intros H. simpl. rewrite H. reflexivity. Qed.

Lemma scan2 b0 b1 rest :
  in_range 0 0x7F b0 = false -> valid2 b0 b1 = true ->
  scan (b0 :: b1 :: rest) = Some (cp2 b0 b1) :: scan rest.
Proof. intros H0 H1. simpl. rewrite H0, H1. reflexivity. Qed.

Lemma scan3 b0 b1 b2 rest :
  in_range 0 0x7F b0 = false -> valid2 b0 b1 = false -> valid3 b0 b1 b2 = true ->
  scan (b0 :: b1 :: b2 :: rest) = Some (cp3 b0 b1 b2) :: scan rest.
Proof. intros H0 H1 H2. simpl. rewrite H0, H1, H2. reflexivity. Qed.

Lemma scan4 b0 b1 b2 b3 rest :
  in_range 0 0x7F b0 = false -> valid2 b0 b1 = false -> valid3 b0 b1 b2 = false ->
  valid4 b0 b1 b2 b3 = true ->
  scan (b0 :: b1 :: b2 :: b3 :: rest) = Some (cp4 b0 b1 b2 b3) :: scan rest.
Proof. intros H0 H1 H2 H3. simpl. rewrite H0, H1, H2, H3. reflexivity. Qed.

Lemma in_range_true lo hi c : in_range lo hi c = true <-> lo <= c <= hi.
Proof. unfold in_range. rewrite andb_true_iff, !Z.leb_le. tauto. Qed.

Lemma in_range_false lo hi c : in_range lo hi c = false <-> c < lo \/ hi < c.
Proof. unfold in_range. rewrite andb_false_iff, !Z.leb_gt. tauto. Qed.

(** Turn the range tests into inequalities. *)
Ltac to_props :=
  unfold valid2, valid3, valid4, second3, second4, cont, is_scalar in *;
  repeat match goal with
         | H : _ && _ = true |- _ => apply andb_true_iff in H; destruct H
         | H : _ || _ = false |- _ => apply orb_false_iff in H; destruct H
         | H : in_range _ _ _ = true |- _ => apply in_range_true in H
         | H : in_range _ _ _ = false |- _ => apply in_range_false in H
         end.

Lemma encode_cp_ranges (c : Z) (b : bytes) :
  encode_cp c = Some b ->
  (0 <= c <= 0x7F /\ b = [c])
  \/ (0x80 <= c <= 0x7FF /\ b = [0xC0 + c / 64; 0x80 + c mod 64])
  \/ ((0x800 <= c <= 0xD7FF \/ 0xE000 <= c <= 0xFFFF)
      /\ b = [0xE0 + c / 4096; 0x80 + (c / 64) mod 64; 0x80 + c mod 64])
  \/ (0x10000 <= c <= 0x10FFFF
      /\ b = [0xF0 + c / 262144; 0x80 + (c / 4096) mod 64;
               0x80 + (c / 64) mod 64; 0x80 + c mod 64]).
Proof.
  unfold encode_cp.
  destruct (in_range 0 0x7F c) eqn:E1.
  { intros [= <-]. to_props. auto. }
  destruct (in_range 0x80 0x7FF c) eqn:E2.
  { intros [= <-]. to_props. auto. }
  destruct (in_range 0x800 0xD7FF c || in_range 0xE000 0xFFFF c) eqn:E3.
  { intros [= <-]. apply orb_true_iff in E3. rewrite !in_range_true in E3. auto. }
  destruct (in_range 0x10000 0x10FFFF c) eqn:E4; [|discriminate].
  intros [= <-]. to_props. auto 6.
Qed.

Lemma scan_encode_cp (c : Z) (b rest : bytes) :
  encode_cp c = Some b -> scan (b ++ rest) = Some c :: scan rest.
Proof.
  intros H. apply encode_cp_ranges in H.
  destruct H as [[R ->] | [[R ->] | [[R ->] | [R ->]]]].
  - apply scan1. apply in_range_true. lia.
  - pose proof (Z.div_mod c 64 ltac:(lia)) as D.
    pose proof (Z.mod_pos_bound c 64 ltac:(lia)) as B.
    set (q := c / 64) in *. set (r := c mod 64) in *.
    change (scan ((0xC0 + q) :: (0x80 + r) :: rest) = Some c :: scan rest).
    rewrite scan2.
    + unfold cp2. do 2 f_equal. lia.
    + apply in_range_false. lia.
    + unfold valid2, cont. rewrite andb_true_iff, !in_range_true. lia.
  - pose proof (Z.div_mod c 64 ltac:(lia)) as D.
    pose proof (Z.mod_pos_bound c 64 ltac:(lia)) as B.
    set (q := c / 64) in *. set (r := c mod 64) in *.
    pose proof (Z.div_mod q 64 ltac:(lia)) as D'.
    pose proof (Z.mod_pos_bound q 64 ltac:(lia)) as B'.
    replace (c / 4096) with (q / 64)
      by (unfold q; rewrite Z.div_div by lia; reflexivity).
    set (q' := q / 64) in *. set (r' := q mod 64) in *.
    change (scan ((0xE0 + q') :: (0x80 + r') :: (0x80 + r) :: rest) = Some c :: scan rest).
    rewrite scan3.
    + unfold cp3. do 2 f_equal. lia.
    + apply in_range_false. lia.
    + unfold valid2. apply andb_false_iff. left. apply in_range_false. lia.
    + unfold valid3, second3, cont.
      destruct (Z.eqb_spec (0xE0 + q') 0xE0); [|destruct (Z.eqb_spec (0xE0 + q') 0xED)];
        rewrite !andb_true_iff, !in_range_true; lia.
  - pose proof (Z.div_mod c 64 ltac:(lia)) as D.
    pose proof (Z.mod_pos_bound c 64 ltac:(lia)) as B.
    set (q := c / 64) in *. set (r := c mod 64) in *.
    pose proof (Z.div_mod q 64 ltac:(lia)) as D'.
    pose proof (Z.mod_pos_bound q 64 ltac:(lia)) as B'.
    replace (c / 4096) with (q / 64)
      by (unfold q; rewrite Z.div_div by lia; reflexivity).
    replace (c / 262144) with (q / 64 / 64)
      by (unfold q; rewrite !Z.div_div by lia; reflexivity).
    set (q' := q / 64) in *. set (r' := q mod 64) in *.
    pose proof (Z.div_mod q' 64 ltac:(lia)) as D''.
    pose proof (Z.mod_pos_bound q' 64 ltac:(lia)) as B''.
    set (q'' := q' / 64) in *. set (r'' := q' mod 64) in *.
    change (scan ((0xF0 + q'') :: (0x80 + r'') :: (0x80 + r') :: (0x80 + r) :: rest)
            = Some c :: scan rest).
    rewrite scan4.
    + unfold cp4. do 2 f_equal. lia.
    + apply in_range_false. lia.
    + unfold valid2. apply andb_false_iff. left. apply in_range_false. lia.
    + unfold valid3. apply andb_false_iff. left. apply andb_false_iff. left.
      apply in_range_false. lia.
    + unfold valid4, second4, cont.
      destruct (Z.eqb_spec (0xF0 + q'') 0xF0); [|destruct (Z.eqb_spec (0xF0 + q'') 0xF4)];
        rewrite !andb_true_iff, !in_range_true; lia.
Qed.

Lemma encode_app (a b : str) :
  encode (a ++ b) =
  match encode a, encode b with
  | Some x, Some y => Some (x ++ y)
  | _, _ => None
  end.
Proof.
  induction a as [|c a IH]; simpl.
  - destruct (encode b); reflexivity.
  - rewrite IH. destruct (encode_cp c), (encode a), (encode b); try reflexivity.
    rewrite app_assoc. reflexivity.
Qed.

Lemma encode_app_some (a b : str) (x y : bytes) :
  encode a = Some x -> encode b = Some y -> encode (a ++ b) = Some (x ++ y).
Proof. intros Ha Hb. rewrite encode_app, Ha, Hb. reflexivity. Qed.

Lemma scan_encode (s : str) (bs rest : bytes) :
  encode s = Some bs -> scan (bs ++ rest) = map Some s ++ scan rest.
Proof.
  revert bs. induction s as [|c s IH]; simpl; intros bs H.
  - injection H as <-. reflexivity.
  - destruct (encode_cp c) as [b|] eqn:Ec; [|discriminate].
    destruct (encode s) as [br|] eqn:Es; [|discriminate].
    injection H as <-. rewrite <- app_assoc.
    rewrite (scan_encode_cp c b _ Ec). f_equal. apply IH. reflexivity.
Qed.

Lemma all_some_map {A} (l : list A) : all_some (map Some l) = Some l.
Proof. induction l as [|x l IH]; simpl; [|rewrite IH]; reflexivity. Qed.

(** What was encoded decodes to itself. *)
Lemma decode_encode (s : str) (bs : bytes) :
  encode s = Some bs -> decode bs = Some s.
Proof.
  intros H. unfold decode.
  pose proof (scan_encode s bs [] H) as E. rewrite !app_nil_r in E.
  rewrite E. apply all_some_map.
Qed.

Lemma omap_id_map_some {A} (l : list A) : omap (fun o => o) (map Some l) = l.
Proof. induction l as [|x l IH]; simpl; [|rewrite IH]; reflexivity. Qed.

Lemma decode_ignore_encode (s : str) (bs : bytes) :
  encode s = Some bs -> decode_ignore bs = s.
Proof.
  intros H. unfold decode_ignore.
  pose proof (scan_encode s bs [] H) as E. rewrite !app_nil_r in E.
  rewrite E. apply omap_id_map_some.
Qed.

Lemma is_scalar_encode_cp (c : Z) :
  is_scalar c = true -> exists b, encode_cp c = Some b.
Proof.
  intros H. unfold encode_cp.
  destruct (in_range 0 0x7F c) eqn:E1; [eauto|].
  destruct (in_range 0x80 0x7FF c) eqn:E2; [eauto|].
  destruct (in_range 0x800 0xD7FF c || in_range 0xE000 0xFFFF c) eqn:E3; [eauto|].
  destruct (in_range 0x10000 0x10FFFF c) eqn:E4; [eauto|].
  exfalso. unfold is_scalar in H. apply orb_true_iff in H.
  rewrite !in_range_true in H. to_props. lia.
Qed.

Lemma encode_cp_is_scalar (c : Z) (b : bytes) :
  encode_cp c = Some b -> is_scalar c = true.
Proof.
  intros H. apply encode_cp_ranges in H.
  unfold is_scalar. apply orb_true_iff. rewrite !in_range_true.
  destruct H as [[R _] | [[R _] | [[R _] | [R _]]]]; lia.
Qed.

Lemma forallb_scalar_encode (s : str) :
  forallb is_scalar s = true -> exists bs, encode s = Some bs.
Proof.
  induction s as [|c s IH]; simpl; intros H; [eauto|].
  apply andb_true_iff in H. destruct H as [Hc Hs].
  destruct (is_scalar_encode_cp c Hc) as [b ->].
  destruct (IH Hs) as [br ->]. eauto.
Qed.

Lemma encode_forallb_scalar (s : str) (bs : bytes) :
  encode s = Some bs -> forallb is_scalar s = true.
Proof.
  revert bs. induction s as [|c s IH]; simpl; intros bs H; [reflexivity|].
  destruct (encode_cp c) as [b|] eqn:Ec; [|discriminate].
  destruct (encode s) as [br|] eqn:Es; [|discriminate].
  rewrite (encode_cp_is_scalar c b Ec). simpl. eapply IH. reflexivity.
Qed.

(** A decoded character re-encodes to as many bytes as it was read from. *)
Lemma encode_cp_len (c : Z) :
  (0 <= c <= 0x7F -> exists e, encode_cp c = Some e /\ List.length e = 1%nat)
  /\ (0x80 <= c <= 0x7FF -> exists e, encode_cp c = Some e /\ List.length e = 2%nat)
  /\ (0x800 <= c <= 0xD7FF \/ 0xE000 <= c <= 0xFFFF ->
      exists e, encode_cp c = Some e /\ List.length e = 3%nat)
  /\ (0x10000 <= c <= 0x10FFFF -> exists e, encode_cp c = Some e /\ List.length e = 4%nat).
Proof.
  unfold encode_cp.
  destruct (in_range 0 0x7F c) eqn:E1;
    [|destruct (in_range 0x80 0x7FF c) eqn:E2;
      [|destruct (in_range 0x800 0xD7FF c || in_range 0xE000 0xFFFF c) eqn:E3;
        [|destruct (in_range 0x10000 0x10FFFF c) eqn:E4]]];
    try (apply orb_true_iff in E3; rewrite !in_range_true in E3);
    to_props;
    repeat split; intros R; try (exfalso; lia); eexists; split; reflexivity.
Qed.

(** One step of the decoder: it passes over [n >= 1] bytes and either drops
    them or yields a character that takes [n] bytes to encode. *)
Lemma scan_step (b0 : Z) (r0 : bytes) :
  exists item rest n,
    scan (b0 :: r0) = item :: scan rest
    /\ List.length (b0 :: r0) = (n + List.length rest)%nat
    /\ (1 <= n)%nat
    /\ match item with
       | None => True
       | Some c => exists e, encode_cp c = Some e /\ List.length e = n
       end.
Proof.
  destruct (in_range 0 0x7F b0) eqn:E0.
  { exists (Some b0), r0, 1%nat. rewrite (scan1 _ _ E0). repeat split; [lia|].
    apply encode_cp_len. to_props. lia. }
  destruct r0 as [|b1 r1].
  { exists None, [], 1%nat. simpl. rewrite E0. repeat split; lia. }
  destruct (valid2 b0 b1) eqn:E1.
  { exists (Some (cp2 b0 b1)), r1, 2%nat. rewrite (scan2 _ _ _ E0 E1). repeat split; [lia|].
    apply encode_cp_len. unfold cp2. to_props. lia. }
  destruct r1 as [|b2 r2].
  { exists None, [b1], 1%nat. simpl. rewrite E0, E1. repeat split; lia. }
  destruct (valid3 b0 b1 b2) eqn:E2.
  { exists (Some (cp3 b0 b1 b2)), r2, 3%nat. rewrite (scan3 _ _ _ _ E0 E1 E2).
    repeat split; [lia|]. apply encode_cp_len. unfold cp3.
    unfold valid3, second3 in E2.
    destruct (Z.eqb_spec b0 0xE0); [|destruct (Z.eqb_spec b0 0xED)]; to_props; lia. }
  destruct r2 as [|b3 r3].
  { exists None, [b1; b2], 1%nat. simpl. rewrite E0, E1, E2. repeat split; lia. }
  destruct (valid4 b0 b1 b2 b3) eqn:E3.
  { exists (Some (cp4 b0 b1 b2 b3)), r3, 4%nat. rewrite (scan4 _ _ _ _ _ E0 E1 E2 E3).
    repeat split; [lia|]. apply encode_cp_len. unfold cp4.
    unfold valid4, second4 in E3.
    destruct (Z.eqb_spec b0 0xF0); [|destruct (Z.eqb_spec b0 0xF4)]; to_props; lia. }
  exists None, (b1 :: b2 :: b3 :: r3), 1%nat. simpl. rewrite E0, E1, E2, E3.
  repeat split; lia.
Qed.

(** Decoding with [errors="ignore"] yields text, and text no longer than
    the bytes it was read from. *)
Lemma encode_decode_ignore (bs : bytes) :
  exists out, encode (decode_ignore bs) = Some out
              /\ (List.length out <= List.length bs)%nat.
Proof.
  remember (List.length bs) as k eqn:Hk.
  revert bs Hk. induction k as [k IH] using lt_wf_ind. intros bs Hk.
  destruct bs as [|b0 r0].
  { exists []. split; [reflexivity | simpl; lia]. }
  destruct (scan_step b0 r0) as (item & rest & n & Hs & Hl & Hn1 & Hi).
  unfold decode_ignore. rewrite Hs.
  destruct item as [c|].
  - destruct Hi as (e & He & Hn).
    destruct (IH (List.length rest) ltac:(lia) rest eq_refl) as (out & Ho & Hlen).
    exists (e ++ out). simpl. fold (decode_ignore rest). rewrite He, Ho.
    split; [reflexivity|]. rewrite length_app. lia.
  - destruct (IH (List.length rest) ltac:(lia) rest eq_refl) as (out & Ho & Hlen).
    exists out. simpl. fold (decode_ignore rest). split; [exact Ho | lia].
Qed.

Lemma ascii_encode (bs : bytes) :
  forallb (in_range 0 0x7F) bs = true -> encode bs = Some bs.
Proof.
  induction bs as [|b bs IH]; simpl; intros H; [reflexivity|].
  apply andb_true_iff in H. destruct H as [Hb Hs].
  unfold encode_cp. rewrite Hb, (IH Hs). reflexivity.
Qed.

End Utf8Facts.

(** ** Strings and lists *)

Lemma str_eqb_refl (s : str) : str_eqb s s = true.
Proof.
  unfold str_eqb. induction s as [|c s IH]; simpl; [reflexivity|].
  rewrite Z.eqb_refl, IH. reflexivity.
Qed.

Lemma str_eqb_eq (a b : str) : str_eqb a b = true <-> a = b.
Proof.
  split; [|intros ->; apply str_eqb_refl].
  unfold str_eqb. revert b. induction a as [|x a IH]; intros [|y b]; simpl; try discriminate; auto.
  intros H. apply andb_true_iff in H. destruct H as [H1 H2].
  apply Z.eqb_eq in H1. subst. f_equal. apply IH, H2.
Qed.

Lemma str_eqb_neq (a b : str) : str_eqb a b = false <-> a <> b.
Proof.
  destruct (str_eqb a b) eqn:E.
  - apply str_eqb_eq in E. split; [discriminate | contradiction].
  - split; [|reflexivity]. intros _ H. apply str_eqb_eq in H. congruence.
Qed.

(** ** The [json] module: what [dumps] prints, [loads] reads back *)

Module JsonFacts.
Import Json.

Lemma pyval_induction (P : pyval -> Prop) :
  P PNone -> (forall b, P (PBool b)) -> (forall z, P (PInt z)) ->
  (forall x, P (PFloat x)) -> (forall s, P (PStr s)) ->
  (forall l, Forall P l -> P (PList l)) ->
  (forall d, Forall (fun kv => P (snd kv)) d -> P (PDict d)) ->
  forall v, P v.
Proof.
  intros HN HB HI HF HS HL HD. fix IH 1.
  intros [ |b|z|x|s|l|d];
    [exact HN | apply HB | apply HI | apply HF | apply HS | | ].
  - apply HL. induction l as [|v l IHl]; constructor; [apply IH | exact IHl].
  - apply HD. induction d as [|[k v] d IHd]; constructor; [apply IH | exact IHd].
Qed.

Lemma lex_run_app (l : lexer) (a b : str) :
  lex_run l (a ++ b) =
  match lex_run l a with Some l' => lex_run l' b | None => None end.
Proof.
  revert l. induction a as [|c a IH]; intros l; simpl; [reflexivity|].
  destruct (lex_step l c); [apply IH | reflexivity].
Qed.

Lemma lex_escape_low (n : nat) (acc : str) (toks : list token) (rest : str) :
  (n < 32)%nat ->
  lex_run (LStr acc, toks) (escape_cp (Z.of_nat n) ++ rest)
  = lex_run (LStr (Z.of_nat n :: acc), toks) rest.
Proof.
  intros H. do 32 (destruct n as [|n]; [reflexivity|]). lia.
Qed.

Lemma lex_escape (c : Z) (acc : str) (toks : list token) (rest : str) :
  lex_run (LStr acc, toks) (escape_cp c ++ rest)
  = lex_run (LStr (c :: acc), toks) rest.
Proof.
  destruct (Utf8.in_range 0 0x1F c) eqn:E.
  - apply Utf8Facts.in_range_true in E.
    replace c with (Z.of_nat (Z.to_nat c)) by lia.
    apply lex_escape_low. lia.
  - pose proof E as E'. apply Utf8Facts.in_range_false in E'.
    destruct (Z.eqb_spec c 34) as [->|N1]; [reflexivity|].
    destruct (Z.eqb_spec c 92) as [->|N2]; [reflexivity|].
    unfold escape_cp.
    rewrite (proj2 (Z.eqb_neq c 34) N1), (proj2 (Z.eqb_neq c 92) N2).
    rewrite (proj2 (Z.eqb_neq c 10)), (proj2 (Z.eqb_neq c 13)),
      (proj2 (Z.eqb_neq c 9)), (proj2 (Z.eqb_neq c 8)), (proj2 (Z.eqb_neq c 12)), E
      by lia.
    cbn [app lex_run lex_step]. unfold str_step.
    rewrite (proj2 (Z.eqb_neq c 34) N1), (proj2 (Z.eqb_neq c 92) N2), E.
    reflexivity.
Qed.

Lemma lex_string_body (s acc : str) (toks : list token) (rest : str) :
  lex_run (LStr acc, toks) (flat_map escape_cp s ++ rest)
  = lex_run (LStr (rev s ++ acc), toks) rest.
Proof.
  revert acc. induction s as [|c s IH]; intros acc; [reflexivity|].
  cbn [flat_map rev]. rewrite <- !app_assoc, lex_escape, IH. reflexivity.
Qed.

(** A printed string is read back as the string token. *)
Lemma lex_string (s : str) (toks : list token) (rest : str) :
  lex_run (LIdle, toks) (encode_str s ++ rest) = lex_run (LIdle, TStr s :: toks) rest.
Proof.
  unfold encode_str.
  change (lex_run (LStr [], toks) ((flat_map escape_cp s ++ [34]) ++ rest)
          = lex_run (LIdle, TStr s :: toks) rest).
  rewrite <- app_assoc, lex_string_body. cbn [app lex_run lex_step].
  unfold str_step. cbn [Z.eqb Pos.eqb]. rewrite app_nil_r, rev_involutive. reflexivity.
Qed.

Lemma lex_spaces (n : nat) (toks : list token) (rest : str) :
  lex_run (LIdle, toks) (repeat 32 n ++ rest) = lex_run (LIdle, toks) rest.
Proof. induction n as [|n IH]; [reflexivity | exact IH]. Qed.

Lemma lex_indent (lvl : nat) (toks : list token) (rest : str) :
  lex_run (LIdle, toks) (newline_indent lvl ++ rest) = lex_run (LIdle, toks) rest.
Proof. unfold newline_indent. apply (lex_spaces (2 * lvl)). Qed.

Lemma join_cons (sep x : str) (l : list str) :
  join sep (x :: l) = x ++ flat_map (fun y => sep ++ y) l.
Proof.
  revert x. induction l as [|y l IH]; intros x.
  - simpl. rewrite app_nil_r. reflexivity.
  - change (join sep (x :: y :: l)) with (x ++ sep ++ join sep (y :: l)).
    rewrite IH. cbn [flat_map]. rewrite <- app_assoc. reflexivity.
Qed.

Lemma lex_items (lvl' : nat) (l : list pyval) :
  Forall (fun y => forall lvl toks rest,
              lex_run (LIdle, toks) (dumps_at lvl y ++ rest)
              = lex_run (LIdle, rev (tokens_of y) ++ toks) rest) l ->
  forall toks rest,
    lex_run (LIdle, toks)
      (flat_map (fun y => (44 :: newline_indent lvl') ++ y) (map (dumps_at lvl') l) ++ rest)
    = lex_run (LIdle, rev (flat_map (fun y => TComma :: tokens_of y) l) ++ toks) rest.
Proof.
  induction 1 as [|y l Hy _ IH]; intros toks rest; [reflexivity|].
  cbn [map flat_map]. rewrite <- !app_assoc.
  change (lex_run (LIdle, TComma :: toks)
            (newline_indent lvl' ++ dumps_at lvl' y
             ++ flat_map (fun y => (44 :: newline_indent lvl') ++ y) (map (dumps_at lvl') l)
             ++ rest)
          = lex_run (LIdle, rev ((TComma :: tokens_of y)
                                   ++ flat_map (fun y => TComma :: tokens_of y) l) ++ toks)
              rest).
  rewrite lex_indent, Hy, IH. rewrite rev_app_distr. cbn [rev].
  rewrite <- !app_assoc. reflexivity.
Qed.

Lemma lex_pairs (lvl' : nat) (d : pydict) :
  Forall (fun kv => forall lvl toks rest,
              lex_run (LIdle, toks) (dumps_at lvl (snd kv) ++ rest)
              = lex_run (LIdle, rev (tokens_of (snd kv)) ++ toks) rest) d ->
  forall toks rest,
    lex_run (LIdle, toks)
      (flat_map (fun y => (44 :: newline_indent lvl') ++ y)
         (map (fun kv => encode_str (fst kv) ++ [58; 32] ++ dumps_at lvl' (snd kv)) d)
       ++ rest)
    = lex_run (LIdle,
               rev (flat_map (fun kv => TComma :: TStr (fst kv) :: TColon
                                          :: tokens_of (snd kv)) d) ++ toks) rest.
Proof.
  induction 1 as [|kv d Hkv _ IH]; intros toks rest; [reflexivity|].
  cbn [map flat_map]. rewrite <- !app_assoc.
  change (lex_run (LIdle, TComma :: toks)
            (newline_indent lvl' ++ encode_str (fst kv)
             ++ 58 :: 32 :: dumps_at lvl' (snd kv)
             ++ flat_map (fun y => (44 :: newline_indent lvl') ++ y)
                  (map (fun kv => encode_str (fst kv) ++ [58; 32] ++ dumps_at lvl' (snd kv)) d)
             ++ rest)
          = lex_run (LIdle, rev ((TComma :: TStr (fst kv) :: TColon :: tokens_of (snd kv))
                                   ++ flat_map (fun kv => TComma :: TStr (fst kv) :: TColon
                                                            :: tokens_of (snd kv)) d) ++ toks)
              rest).
  rewrite lex_indent, lex_string.
  change (lex_run (LIdle, TStr (fst kv) :: TComma :: toks) (58 :: 32 :: ?r))
    with (lex_run (LIdle, TColon :: TStr (fst kv) :: TComma :: toks) r).
  rewrite Hkv, IH. rewrite rev_app_distr. cbn [rev].
  rewrite <- !app_assoc. reflexivity.
Qed.

Lemma Forall_plain {A} (f : A -> pyval) (P : pyval -> Prop) (l : list A) :
  Forall (fun x => plain (f x) = true -> P (f x)) l ->
  forallb (fun x => plain (f x)) l = true ->
  Forall (fun x => P (f x)) l.
Proof.
  induction 1 as [|x l Hx _ IH]; simpl; intros H; constructor;
    apply andb_true_iff in H; destruct H; auto.
Qed.

(** The text printed for a plain value is read as the tokens of the value. *)
Lemma lex_value (v : pyval) :
  plain v = true ->
  forall lvl toks rest,
    lex_run (LIdle, toks) (dumps_at lvl v ++ rest)
    = lex_run (LIdle, rev (tokens_of v) ++ toks) rest.
Proof.
  induction v as [ |b|z|x|s|l IH|d IH] using pyval_induction; intros Hp lvl toks rest;
    try discriminate Hp.
  - reflexivity.
  - destruct b; reflexivity.
  - apply lex_string.
  - destruct l as [|x l]; [reflexivity|].
    pose proof (Forall_plain (fun y => y)
                  (fun y => forall lvl toks rest,
                    lex_run (LIdle, toks) (dumps_at lvl y ++ rest)
                    = lex_run (LIdle, rev (tokens_of y) ++ toks) rest) _ IH Hp) as F.
    inversion F as [|? ? Hx Hl]; subst.
    change (dumps_at lvl (PList (x :: l)))
      with ([91] ++ newline_indent (S lvl)
            ++ join (44 :: newline_indent (S lvl)) (map (dumps_at (S lvl)) (x :: l))
            ++ newline_indent lvl ++ [93]).
    cbn [map]. rewrite join_cons, <- !app_assoc.
    change (lex_run (LIdle, toks) ([91] ++ ?r)) with (lex_run (LIdle, TLBracket :: toks) r).
    rewrite lex_indent, Hx, (lex_items (S lvl) l Hl), lex_indent.
    cbn [tokens_of]. cbn [rev]. rewrite !rev_app_distr. cbn [rev app].
    rewrite <- !app_assoc. reflexivity.
  - destruct d as [|kv d]; [reflexivity|].
    cbn [plain] in Hp. apply andb_true_iff in Hp. destruct Hp as [Hp _].
    pose proof (Forall_plain (fun kv : str * pyval => snd kv)
                  (fun y => forall lvl toks rest,
                    lex_run (LIdle, toks) (dumps_at lvl y ++ rest)
                    = lex_run (LIdle, rev (tokens_of y) ++ toks) rest) _ IH Hp) as F.
    inversion F as [|? ? Hx Hl]; subst.
    change (dumps_at lvl (PDict (kv :: d)))
      with ([123] ++ newline_indent (S lvl)
            ++ join (44 :: newline_indent (S lvl))
                 (map (fun kv => encode_str (fst kv) ++ [58; 32] ++ dumps_at (S lvl) (snd kv))
                    (kv :: d))
            ++ newline_indent lvl ++ [125]).
    cbn [map]. rewrite join_cons, <- !app_assoc.
    change (lex_run (LIdle, toks) ([123] ++ ?r)) with (lex_run (LIdle, TLBrace :: toks) r).
    rewrite lex_indent, lex_string.
    change (lex_run (LIdle, TStr (fst kv) :: TLBrace :: toks) ([58; 32] ++ ?r))
      with (lex_run (LIdle, TColon :: TStr (fst kv) :: TLBrace :: toks) r).
    rewrite Hx, (lex_pairs (S lvl) d Hl), lex_indent.
    cbn [tokens_of]. cbn [rev]. rewrite !rev_app_distr. cbn [rev app].
    rewrite <- !app_assoc. reflexivity.
Qed.

Lemma dict_set_fresh (d : pydict) (k : str) (v : pyval) :
  Forall (fun kv => str_eqb (fst kv) k = false) d -> dict_set d k v = d ++ [(k, v)].
Proof.
  induction 1 as [|[k' v'] d Hk _ IH]; [reflexivity|].
  simpl in *. rewrite Hk, IH. reflexivity.
Qed.

Lemma parse_items (stk : list frame) (l : list pyval) :
  Forall (fun y => forall stk first ts,
              parse_run (SValue stk first) (tokens_of y ++ ts)
              = parse_run (push_value stk y) ts) l ->
  forall items ts,
    parse_run (SArrNext stk items)
      (flat_map (fun y => TComma :: tokens_of y) l ++ TRBracket :: ts)
    = parse_run (push_value stk (PList (rev items ++ l))) ts.
Proof.
  induction 1 as [|y l Hy _ IH]; intros items ts.
  - rewrite app_nil_r. reflexivity.
  - cbn [flat_map]. rewrite <- app_assoc.
    change (parse_run (SValue (FArr items :: stk) false)
              (tokens_of y ++ flat_map (fun y => TComma :: tokens_of y) l
               ++ TRBracket :: ts)
            = parse_run (push_value stk (PList (rev items ++ y :: l))) ts).
    rewrite Hy. cbn [push_value]. rewrite IH. cbn [rev].
    rewrite <- app_assoc. reflexivity.
Qed.

Lemma parse_pairs (stk : list frame) (pairs : pydict) :
  Forall (fun kv => forall stk first ts,
              parse_run (SValue stk first) (tokens_of (snd kv) ++ ts)
              = parse_run (push_value stk (snd kv)) ts) pairs ->
  distinct (map fst pairs) = true ->
  forall d ts,
    Forall (fun kv => existsb (str_eqb (fst kv)) (map fst pairs) = false) d ->
    parse_run (SObjNext stk d)
      (flat_map (fun kv => TComma :: TStr (fst kv) :: TColon :: tokens_of (snd kv)) pairs
       ++ TRBrace :: ts)
    = parse_run (push_value stk (PDict (d ++ pairs))) ts.
Proof.
  induction 1 as [|[k v] pairs Hkv _ IH]; intros Hd d ts Hfresh.
  - rewrite app_nil_r. reflexivity.
  - cbn [flat_map fst snd]. cbn [fst snd] in Hkv. rewrite <- app_assoc.
    change (parse_run (SValue (FObj d k :: stk) false)
              (tokens_of v
               ++ flat_map (fun kv => TComma :: TStr (fst kv) :: TColon :: tokens_of (snd kv))
                    pairs
               ++ TRBrace :: ts)
            = parse_run (push_value stk (PDict (d ++ (k, v) :: pairs))) ts).
    rewrite Hkv. cbn [push_value].
    cbn [map fst distinct] in Hd. apply andb_true_iff in Hd. destruct Hd as [Hk Hd].
    apply negb_true_iff in Hk.
    rewrite dict_set_fresh.
    + rewrite IH; [rewrite <- app_assoc; reflexivity | exact Hd |].
      apply Forall_app. split.
      * eapply Forall_impl; [|exact Hfresh]. intros kv H. cbn [map fst existsb] in H.
        apply orb_false_iff in H. apply H.
      * constructor; [exact Hk | constructor].
    + eapply Forall_impl; [|exact Hfresh]. intros kv H. cbn [map fst existsb] in H.
      apply orb_false_iff in H. apply H.
Qed.

(** The tokens of a plain value are parsed as the value. *)
Lemma parse_value (v : pyval) :
  plain v = true ->
  forall stk first ts,
    parse_run (SValue stk first) (tokens_of v ++ ts) = parse_run (push_value stk v) ts.
Proof.
  induction v as [ |b|z|x|s|l IH|d IH] using pyval_induction; intros Hp stk first ts;
    try discriminate Hp; try reflexivity.
  - destruct b; reflexivity.
  - destruct l as [|x l]; [reflexivity|].
    pose proof (Forall_plain (fun y => y)
                  (fun y => forall stk first ts,
                       parse_run (SValue stk first) (tokens_of y ++ ts)
                       = parse_run (push_value stk y) ts) _ IH Hp) as F.
    inversion F as [|? ? Hx Hl]; subst.
    cbn [tokens_of]. cbn [app]. rewrite <- !app_assoc.
    change (parse_run (SValue (FArr [] :: stk) true)
              (tokens_of x ++ flat_map (fun y => TComma :: tokens_of y) l
               ++ TRBracket :: ts)
            = parse_run (push_value stk (PList (x :: l))) ts).
    rewrite Hx. cbn [push_value]. rewrite (parse_items stk l Hl). reflexivity.
  - destruct d as [|[k v] d]; [reflexivity|].
    cbn [plain] in Hp. apply andb_true_iff in Hp. destruct Hp as [Hp Hd].
    pose proof (Forall_plain (fun kv : str * pyval => snd kv)
                  (fun y => forall stk first ts,
                       parse_run (SValue stk first) (tokens_of y ++ ts)
                       = parse_run (push_value stk y) ts) _ IH Hp) as F.
    inversion F as [|? ? Hx Hl]; subst. cbn [fst snd] in Hx.
    cbn [tokens_of fst snd]. cbn [app]. rewrite <- !app_assoc.
    change (parse_run (SValue (FObj [] k :: stk) false)
              (tokens_of v
               ++ flat_map (fun kv => TComma :: TStr (fst kv) :: TColon :: tokens_of (snd kv)) d
               ++ TRBrace :: ts)
            = parse_run (push_value stk (PDict ((k, v) :: d))) ts).
    rewrite Hx. cbn [push_value dict_set].
    cbn [map fst distinct] in Hd. apply andb_true_iff in Hd. destruct Hd as [Hk Hd].
    apply negb_true_iff in Hk.
    rewrite (parse_pairs stk d Hl Hd); [reflexivity|].
    constructor; [exact Hk | constructor].
Qed.

(** [json.loads(json.dumps(v, ensure_ascii=False, indent=2)) == v] for a
    plain value. *)
Lemma loads_dumps (v : pyval) : plain v = true -> loads (dumps v) = Some v.
Proof.
  intros Hp. unfold loads, lex, dumps.
  pose proof (lex_value v Hp 0%nat [] []) as L. rewrite !app_nil_r in L.
  rewrite L. destruct v; try discriminate Hp;
    cbn [lex_run lex_finish]; rewrite rev_involutive; unfold parse;
    match goal with
    | |- context [parse_run _ (tokens_of ?x)] =>
        pose proof (parse_value x Hp [] false []) as Q; rewrite !app_nil_r in Q;
        rewrite Q
    end; reflexivity.
Qed.

End JsonFacts.

(** ** What [dumps] prints passes through a text file unchanged *)

Module TextFacts.
Import Json.

Lemma clean_ascii (c : Z) : 32 <= c <= 126 \/ c = 10 -> clean c = true.
Proof.
  intros H. unfold clean, Utf8.is_scalar. apply andb_true_iff. split.
  - apply orb_true_iff. left. apply Utf8Facts.in_range_true. lia.
  - apply negb_true_iff, Z.eqb_neq. lia.
Qed.

Lemma clean_escape_low (n : nat) :
  (n < 32)%nat -> forallb clean (escape_cp (Z.of_nat n)) = true.
Proof. intros H. do 32 (destruct n as [|n]; [reflexivity|]). lia. Qed.

Lemma clean_escape (c : Z) :
  Utf8.is_scalar c = true -> forallb clean (escape_cp c) = true.
Proof.
  intros Hc. destruct (Utf8.in_range 0 0x1F c) eqn:E.
  - apply Utf8Facts.in_range_true in E.
    replace c with (Z.of_nat (Z.to_nat c)) by lia.
    apply clean_escape_low. lia.
  - pose proof E as E'. apply Utf8Facts.in_range_false in E'.
    destruct (Z.eqb_spec c 34) as [->|N1]; [reflexivity|].
    destruct (Z.eqb_spec c 92) as [->|N2]; [reflexivity|].
    unfold escape_cp.
    rewrite (proj2 (Z.eqb_neq c 34) N1), (proj2 (Z.eqb_neq c 92) N2).
    rewrite (proj2 (Z.eqb_neq c 10)), (proj2 (Z.eqb_neq c 13)),
      (proj2 (Z.eqb_neq c 9)), (proj2 (Z.eqb_neq c 8)), (proj2 (Z.eqb_neq c 12)), E
      by lia.
    cbn [forallb]. unfold clean. rewrite Hc, (proj2 (Z.eqb_neq c 13)) by lia. reflexivity.
Qed.

Lemma clean_encode_str (s : str) :
  forallb Utf8.is_scalar s = true -> forallb clean (encode_str s) = true.
Proof.
  intros H. unfold encode_str. cbn [forallb]. rewrite forallb_app.
  replace (clean 34) with true by reflexivity. cbn [andb forallb].
  replace (clean 34) with true by reflexivity. rewrite andb_true_r.
  induction s as [|c s IH]; [reflexivity|].
  cbn [forallb flat_map] in *. apply andb_true_iff in H. destruct H as [Hc Hs].
  rewrite forallb_app, (clean_escape c Hc), (IH Hs). reflexivity.
Qed.

Lemma clean_indent (lvl : nat) : forallb clean (newline_indent lvl) = true.
Proof.
  unfold newline_indent. cbn [forallb]. replace (clean 10) with true by reflexivity.
  induction (2 * lvl)%nat as [|n IH]; [reflexivity|]. cbn [repeat forallb andb] in *.
  replace (clean 32) with true by reflexivity. exact IH.
Qed.

Lemma clean_join (sep : str) (l : list str) :
  forallb clean sep = true -> Forall (fun x => forallb clean x = true) l ->
  forallb clean (join sep l) = true.
Proof.
  intros Hsep H. destruct l as [|x l]; [reflexivity|].
  rewrite JsonFacts.join_cons. inversion H as [|? ? Hx Hl]; subst.
  rewrite forallb_app, Hx. cbn [andb]. clear H Hx.
  induction Hl as [|y l Hy _ IH]; [reflexivity|].
  cbn [flat_map]. rewrite !forallb_app, Hsep, Hy, IH. reflexivity.
Qed.

Lemma clean_dumps (v : pyval) :
  plain v = true -> strings_all valid_text v = true ->
  forall lvl, forallb clean (dumps_at lvl v) = true.
Proof.
  induction v as [ |b|z|x|s|l IH|d IH] using JsonFacts.pyval_induction;
    intros Hp Hs lvl; try discriminate Hp.
  - reflexivity.
  - destruct b; reflexivity.
  - apply clean_encode_str, Hs.
  - destruct l as [|x l]; [reflexivity|].
    change (dumps_at lvl (PList (x :: l)))
      with ([91] ++ newline_indent (S lvl)
            ++ join (44 :: newline_indent (S lvl)) (map (dumps_at (S lvl)) (x :: l))
            ++ newline_indent lvl ++ [93]).
    rewrite !forallb_app, !clean_indent, clean_join; [reflexivity | apply (clean_indent (S lvl)) |].
    cbn [plain strings_all] in Hp, Hs. revert IH Hp Hs. generalize (x :: l). clear x l.
    intros l IH. induction IH as [|y l Hy _ IHl]; intros Hp Hs; [constructor|].
    cbn [forallb] in Hp, Hs. apply andb_true_iff in Hp, Hs.
    destruct Hp as [Hp1 Hp2], Hs as [Hs1 Hs2].
    constructor; [apply Hy; assumption | apply IHl; assumption].
  - destruct d as [|kv d]; [reflexivity|].
    change (dumps_at lvl (PDict (kv :: d)))
      with ([123] ++ newline_indent (S lvl)
            ++ join (44 :: newline_indent (S lvl))
                 (map (fun kv => encode_str (fst kv) ++ [58; 32] ++ dumps_at (S lvl) (snd kv))
                    (kv :: d))
            ++ newline_indent lvl ++ [125]).
    rewrite !forallb_app, !clean_indent, clean_join; [reflexivity | apply (clean_indent (S lvl)) |].
    cbn [plain strings_all] in Hp, Hs. apply andb_true_iff in Hp. destruct Hp as [Hp _].
    revert IH Hp Hs. generalize (kv :: d). clear kv d.
    intros d IH. induction IH as [|kv d Hkv _ IHd]; intros Hp Hs; [constructor|].
    cbn [forallb] in Hp, Hs. apply andb_true_iff in Hp, Hs.
    destruct Hp as [Hp1 Hp2], Hs as [Hs1 Hs2].
    apply andb_true_iff in Hs1. destruct Hs1 as [Hk Hv].
    constructor; [|apply IHd; assumption].
    rewrite !forallb_app, (clean_encode_str _ Hk), (Hkv Hp1 Hv). reflexivity.
Qed.

Lemma clean_scalar (s : str) : forallb clean s = true -> forallb Utf8.is_scalar s = true.
Proof.
  induction s as [|c s IH]; simpl; intros H; [reflexivity|].
  apply andb_true_iff in H. destruct H as [Hc Hs]. unfold clean in Hc.
  apply andb_true_iff in Hc. destruct Hc as [-> _]. apply IH, Hs.
Qed.

Lemma clean_universal_newlines (s : str) :
  forallb clean s = true -> Py.universal_newlines s = s.
Proof.
  induction s as [|c s IH]; simpl; intros H; [reflexivity|].
  apply andb_true_iff in H. destruct H as [Hc Hs]. unfold clean in Hc.
  apply andb_true_iff in Hc. destruct Hc as [_ Hc]. apply negb_true_iff in Hc.
  rewrite Hc, (IH Hs). reflexivity.
Qed.

(** Clean text written to a file is read back as it was. *)
Lemma clean_text_file (s : str) :
  forallb clean s = true ->
  exists c, Utf8.encode s = Some c /\ Utf8.decode c = Some s
            /\ Py.universal_newlines s = s.
Proof.
  intros H. destruct (Utf8Facts.forallb_scalar_encode s (clean_scalar s H)) as [c Hc].
  exists c. split; [exact Hc|]. split; [apply Utf8Facts.decode_encode, Hc|].
  apply clean_universal_newlines, H.
Qed.

End TextFacts.

Lemma len_app_Z {A} (a b : list A) : len (a ++ b) = len a + len b.
Proof. unfold len. rewrite length_app. lia. Qed.

(** ** Files *)

Lemma fs_read_write_same (f : FS) (p : str) (c : bytes) :
  fs_read (fs_write f p c) p = Some c.
Proof.
  induction f as [|[q c'] f IH]; simpl.
  - rewrite str_eqb_refl. reflexivity.
  - destruct (str_eqb q p) eqn:E; simpl; rewrite E; [reflexivity | exact IH].
Qed.

Lemma fs_read_write_other (f : FS) (p q : str) (c : bytes) :
  str_eqb p q = false -> fs_read (fs_write f p c) q = fs_read f q.
Proof.
  intros N. induction f as [|[r c'] f IH]; simpl.
  - rewrite N. reflexivity.
  - destruct (str_eqb r p) eqn:E; simpl.
    + apply str_eqb_eq in E. subst r. rewrite N. reflexivity.
    + destruct (str_eqb r q); [reflexivity | exact IH].
Qed.

Lemma fs_exists_write_same (f : FS) (p : str) (c : bytes) :
  fs_exists (fs_write f p c) p = true.
Proof. unfold fs_exists. rewrite fs_read_write_same. reflexivity. Qed.

(** ** The persisted state *)

Module StateFacts.
Import Json.

Lemma plain_turns (ts : list Turn) : forallb plain (map turn_value ts) = true.
Proof. induction ts as [|t ts IH]; [reflexivity|]. simpl. exact IH. Qed.

Lemma plain_state (st : PersistedState) : plain (state_value st) = true.
Proof.
  unfold state_value, shaped. cbn [plain forallb snd].
  rewrite plain_turns. reflexivity.
Qed.

Lemma valid_turns (ts : list Turn) :
  forallb (fun t => valid_text (content t)) ts = true ->
  forallb (strings_all valid_text) (map turn_value ts) = true.
Proof.
  induction ts as [|t ts IH]; [reflexivity|]. cbn [forallb map].
  intros H. apply andb_true_iff in H. destruct H as [Ht Hts].
  rewrite (IH Hts), andb_true_r. unfold turn_value, turn.
  cbn [strings_all forallb fst snd]. rewrite Ht.
  destruct (role t); reflexivity.
Qed.

Lemma valid_state_strings (st : PersistedState) :
  valid_state st = true -> strings_all valid_text (state_value st) = true.
Proof.
  unfold valid_state. intros H. apply andb_true_iff in H. destruct H as [H Hp].
  apply andb_true_iff in H. destruct H as [Hc Hk].
  unfold state_value, shaped. cbn [strings_all forallb fst snd].
  rewrite (valid_turns _ Hc), Hk, Hp. reflexivity.
Qed.

(** A valid state survives the trip through the data file. *)
Lemma state_file (st : PersistedState) :
  valid_state st = true ->
  exists c, Utf8.encode (Json.dumps (state_value st)) = Some c
            /\ Utf8.decode c = Some (Json.dumps (state_value st))
            /\ Py.universal_newlines (Json.dumps (state_value st))
               = Json.dumps (state_value st)
            /\ Json.loads (Json.dumps (state_value st)) = Some (state_value st).
Proof.
  intros H.
  destruct (TextFacts.clean_text_file (Json.dumps (state_value st))) as (c & H1 & H2 & H3).
  { apply TextFacts.clean_dumps; [apply plain_state | apply valid_state_strings, H]. }
  exists c. repeat split; try assumption.
  apply JsonFacts.loads_dumps, plain_state.
Qed.

Lemma save_data_ok (env : Env) (w : World) (c : bytes) :
  Utf8.encode (Json.dumps (bot_data w)) = Some c ->
  save_data env w
  = (Ok tt,
     mkWorld (fs_write (fs w) (data_file (CONFIG env)) c) (bot_data w) (BOT_USERNAME w)
       (trace w ++ [EvWrite (data_file (CONFIG env)) c])).
Proof.
  intros H. unfold save_data, try_except, bind, get_bot_data, write_text.
  rewrite H. reflexivity.
Qed.

(** [save_data] never raises; it writes the data file and nothing else. *)
Lemma save_data_total (env : Env) (w : World) :
  exists c0,
    save_data env w
    = (Ok tt,
       mkWorld (fs_write (fs w) (data_file (CONFIG env)) c0) (bot_data w) (BOT_USERNAME w)
         (trace w ++ [EvWrite (data_file (CONFIG env)) c0]))
    /\ forall blob, Utf8.encode (Json.dumps (bot_data w)) = Some blob -> c0 = blob.
Proof.
  unfold save_data, try_except, bind, get_bot_data, write_text.
  destruct (Utf8.encode (Json.dumps (bot_data w))) as [c|].
  - exists c. split; [reflexivity|]. intros blob [= <-]. reflexivity.
  - exists []. split; [|discriminate].
    unfold emit, raise, ret. cbn [fs bot_data BOT_USERNAME trace apply_event].
    reflexivity.
Qed.

Lemma load_data_ok (env : Env) (w : World) (c : bytes) (s : str) (v : pyval) :
  fs_read (fs w) (data_file (CONFIG env)) = Some c ->
  Utf8.decode c = Some s -> Json.loads (Py.universal_newlines s) = Some v ->
  load_data env w = (Ok tt, mkWorld (fs w) v (BOT_USERNAME w) (trace w)).
Proof.
  intros Hf Hd Hl. unfold load_data.
  repeat (mrun; rewrite ?Hf, ?Hd, ?Hl). reflexivity.
Qed.

Lemma load_data_malformed (env : Env) (w : World) (c : bytes) :
  fs_read (fs w) (data_file (CONFIG env)) = Some c -> well_formed c = false ->
  load_data env w
  = save_data env (mkWorld (fs w) (empty_bot_data env) (BOT_USERNAME w) (trace w)).
Proof.
  intros Hf Hw. unfold load_data. repeat (mrun; rewrite ?Hf).
  unfold well_formed in Hw.
  destruct (Utf8.decode c) as [s|]; [|reflexivity]. mrun.
  destruct (Json.loads (Py.universal_newlines s)); [discriminate | reflexivity].
Qed.

Lemma load_data_missing (env : Env) (w : World) :
  fs_read (fs w) (data_file (CONFIG env)) = None ->
  load_data env w
  = save_data env (mkWorld (fs w) (empty_bot_data env) (BOT_USERNAME w) (trace w)).
Proof.
  intros Hf. unfold load_data. mrun. rewrite Hf. reflexivity.
Qed.

End StateFacts.

(** ** C1: what was saved is what is loaded *)

(** C1.  For every valid persisted state held in [bot_data], [save_data]
    followed by [load_data] (whatever [bot_data] held in between, as after a
    restart) succeeds and leaves [bot_data] equal to the state saved. *)
Theorem C1_save_load_roundtrip (env : Env) (st : PersistedState) (w : World)
    (junk : pyval) :
  valid_state st = true ->
  bot_data w = state_value st ->
  exists w1 w2,
    save_data env w = (Ok tt, w1)
    /\ load_data env (mkWorld (fs w1) junk (BOT_USERNAME w1) (trace w1)) = (Ok tt, w2)
    /\ bot_data w2 = state_value st.
Proof.
  intros Hv Hb.
  destruct (StateFacts.state_file st Hv) as (c & He & Hd & Hu & Hl).
  rewrite <- Hb in He.
  eexists. eexists. split; [apply (StateFacts.save_data_ok env w c He)|].
  split.
  - eapply StateFacts.load_data_ok;
      [apply fs_read_write_same | exact Hd | rewrite Hu; exact Hl].
  - reflexivity.
Qed.

Lemma C1_save_load_roundtrip_witness :
  valid_state sample_state = true
  /\ exists w1 w2,
       save_data sample_env (mkWorld [] (state_value sample_state) None []) = (Ok tt, w1)
       /\ load_data sample_env (mkWorld (fs w1) PNone (BOT_USERNAME w1) (trace w1))
          = (Ok tt, w2)
       /\ bot_data w2 = state_value sample_state.
Proof.
  split; [reflexivity|].
  apply (C1_save_load_roundtrip sample_env sample_state
           (mkWorld [] (state_value sample_state) None []) PNone); reflexivity.
Defined.


(** ** C3: a data file that is not JSON heals itself *)

(** C3 (as amended).  If the data file exists and [json.load] does not
    accept it (it is not UTF-8 or not JSON), [load_data] succeeds with the
    default state in [bot_data]: an empty conversation, an empty knowledge
    base and the default prompt.  It writes that state to the data file at
    once, as JSON text; a second [load_data] right after succeeds too, reads
    that file (it writes nothing) and yields the default state again. *)
Theorem C3_corrupted_file_self_heals (env : Env) (w : World) (c : bytes) :
  fs_read (fs w) (data_file (CONFIG env)) = Some c ->
  well_formed c = false ->
  valid_text (default_system_prompt (CONFIG env)) = true ->
  exists w1 w2 c1,
    load_data env w = (Ok tt, w1)
    /\ bot_data w1
       = PDict [(k_conversation_context, PList []);
                (k_knowledge_base, PStr []);
                (k_custom_prompt, PStr (default_system_prompt (CONFIG env)))]
    /\ fs w1 = fs_write (fs w) (data_file (CONFIG env)) c1
    /\ trace w1 = trace w ++ [EvWrite (data_file (CONFIG env)) c1]
    /\ fs_read (fs w1) (data_file (CONFIG env)) = Some c1
    /\ Utf8.decode c1
       = Some (Json.dumps
                 (PDict [(k_conversation_context, PList []);
                         (k_knowledge_base, PStr []);
                         (k_custom_prompt, PStr (default_system_prompt (CONFIG env)))]))
    /\ well_formed c1 = true
    /\ load_data env w1 = (Ok tt, w2)
    /\ bot_data w2 = bot_data w1
    /\ fs w2 = fs w1
    /\ trace w2 = trace w1.
Proof.
  intros Hf Hw Hp.
  set (st := mkState [] [] (default_system_prompt (CONFIG env))).
  assert (Hv : valid_state st = true) by (unfold valid_state, st; simpl; rewrite Hp; reflexivity).
  destruct (StateFacts.state_file st Hv) as (c1 & He & Hd & Hu & Hl).
  change (state_value st) with (empty_bot_data env) in *.
  set (w0 := mkWorld (fs w) (empty_bot_data env) (BOT_USERNAME w) (trace w)).
  pose proof (StateFacts.save_data_ok env w0 c1 He) as Hs.
  exists (mkWorld (fs_write (fs w0) (data_file (CONFIG env)) c1) (bot_data w0)
            (BOT_USERNAME w0) (trace w0 ++ [EvWrite (data_file (CONFIG env)) c1])).
  eexists. exists c1.
  split; [rewrite (StateFacts.load_data_malformed env w c Hf Hw); exact Hs|].
  split; [reflexivity|].
  split; [reflexivity|].
  split; [reflexivity|].
  split; [apply fs_read_write_same|].
  split; [exact Hd|].
  split; [unfold well_formed; rewrite Hd, Hu, Hl; reflexivity|].
  split.
  - eapply StateFacts.load_data_ok;
      [apply fs_read_write_same | exact Hd | rewrite Hu; exact Hl].
  - repeat split.
Qed.

Lemma C3_corrupted_file_self_heals_witness :
  well_formed (bytes_of_string "{oops") = false
  /\ exists w1 w2 c1,
       load_data sample_env corrupt_world = (Ok tt, w1)
       /\ bot_data w1
          = PDict [(k_conversation_context, PList []);
                   (k_knowledge_base, PStr []);
                   (k_custom_prompt, PStr (default_system_prompt default_config))]
       /\ fs w1 = fs_write (fs corrupt_world) (data_file default_config) c1
       /\ trace w1 = trace corrupt_world ++ [EvWrite (data_file default_config) c1]
       /\ fs_read (fs w1) (data_file default_config) = Some c1
       /\ Utf8.decode c1
          = Some (Json.dumps
                    (PDict [(k_conversation_context, PList []);
                            (k_knowledge_base, PStr []);
                            (k_custom_prompt, PStr (default_system_prompt default_config))]))
       /\ well_formed c1 = true
       /\ load_data sample_env w1 = (Ok tt, w2)
       /\ bot_data w2 = bot_data w1
       /\ fs w2 = fs w1
       /\ trace w2 = trace w1.
Proof.
  split; [reflexivity|].
  apply (C3_corrupted_file_self_heals sample_env corrupt_world (bytes_of_string "{oops"));
    reflexivity.
Defined.

(** A data file that holds a JSON list is a file [json.load] accepts:
    [load_data] takes the list for the state, does not put the default in
    its place and writes nothing; [main] then raises TypeError at the first
    assignment of [load_all_docs], on this start and on every later one. *)
Lemma C3_counterexample :
  well_formed (bytes_of_string "[1, 2]") = true
  /\ load_data sample_env list_file_world
     = (Ok tt, mkWorld (fs list_file_world) (PList [PInt 1; PInt 2]) None [])
  /\ main sample_env (Some (lit "token")) list_file_world
     = (Raise TypeError, mkWorld (fs list_file_world) (PList [PInt 1; PInt 2]) None [])
  /\ main sample_env (Some (lit "token"))
       (mkWorld (fs (snd (main sample_env (Some (lit "token")) list_file_world)))
          PNone None [])
     = (Raise TypeError, mkWorld (fs list_file_world) (PList [PInt 1; PInt 2]) None []).
Proof. repeat split. Qed.


(** A data file that is JSON but not a state is taken as it is: nothing is
    checked beyond the syntax. *)
Example load_data_other_shape :
  bot_data (snd (load_data sample_env
                   (mkWorld [(data_file default_config, bytes_of_string "[1, 2]")]
                      PNone None [])))
  = PList [PInt 1; PInt 2].
Proof. reflexivity. Qed.

(** ** Mention parsing *)

Module MentionFacts.

Lemma parse_mention_first (text bot q0 : str) (pre post : list Tg.MessageEntity)
    (e : Tg.MessageEntity) :
  forallb (fun x => negb (addresses text bot x)) pre = true ->
  addresses text bot e = true ->
  parse_mention text bot (pre ++ e :: post) q0
  = (true, Py.strip (without_span text e)).
Proof.
  intros Hpre He. induction pre as [|x pre IH].
  - cbn [app parse_mention]. unfold addresses in He.
    destruct (Tg.type e); [|discriminate]. rewrite He. reflexivity.
  - cbn [forallb] in Hpre. apply andb_true_iff in Hpre. destruct Hpre as [Hx Hpre].
    apply negb_true_iff in Hx. cbn [app parse_mention]. unfold addresses in Hx.
    destruct (Tg.type x); [rewrite Hx|]; apply IH, Hpre.
Qed.

Lemma parse_mention_none (text bot q0 : str) (es : list Tg.MessageEntity) :
  forallb (fun x => negb (addresses text bot x)) es = true ->
  parse_mention text bot es q0 = (false, q0).
Proof.
  induction es as [|x es IH]; [reflexivity|]. cbn [forallb]. intros H.
  apply andb_true_iff in H. destruct H as [Hx Hes].
  apply negb_true_iff in Hx. cbn [parse_mention]. unfold addresses in Hx.
  destruct (Tg.type x); [rewrite Hx|]; apply IH, Hes.
Qed.

Lemma startswith_nil (s : str) : Py.startswith s [] = true.
Proof. destruct s; reflexivity. Qed.

(** Removing a one-character pattern filters the character out. *)
Lemma replace_char (a : Z) (s : str) :
  Py.replace s [a] [] = filter (fun c => negb (a =? c)) s.
Proof.
  unfold Py.replace. induction s as [|c s IH]; [reflexivity|].
  cbn [Py.replace_from Py.startswith List.length Nat.pred filter app].
  rewrite startswith_nil.
  destruct (a =? c); cbn [andb negb]; rewrite IH; reflexivity.
Qed.

Lemma isspace_lower (c : Z) : Py.isspace c = true -> Py.lower_cp c = c.
Proof.
  unfold Py.lower_cp. destruct (Utf8.in_range 0x41 0x5A c) eqn:E; [|reflexivity].
  intros H. exfalso. apply Utf8Facts.in_range_true in E. unfold Py.isspace in H.
  repeat (apply orb_true_iff in H; destruct H as [H|H]);
    try apply Utf8Facts.in_range_true in H; try apply Z.eqb_eq in H; lia.
Qed.

(** The text of a mention of a name without white space has none either. *)
Lemma mention_no_space (m bot : str) :
  Py.replace (Py.lower m) at_sign [] = bot ->
  forallb (fun c => negb (Py.isspace c)) bot = true ->
  forallb (fun c => negb (Py.isspace c)) m = true.
Proof.
  change at_sign with [64]. rewrite replace_char. intros <- H.
  induction m as [|c m IH]; [reflexivity|].
  cbn [Py.lower map filter forallb] in *.
  destruct (Py.isspace c) eqn:Ec.
  - exfalso. rewrite (isspace_lower c Ec) in H.
    destruct (Z.eqb_spec 64 c) as [<-|N]; [discriminate Ec|].
    cbn [negb forallb] in H. rewrite Ec in H. discriminate H.
  - cbn [negb andb]. apply IH.
    destruct (negb (64 =? Py.lower_cp c)); [|exact H].
    cbn [forallb] in H. apply andb_true_iff in H. apply H.
Qed.

Lemma lstrip_keeps (l : str) (c : Z) (t : str) :
  Py.isspace c = false -> exists l', Py.lstrip (l ++ c :: t) = l' ++ c :: t.
Proof.
  intros Hc. induction l as [|x l [l' IH]].
  - exists []. simpl. rewrite Hc. reflexivity.
  - cbn [app Py.lstrip]. destruct (Py.isspace x).
    + exists l'. exact IH.
    + exists (x :: l). reflexivity.
Qed.

Lemma no_space_rev (m : str) :
  forallb (fun c => negb (Py.isspace c)) m = true ->
  forallb (fun c => negb (Py.isspace c)) (rev m) = true.
Proof.
  intros H. apply forallb_forall. intros x Hx. apply in_rev in Hx.
  rewrite forallb_forall in H. apply H, Hx.
Qed.

(** Stripping keeps every piece that has no white space in it. *)
Lemma occurs_in_strip (m s : str) :
  forallb (fun c => negb (Py.isspace c)) m = true ->
  occurs_in m s -> occurs_in m (Py.strip s).
Proof.
  intros Hm (l & r & ->). destruct m as [|c m'].
  { exists [], (Py.strip (l ++ [] ++ r)). reflexivity. }
  set (m := c :: m') in *.
  assert (Hc : Py.isspace c = false).
  { cbn [forallb] in Hm. apply andb_true_iff in Hm. apply negb_true_iff, Hm. }
  destruct (lstrip_keeps l c (m' ++ r) Hc) as [l' Hl].
  unfold Py.strip, Py.rstrip.
  change (l ++ m ++ r) with (l ++ c :: m' ++ r). rewrite Hl.
  change (l' ++ c :: m' ++ r) with (l' ++ m ++ r).
  rewrite !rev_app_distr, <- app_assoc.
  pose proof (no_space_rev m Hm) as Hrev.
  destruct (rev m) as [|d t] eqn:Er.
  { apply (f_equal (@List.length Z)) in Er. rewrite length_rev in Er. discriminate Er. }
  assert (Hd : Py.isspace d = false).
  { cbn [forallb] in Hrev. apply andb_true_iff in Hrev. apply negb_true_iff, Hrev. }
  cbn [app]. destruct (lstrip_keeps (rev r) d (t ++ rev l') Hd) as [r' Hr].
  rewrite Hr. exists l', (rev r').
  assert (Em : m = rev t ++ [d]) by (rewrite <- (rev_involutive m), Er; reflexivity).
  rewrite Em, rev_app_distr. cbn [rev]. rewrite rev_app_distr, rev_involutive.
  rewrite <- !app_assoc. reflexivity.
Qed.

(** A span that starts after the removed one is still there, shifted. *)
Lemma later_span_occurs (text : str) (e e2 : Tg.MessageEntity) :
  (Tg.offset e + Tg.length e <= Tg.offset e2)%nat ->
  occurs_in (span_text text e2) (without_span text e).
Proof.
  intros Hle. unfold span_text, without_span, Py.slice, occurs_in.
  set (a := Tg.offset e). set (n := Tg.length e). set (b := Tg.offset e2).
  set (k := Tg.length e2). fold a n b in Hle.
  replace (b + k - b)%nat with k by lia.
  assert (E : skipn b text = skipn (b - (a + n)) (skipn (a + n) text))
    by (rewrite skipn_skipn; f_equal; lia).
  rewrite E. set (t := skipn (a + n) text).
  exists (firstn a text ++ firstn (b - (a + n)) t), (skipn k (skipn (b - (a + n)) t)).
  rewrite <- app_assoc. f_equal.
  rewrite (firstn_skipn k), (firstn_skipn (b - (a + n))). reflexivity.
Qed.

End MentionFacts.

(** ** C10: only the first mention of the bot is removed *)

(** C10.  In a message whose first entity mentioning the bot is [e],
    [parse_mention] answers with the text without the span of [e], stripped;
    every later span mentioning the bot (the bot's name having no white
    space) still occurs in that question as it stood in the text. *)
Theorem C10_only_first_mention_removed (text bot q0 : str)
    (pre post : list Tg.MessageEntity) (e : Tg.MessageEntity) :
  forallb (fun x => negb (addresses text bot x)) pre = true ->
  addresses text bot e = true ->
  forallb (fun c => negb (Py.isspace c)) bot = true ->
  parse_mention text bot (pre ++ e :: post) q0 = (true, Py.strip (without_span text e))
  /\ forall e2,
       In e2 post -> addresses text bot e2 = true ->
       (Tg.offset e + Tg.length e <= Tg.offset e2)%nat ->
       occurs_in (span_text text e2) (snd (parse_mention text bot (pre ++ e :: post) q0)).
Proof.
  intros Hpre He Hbot.
  rewrite (MentionFacts.parse_mention_first text bot q0 pre post e Hpre He).
  split; [reflexivity|]. intros e2 _ H2 Hle. cbn [snd].
  apply MentionFacts.occurs_in_strip; [|apply MentionFacts.later_span_occurs, Hle].
  unfold addresses in H2. destruct (Tg.type e2); [|discriminate].
  apply str_eqb_eq in H2.
  exact (MentionFacts.mention_no_space _ bot H2 Hbot).
Qed.

Lemma C10_only_first_mention_removed_witness :
  parse_mention (lit "@bot hi @bot") (lit "bot") [first_mention; second_mention] []
  = (true, lit "hi @bot")
  /\ occurs_in (span_text (lit "@bot hi @bot") second_mention) (lit "hi @bot").
Proof.
  destruct (C10_only_first_mention_removed (lit "@bot hi @bot") (lit "bot") []
              [] [second_mention] first_mention eq_refl eq_refl eq_refl) as [H1 H2].
  split; [exact H1|].
  exact (H2 second_mention (or_introl eq_refl) eq_refl (le_S _ _ (le_S _ _ (le_S _ _ (le_S _ _ (le_n 4)))))).
Defined.


(** ** C6: the three parsing examples *)

(** C6.  With the bot named [bot]: "@bot hello there" with a mention over
    "@bot" is addressed to the bot with question "hello there"; "@bot" alone
    is addressed with an empty question, and [handle_mention] then sends the
    no-question prompt and does nothing else (for every configuration whose
    prompt has [{user_name}] as its only field, the sender's name in its
    place; under the default configuration, for a sender named Ann, the
    text given); "hello" without entities is not addressed, and
    [handle_mention] then leaves the world as it was. *)
Theorem C6_mention_parsing_examples :
  parse_mention (lit "@bot hello there") (lit "bot") [Tg.mkEntity Tg.mention 0 4]
    (Py.strip (lit "@bot hello there")) = (true, lit "hello there")
  /\ parse_mention (lit "@bot") (lit "bot") [Tg.mkEntity Tg.mention 0 4]
       (Py.strip (lit "@bot")) = (true, [])
  /\ fst (parse_mention (lit "hello") (lit "bot") [] (Py.strip (lit "hello"))) = false
  /\ (forall env f d tr name,
        simple_template (no_question_tip (CONFIG env)) = true ->
        handle_mention env (text_update (lit "@bot") [Tg.mkEntity Tg.mention 0 4] name)
          (mkWorld f d (Some (lit "bot")) tr)
        = (Ok tt,
           mkWorld f d (Some (lit "bot"))
             (tr ++ [EvReply (format_user_name (no_question_tip (CONFIG env))
                                (user_name_of (text_update (lit "@bot")
                                                 [Tg.mkEntity Tg.mention 0 4] name)))])))
  /\ simple_template (no_question_tip default_config) = true
  /\ (forall f d tr,
        handle_mention sample_env
          (text_update (lit "@bot") [Tg.mkEntity Tg.mention 0 4] (Some (lit "Ann")))
          (mkWorld f d (Some (lit "bot")) tr)
        = (Ok tt,
           mkWorld f d (Some (lit "bot"))
             (tr ++ [EvReply (lit "@Ann 你@我啦，但没说具体问题哦～请输入想咨询的内容，我会参考所有文档尽力解答！")])))
  /\ (forall env f d tr name,
        handle_mention env (text_update (lit "hello") [] name)
          (mkWorld f d (Some (lit "bot")) tr)
        = (Ok tt, mkWorld f d (Some (lit "bot")) tr)).
Proof.
  split; [reflexivity|]. split; [reflexivity|]. split; [reflexivity|].
  split; [intros env f d tr name _; reflexivity|].
  split; [reflexivity|]. split; intros; reflexivity.
Qed.

(** ** Folding an exchange back into the state *)

Module CommitFacts.

Lemma get_ctx f ctx kb p u t :
  get_item k_conversation_context (mkWorld f (shaped ctx kb p) u t)
  = (Ok (PList ctx), mkWorld f (shaped ctx kb p) u t).
Proof. reflexivity. Qed.

Lemma get_kb f ctx kb p u t :
  get_item k_knowledge_base (mkWorld f (shaped ctx kb p) u t)
  = (Ok (PStr kb), mkWorld f (shaped ctx kb p) u t).
Proof. reflexivity. Qed.

Lemma get_prompt f ctx kb p u t :
  get_item k_custom_prompt (mkWorld f (shaped ctx kb p) u t)
  = (Ok (PStr p), mkWorld f (shaped ctx kb p) u t).
Proof. reflexivity. Qed.

Lemma set_ctx f ctx kb p u t ctx' :
  set_item k_conversation_context (PList ctx') (mkWorld f (shaped ctx kb p) u t)
  = (Ok tt, mkWorld f (shaped ctx' kb p) u t).
Proof. reflexivity. Qed.

Lemma set_kb f ctx kb p u t kb' :
  set_item k_knowledge_base (PStr kb') (mkWorld f (shaped ctx kb p) u t)
  = (Ok tt, mkWorld f (shaped ctx kb' p) u t).
Proof. reflexivity. Qed.

(** Step through reads and writes of a shaped [bot_data]. *)
Ltac shaped_run :=
  repeat (mbind; rewrite ?get_ctx, ?get_kb, ?get_prompt, ?set_ctx, ?set_kb).

(** The three effects of [commit] after the conversation is updated. *)
Lemma commit_shaped (env : Env) (q a : str) (f : FS) (ctx : list pyval) (kb p : str)
    (u : option str) (t : list event) :
  commit env q a (mkWorld f (shaped ctx kb p) u t)
  = (save_data env ;; rotate_history env ;;
     append_text (chat_history_file (CONFIG env)) (history_record q a))
      (mkWorld f
         (shaped (append_turn_pair (max_context_msg (CONFIG env)) ctx (q, a)) kb p) u t).
Proof.
  unfold append_turn_pair, keep_last, commit. cbn [fst snd].
  destruct (len ((ctx ++ [turn r_user q]) ++ [turn r_assistant a])
            >? max_context_msg (CONFIG env)) eqn:E.
  - shaped_run. rewrite E. shaped_run. reflexivity.
  - shaped_run. rewrite E. shaped_run. reflexivity.
Qed.

Lemma marker_bytes : Utf8.encode ROTATION_MARKER = Some ROTATION_MARKER_BYTES.
Proof. reflexivity. Qed.


(** A history file within the cap is left alone. *)
Lemma rotate_small (env : Env) (w : World) :
  match fs_read (fs w) (chat_history_file (CONFIG env)) with
  | Some c => len c <= MAX_CHAT_FILE_SIZE
  | None => True
  end ->
  rotate_history env w = (Ok tt, w).
Proof.
  intros H. unfold rotate_history. mrun.
  destruct (fs_read (fs w) (chat_history_file (CONFIG env))) as [c|] eqn:Hf.
  - mrun. rewrite Hf. mrun.
    replace (len c >? MAX_CHAT_FILE_SIZE) with false
      by (symmetry; rewrite Z.gtb_ltb; apply Z.ltb_ge; exact H).
    reflexivity.
  - reflexivity.
Qed.

(** A history file over the cap is cut to its tail under the marker. *)
Lemma rotate_big (env : Env) (w : World) (c : bytes) :
  fs_read (fs w) (chat_history_file (CONFIG env)) = Some c ->
  MAX_CHAT_FILE_SIZE < len c ->
  exists kept,
    Utf8.encode (Utf8.decode_ignore (skipn (Z.to_nat (len c - TRIM_TO_SIZE)) c)) = Some kept
    /\ len kept <= TRIM_TO_SIZE
    /\ rotate_history env w
       = (Ok tt,
          mkWorld (fs_write (fs w) (chat_history_file (CONFIG env))
                     (ROTATION_MARKER_BYTES ++ kept))
            (bot_data w) (BOT_USERNAME w)
            (trace w ++ [EvWrite (chat_history_file (CONFIG env))
                           (ROTATION_MARKER_BYTES ++ kept)])).
Proof.
  intros Hf Hbig.
  set (tail := skipn (Z.to_nat (len c - TRIM_TO_SIZE)) c).
  destruct (Utf8Facts.encode_decode_ignore tail) as (kept & Hk & Hlen).
  assert (Htail : len tail = TRIM_TO_SIZE).
  { unfold tail, len in *. rewrite length_skipn.
    unfold MAX_CHAT_FILE_SIZE, TRIM_TO_SIZE in *. lia. }
  exists kept. split; [exact Hk|]. split; [unfold len in *; lia|].
  unfold rotate_history. repeat (mrun; rewrite ?Hf).
  replace (len c >? MAX_CHAT_FILE_SIZE) with true
    by (symmetry; rewrite Z.gtb_ltb; apply Z.ltb_lt; exact Hbig).
  repeat (mrun; rewrite ?Hf).
  replace (len c <? TRIM_TO_SIZE) with false
    by (symmetry; apply Z.ltb_ge; unfold MAX_CHAT_FILE_SIZE, TRIM_TO_SIZE in *; lia).
  mrun. unfold write_text. fold tail.
  rewrite (Utf8Facts.encode_app_some _ _ _ _ marker_bytes Hk). reflexivity.
Qed.

(** Writing files and replying leave [bot_data] alone. *)
Lemma rotate_history_bot_data (env : Env) (w : World) :
  bot_data (snd (rotate_history env w)) = bot_data w.
Proof.
  destruct (fs_read (fs w) (chat_history_file (CONFIG env))) as [c|] eqn:Hf.
  - destruct (Z.ltb_spec MAX_CHAT_FILE_SIZE (len c)) as [Hbig|Hsmall].
    + destruct (rotate_big env w c Hf Hbig) as (kept & _ & _ & ->). reflexivity.
    + rewrite rotate_small; [reflexivity | rewrite Hf; exact Hsmall].
  - rewrite rotate_small; [reflexivity | rewrite Hf; exact I].
Qed.

Lemma append_text_bot_data (p s : str) (w : World) :
  bot_data (snd (append_text p s w)) = bot_data w.
Proof. unfold append_text. destruct (Utf8.encode s); reflexivity. Qed.

Lemma rotate_history_ok (env : Env) (w : World) :
  fst (rotate_history env w) = Ok tt.
Proof.
  destruct (fs_read (fs w) (chat_history_file (CONFIG env))) as [c|] eqn:Hf.
  - destruct (Z.ltb_spec MAX_CHAT_FILE_SIZE (len c)) as [Hbig|Hsmall].
    + destruct (rotate_big env w c Hf Hbig) as (kept & _ & _ & ->). reflexivity.
    + rewrite rotate_small; [reflexivity | rewrite Hf; exact Hsmall].
  - rewrite rotate_small; [reflexivity | rewrite Hf; exact I].
Qed.

(** Whatever becomes of the files, [commit] leaves the conversation
    extended by the exchange and cut to the configured length. *)
Lemma commit_bot_data (env : Env) (q a : str) (w : World) (ctx : list pyval) (kb p : str) :
  bot_data w = shaped ctx kb p ->
  bot_data (snd (commit env q a w))
  = shaped (append_turn_pair (max_context_msg (CONFIG env)) ctx (q, a)) kb p.
Proof.
  destruct w as [f d u t]. cbn [bot_data]. intros ->.
  rewrite commit_shaped. unfold bind at 1.
  destruct (StateFacts.save_data_total env
              (mkWorld f (shaped (append_turn_pair (max_context_msg (CONFIG env)) ctx (q, a))
                            kb p) u t)) as (c0 & -> & _).
  cbn [fs bot_data BOT_USERNAME trace]. unfold bind.
  match goal with |- context [rotate_history env ?w1] =>
    pose proof (rotate_history_bot_data env w1) as Hr;
    pose proof (rotate_history_ok env w1) as Ho;
    destruct (rotate_history env w1) as [r w2]
  end.
  cbn [fst snd bot_data] in *. subst r.
  rewrite append_text_bot_data. exact Hr.
Qed.

(** [commit] on a shaped state, with the two files apart and a record that
    can be written: the data file is written, then the history file is
    rotated if it is over the cap, then the record is appended. *)
Lemma commit_run (env : Env) (q a : str) (f : FS) (ctx : list pyval) (kb p : str)
    (u : option str) (t : list event) (rb : bytes) :
  str_eqb (data_file (CONFIG env)) (chat_history_file (CONFIG env)) = false ->
  Utf8.encode (history_record q a) = Some rb ->
  exists c0 rot,
    commit env q a (mkWorld f (shaped ctx kb p) u t)
    = (Ok tt,
       mkWorld
         (replay (EvWrite (data_file (CONFIG env)) c0 :: rot
                  ++ [EvAppend (chat_history_file (CONFIG env)) rb]) f)
         (shaped (append_turn_pair (max_context_msg (CONFIG env)) ctx (q, a)) kb p) u
         (t ++ EvWrite (data_file (CONFIG env)) c0 :: rot
          ++ [EvAppend (chat_history_file (CONFIG env)) rb]))
    /\ (forall blob,
          Utf8.encode
            (Json.dumps
               (shaped (append_turn_pair (max_context_msg (CONFIG env)) ctx (q, a)) kb p))
          = Some blob -> c0 = blob)
    /\ match fs_read f (chat_history_file (CONFIG env)) with
       | Some c =>
           if MAX_CHAT_FILE_SIZE <? len c then
             exists kept,
               Utf8.encode
                 (Utf8.decode_ignore (skipn (Z.to_nat (len c - TRIM_TO_SIZE)) c))
               = Some kept
               /\ len kept <= TRIM_TO_SIZE
               /\ rot = [EvWrite (chat_history_file (CONFIG env))
                           (ROTATION_MARKER_BYTES ++ kept)]
           else rot = []
       | None => rot = []
       end.
Proof.
  intros Hne Hrec. rewrite commit_shaped. unfold bind at 1.
  destruct (StateFacts.save_data_total env
              (mkWorld f (shaped (append_turn_pair (max_context_msg (CONFIG env)) ctx (q, a))
                            kb p) u t)) as (c0 & -> & Hc0).
  cbn [fs bot_data BOT_USERNAME trace] in *. exists c0.
  set (w1 := mkWorld (fs_write f (data_file (CONFIG env)) c0)
               (shaped (append_turn_pair (max_context_msg (CONFIG env)) ctx (q, a)) kb p) u
               (t ++ [EvWrite (data_file (CONFIG env)) c0])).
  assert (Hread : fs_read (fs w1) (chat_history_file (CONFIG env))
                  = fs_read f (chat_history_file (CONFIG env)))
    by (apply fs_read_write_other, Hne).
  unfold bind, append_text. rewrite Hrec.
  destruct (fs_read f (chat_history_file (CONFIG env))) as [c|] eqn:Hf.
  - destruct (Z.ltb_spec MAX_CHAT_FILE_SIZE (len c)) as [Hbig|Hsmall].
    + destruct (rotate_big env w1 c Hread Hbig) as (kept & Hk & Hl & ->).
      exists [EvWrite (chat_history_file (CONFIG env)) (ROTATION_MARKER_BYTES ++ kept)].
      split; [|split; [exact Hc0 | exists kept; auto]].
      unfold emit, w1. cbn [fs bot_data BOT_USERNAME trace replay fold_left app].
      rewrite <- !app_assoc. reflexivity.
    + rewrite rotate_small by (rewrite Hread; exact Hsmall).
      exists []. split; [|split; [exact Hc0 | reflexivity]].
      unfold emit, w1. cbn [fs bot_data BOT_USERNAME trace replay fold_left app].
      rewrite <- !app_assoc. reflexivity.
  - rewrite rotate_small by (rewrite Hread; exact I).
    exists []. split; [|split; [exact Hc0 | reflexivity]].
    unfold emit, w1. cbn [fs bot_data BOT_USERNAME trace replay fold_left app].
    rewrite <- !app_assoc. reflexivity.
Qed.

End CommitFacts.

(** ** C2: the conversation stays within its bound *)

Module ConversationFacts.

Lemma keep_last_len (n : Z) (l : list pyval) :
  0 < n -> len (keep_last n l) = Z.min (len l) n.
Proof.
  intros Hn. unfold keep_last. rewrite Z.gtb_ltb.
  destruct (Z.ltb_spec n (len l)) as [H|H]; [|lia].
  unfold Py.slice_from. destruct (Z.leb_spec 0 (- n)) as [H0|H0]; [lia|].
  unfold len in *. rewrite length_skipn. lia.
Qed.

Lemma keep_last_suffix (n : Z) (l : list pyval) : exists d, l = d ++ keep_last n l.
Proof.
  unfold keep_last, Py.slice_from.
  destruct (len l >? n); [|exists []; reflexivity].
  destruct (0 <=? - n); eexists; symmetry; apply firstn_skipn.
Qed.

(** The conversation after a run of exchanges: its length, and that it is
    the tail of all the turns so far. *)
Lemma fold_pairs (n : Z) (qas : list (str * str)) :
  0 < n ->
  forall (ctx0 all0 : list pyval) (j : Z),
    0 <= j -> len ctx0 = Z.min (2 * j) n -> (exists d, all0 = d ++ ctx0) ->
    len (fold_left (append_turn_pair n) qas ctx0) = Z.min (2 * (j + len qas)) n
    /\ exists d, all0 ++ flat_map pair_turns qas
                 = d ++ fold_left (append_turn_pair n) qas ctx0.
Proof.
  intros Hn. induction qas as [|qa qas IH]; intros ctx0 all0 j Hj Hlen (d & Hall).
  - cbn [fold_left flat_map]. unfold len at 2. cbn [List.length].
    rewrite app_nil_r. split; [rewrite Hlen; f_equal; lia | exists d; exact Hall].
  - cbn [fold_left flat_map].
    destruct (IH (append_turn_pair n ctx0 qa) (all0 ++ pair_turns qa) (j + 1)) as [H1 H2].
    + lia.
    + unfold append_turn_pair. rewrite keep_last_len by exact Hn.
      rewrite !len_app_Z. unfold len at 2 3. cbn [List.length]. lia.
    + unfold append_turn_pair.
      destruct (keep_last_suffix n ((ctx0 ++ [turn r_user (fst qa)])
                                      ++ [turn r_assistant (snd qa)])) as [d' Hd'].
      exists (d ++ d'). rewrite <- app_assoc, <- Hd', Hall.
      unfold pair_turns. rewrite <- !app_assoc. reflexivity.
    + split.
      * rewrite H1. f_equal. unfold len. cbn [List.length]. lia.
      * rewrite <- app_assoc in H2. exact H2.
Qed.

(** The world after the [k+1]-th commit holds the conversation folded over
    the first [k+1] exchanges. *)
Lemma commits_nth (env : Env) (qas : list (str * str)) :
  forall (w : World) (ctx : list pyval) (kb p : str) (k : nat) (wk : World),
    bot_data w = shaped ctx kb p ->
    nth_error (commits env qas w) k = Some wk ->
    bot_data wk
    = shaped (fold_left (append_turn_pair (max_context_msg (CONFIG env)))
                (firstn (S k) qas) ctx) kb p.
Proof.
  induction qas as [|[q a] qas IH]; intros w ctx kb p k wk Hb Hk.
  - destruct k; discriminate Hk.
  - cbn [commits] in Hk.
    pose proof (CommitFacts.commit_bot_data env q a w ctx kb p Hb) as Hb'.
    destruct k as [|k].
    + injection Hk as <-. exact Hb'.
    + cbn [nth_error] in Hk. apply (IH _ _ _ _ _ _ Hb' Hk).
Qed.

Lemma commits_length (env : Env) (qas : list (str * str)) (w : World) :
  List.length (commits env qas w) = List.length qas.
Proof.
  revert w. induction qas as [|[q a] qas IH]; intros w; [reflexivity|].
  cbn [commits List.length]. rewrite IH. reflexivity.
Qed.

End ConversationFacts.

(** C2 (as amended).  From an empty conversation and with a positive
    [max_context_msg], after each of a run of commits the conversation has
    [min(2N, max_context_msg)] turns, [N] being the number of exchanges so
    far; it is the tail of the turns appended so far (nothing is removed but
    from the oldest end); and its length is even when [max_context_msg] is
    even. *)
Theorem C2_conversation_bounded (env : Env) (qas : list (str * str)) (w : World)
    (kb p : str) (k : nat) (wk : World) :
  bot_data w = shaped [] kb p ->
  0 < max_context_msg (CONFIG env) ->
  nth_error (commits env qas w) k = Some wk ->
  exists ctx,
    conversation_of wk = Some ctx
    /\ len ctx = Z.min (2 * Z.of_nat (S k)) (max_context_msg (CONFIG env))
    /\ (exists dropped, flat_map pair_turns (firstn (S k) qas) = dropped ++ ctx)
    /\ (Z.even (max_context_msg (CONFIG env)) = true -> Z.even (len ctx) = true).
Proof.
  intros Hb Hn Hk.
  pose proof (ConversationFacts.commits_nth env qas w [] kb p k wk Hb Hk) as Hwk.
  set (n := max_context_msg (CONFIG env)) in *.
  set (ctx := fold_left (append_turn_pair n) (firstn (S k) qas) []) in *.
  assert (Hlenq : List.length (firstn (S k) qas) = S k).
  { apply firstn_length_le.
    assert (Hlt : (k < List.length (commits env qas w))%nat)
      by (apply nth_error_Some; rewrite Hk; discriminate).
    rewrite ConversationFacts.commits_length in Hlt. lia. }
  destruct (ConversationFacts.fold_pairs n (firstn (S k) qas) Hn [] [] 0) as [H1 H2].
  { lia. } { unfold len. cbn [List.length]. lia. } { exists []. reflexivity. }
  fold ctx in H1, H2. unfold len at 2 in H1. rewrite Hlenq in H1.
  exists ctx. split; [unfold conversation_of; rewrite Hwk; reflexivity|].
  split; [rewrite H1; f_equal; lia|]. split; [exact H2|].
  intros He. rewrite H1.
  destruct (Z.min_spec (2 * (0 + Z.of_nat (S k))) n) as [[_ ->]|[_ ->]];
    [rewrite Z.even_mul; reflexivity | exact He].
Qed.

Lemma C2_conversation_bounded_witness :
  bot_data (fresh_world sample_env) = shaped [] [] (default_system_prompt default_config)
  /\ 0 < max_context_msg (CONFIG sample_env)
  /\ exists wk ctx,
       nth_error (commits sample_env two_exchanges (fresh_world sample_env)) 1 = Some wk
       /\ conversation_of wk = Some ctx
       /\ len ctx = Z.min (2 * Z.of_nat 2) (max_context_msg (CONFIG sample_env)).
Proof.
  split; [reflexivity|]. split; [reflexivity|].
  eexists.
  destruct (C2_conversation_bounded sample_env two_exchanges (fresh_world sample_env)
              [] (default_system_prompt default_config) 1 _ eq_refl eq_refl eq_refl)
    as (ctx & H1 & H2 & _).
  exists ctx. split; [reflexivity|]. split; assumption.
Defined.

(** With [max_context_msg = 3] the conversation holds three turns after the
    second exchange: the length is not even.  With [max_context_msg = 0]
    nothing is trimmed ([ctx[-0:]] is all of [ctx]): the conversation holds
    two turns after the first exchange, not [min(2, 0)]. *)
Lemma C2_counterexample :
  (exists wk ctx,
      nth_error (commits odd_env two_exchanges (fresh_world odd_env)) 1 = Some wk
      /\ conversation_of wk = Some ctx
      /\ len ctx = 3
      /\ Z.even (len ctx) = false)
  /\ (exists wk ctx,
        nth_error (commits zero_env two_exchanges (fresh_world zero_env)) 0 = Some wk
        /\ conversation_of wk = Some ctx
        /\ len ctx = 2
        /\ len ctx <> Z.min (2 * 1) (max_context_msg (CONFIG zero_env))).
Proof.
  split; eexists; eexists; (split; [reflexivity|]); (split; [vm_compute; reflexivity|]);
    split; [reflexivity | reflexivity | reflexivity | vm_compute; discriminate].
Qed.

(** ** C5: rotation of the history file *)

(** C5 (as amended).  When the history file is over [MAX_CHAT_FILE_SIZE],
    [commit] first rewrites it as the rotation marker followed by its last
    [TRIM_TO_SIZE] bytes, decoded leniently and encoded again, and then
    appends the record: the file begins with the marker, ends with the
    record, and is at most [TRIM_TO_SIZE] plus the marker plus the record
    long. *)
Theorem C5_rotation_before_append (env : Env) (q a : str) (w : World)
    (ctx : list pyval) (kb p : str) (c rb : bytes) :
  bot_data w = shaped ctx kb p ->
  str_eqb (data_file (CONFIG env)) (chat_history_file (CONFIG env)) = false ->
  fs_read (fs w) (chat_history_file (CONFIG env)) = Some c ->
  MAX_CHAT_FILE_SIZE < len c ->
  Utf8.encode (history_record q a) = Some rb ->
  exists w' kept c0,
    commit env q a w = (Ok tt, w')
    /\ Utf8.encode (Utf8.decode_ignore (skipn (Z.to_nat (len c - TRIM_TO_SIZE)) c))
       = Some kept
    /\ fs_read (fs w') (chat_history_file (CONFIG env))
       = Some (ROTATION_MARKER_BYTES ++ kept ++ rb)
    /\ len (ROTATION_MARKER_BYTES ++ kept ++ rb)
       <= TRIM_TO_SIZE + len ROTATION_MARKER_BYTES + len rb
    /\ trace w'
       = trace w ++ [EvWrite (data_file (CONFIG env)) c0;
                     EvWrite (chat_history_file (CONFIG env)) (ROTATION_MARKER_BYTES ++ kept);
                     EvAppend (chat_history_file (CONFIG env)) rb].
Proof.
  destruct w as [f d u t]. cbn [bot_data fs trace]. intros -> Hne Hf Hbig Hrec.
  destruct (CommitFacts.commit_run env q a f ctx kb p u t rb Hne Hrec)
    as (c0 & rot & Hrun & _ & Hrot).
  rewrite Hf in Hrot. apply Z.ltb_lt in Hbig. rewrite Hbig in Hrot.
  destruct Hrot as (kept & Hk & Hl & ->).
  eexists. exists kept, c0. split; [exact Hrun|]. cbn [fs trace].
  split; [exact Hk|]. split; [|split; [|reflexivity]].
  - cbn [app replay fold_left apply_event]. unfold fs_append.
    rewrite fs_read_write_same, fs_read_write_same, <- app_assoc. reflexivity.
  - rewrite !len_app_Z. lia.
Qed.

Module RotationFacts.

Lemma forallb_repeat {A} (P : A -> bool) (x : A) (n : nat) :
  P x = true -> forallb P (repeat x n) = true.
Proof. intros H. induction n as [|n IH]; [reflexivity|]. cbn [repeat forallb]. rewrite H, IH. reflexivity. Qed.

Lemma forallb_skipn {A} (P : A -> bool) (k : nat) (l : list A) :
  forallb P l = true -> forallb P (skipn k l) = true.
Proof.
  revert l. induction k as [|k IH]; intros l H; [exact H|].
  destruct l as [|x l]; [reflexivity|]. cbn [skipn]. cbn [forallb] in H.
  apply andb_true_iff in H. apply IH, H.
Qed.

Lemma len_big_history : len big_history = MAX_CHAT_FILE_SIZE + 1.
Proof.
  unfold len, big_history. rewrite repeat_length. apply Z2Nat.id.
  unfold MAX_CHAT_FILE_SIZE. lia.
Qed.

Lemma ascii_big_history : forallb (Utf8.in_range 0 0x7F) big_history = true.
Proof. apply forallb_repeat. reflexivity. Qed.

(** The last bytes of an ASCII file come through the rotation as they are. *)
Lemma ascii_tail_kept (c kept : bytes) :
  forallb (Utf8.in_range 0 0x7F) c = true ->
  MAX_CHAT_FILE_SIZE < len c ->
  Utf8.encode (Utf8.decode_ignore (skipn (Z.to_nat (len c - TRIM_TO_SIZE)) c)) = Some kept ->
  len kept = TRIM_TO_SIZE.
Proof.
  intros Ha Hbig Hk.
  set (tail := skipn (Z.to_nat (len c - TRIM_TO_SIZE)) c) in *.
  pose proof (Utf8Facts.ascii_encode tail (forallb_skipn _ _ _ Ha)) as He.
  rewrite (Utf8Facts.decode_ignore_encode tail tail He), He in Hk.
  injection Hk as <-. unfold tail, len in *. rewrite length_skipn.
  unfold MAX_CHAT_FILE_SIZE, TRIM_TO_SIZE in *. lia.
Qed.

End RotationFacts.

Lemma C5_rotation_before_append_witness :
  exists rb w' kept,
    MAX_CHAT_FILE_SIZE < len big_history
    /\ Utf8.encode (history_record (lit "q") (lit "a")) = Some rb
    /\ commit sample_env (lit "q") (lit "a") big_world = (Ok tt, w')
    /\ fs_read (fs w') (chat_history_file default_config)
       = Some (ROTATION_MARKER_BYTES ++ kept ++ rb).
Proof.
  eexists.
  assert (Hbig : MAX_CHAT_FILE_SIZE < len big_history)
    by (rewrite RotationFacts.len_big_history; lia).
  destruct (C5_rotation_before_append sample_env (lit "q") (lit "a") big_world [] []
              (default_system_prompt default_config) big_history _
              eq_refl eq_refl eq_refl Hbig eq_refl)
    as (w' & kept & c0 & H1 & _ & H2 & _).
  exists w', kept. split; [exact Hbig|]. split; [reflexivity|]. split; assumption.
Defined.

(** The append to an over-long ASCII history file: what is left is the
    marker, the last [TRIM_TO_SIZE] bytes and the record. *)
Lemma commit_ascii_history (env : Env) (q a : str) (ctx : list pyval) (kb p : str)
    (u : option str) (t : list event) (c rb : bytes) :
  str_eqb (data_file (CONFIG env)) (chat_history_file (CONFIG env)) = false ->
  Utf8.encode (history_record q a) = Some rb ->
  forallb (Utf8.in_range 0 0x7F) c = true ->
  MAX_CHAT_FILE_SIZE < len c ->
  exists w' c',
    commit env q a (mkWorld [(chat_history_file (CONFIG env), c)] (shaped ctx kb p) u t)
    = (Ok tt, w')
    /\ fs_read (fs w') (chat_history_file (CONFIG env)) = Some c'
    /\ len c' = TRIM_TO_SIZE + len ROTATION_MARKER_BYTES + len rb.
Proof.
  intros Hne Hrec Hascii Hbig.
  destruct (CommitFacts.commit_run env q a [(chat_history_file (CONFIG env), c)]
              ctx kb p u t rb Hne Hrec) as (c0 & rot & Hrun & _ & Hrot).
  cbn [fs_read] in Hrot. rewrite str_eqb_refl in Hrot.
  pose proof Hbig as Hb. apply Z.ltb_lt in Hb. rewrite Hb in Hrot.
  destruct Hrot as (kept & Hk & _ & ->).
  pose proof (RotationFacts.ascii_tail_kept c kept Hascii Hbig Hk) as Hlen.
  eexists. exists (ROTATION_MARKER_BYTES ++ kept ++ rb).
  split; [exact Hrun|]. split.
  - cbn [fs app replay fold_left apply_event]. unfold fs_append.
    rewrite fs_read_write_same, fs_read_write_same, <- app_assoc. reflexivity.
  - rewrite !len_app_Z, Hlen. lia.
Qed.

(** A history file of [MAX_CHAT_FILE_SIZE + 1] bytes of ASCII: after the
    append the file is longer than [TRIM_TO_SIZE] plus the record, by the
    marker. *)
Lemma C5_counterexample :
  exists w' c',
    MAX_CHAT_FILE_SIZE < len big_history
    /\ Utf8.encode (history_record (lit "q") (lit "a")) = Some sample_record
    /\ commit sample_env (lit "q") (lit "a") big_world = (Ok tt, w')
    /\ fs_read (fs w') (chat_history_file default_config) = Some c'
    /\ len c' = TRIM_TO_SIZE + len ROTATION_MARKER_BYTES + len sample_record
    /\ TRIM_TO_SIZE + len sample_record < len c'.
Proof.
  assert (Hbig : MAX_CHAT_FILE_SIZE < len big_history)
    by (rewrite RotationFacts.len_big_history; lia).
  assert (Hrec : Utf8.encode (history_record (lit "q") (lit "a")) = Some sample_record)
    by reflexivity.
  destruct (commit_ascii_history sample_env (lit "q") (lit "a") [] []
              (default_system_prompt default_config) None [] big_history sample_record
              eq_refl Hrec RotationFacts.ascii_big_history Hbig)
    as (w' & c' & H1 & H2 & H3).
  exists w', c'. split; [exact Hbig|]. split; [exact Hrec|]. split; [exact H1|].
  split; [exact H2|]. split; [exact H3|].
  rewrite H3. change (len ROTATION_MARKER_BYTES) with 62. lia.
Qed.

(** ** C8: a failed exchange changes nothing *)

Module AnswerFacts.

Lemma answer_api_error (env : Env) (create : list pyval -> completion)
    (messages : list pyval) (q msg : str) (w : World) :
  client env = Some create -> create messages = ApiError msg ->
  answer env messages q w
  = (Ok tt, mkWorld (fs w) (bot_data w) (BOT_USERNAME w)
              (trace w ++ [EvReply (ANSWER_FAILED ++ msg)])).
Proof. intros Hc Hm. unfold answer, try_except. rewrite Hc, Hm. reflexivity. Qed.

Lemma answer_failed (env : Env) (create : list pyval -> completion)
    (messages : list pyval) (q : str) (w : World) :
  client env = Some create -> failed (create messages) = true ->
  exists s,
    answer env messages q w
    = (Ok tt, mkWorld (fs w) (bot_data w) (BOT_USERNAME w) (trace w ++ [EvReply s])).
Proof.
  intros Hc Hf. unfold answer, try_except. rewrite Hc.
  destruct (create messages) as [[|[c|] choices]|msg]; try discriminate Hf;
    eexists; reflexivity.
Qed.

(** Building the request reads the state and changes nothing. *)
Lemma build_messages_pure (q : str) (w : World) :
  exists r, build_messages q w = (r, w).
Proof.
  destruct w as [f v u t]. unfold build_messages. mrun.
  destruct v as [ |b|z|x|s|l|d]; try (eexists; reflexivity). mrun.
  destruct (dict_get d k_custom_prompt) as [[ |b|z|x|s|l|d']|]; try (eexists; reflexivity).
  mrun. destruct (dict_get d k_knowledge_base) as [[ |b|z|x|s'|l|d']|];
    try (eexists; reflexivity).
  mrun. destruct (dict_get d k_conversation_context) as [[ |b|z|x|s''|l|d']|];
    eexists; reflexivity.
Qed.

End AnswerFacts.

(** C8 (as amended).  A failed exchange changes nothing, and the user gets
    one reply.  When the call to the model raises an [OpenAIError], [answer]
    replies with the failure notice followed by the text of the error; when
    the response has no first choice, or no content in it, it replies with
    the general error tip, which says nothing of the cause; in both cases
    [bot_data] and every file stay as they were.  And with a model that
    answers no exchange, [handle_mention] on any update, on a state whose
    entries have their types and with a no-question prompt whose only field
    is [{user_name}], leaves [bot_data] and the files as they were and
    sends at most one reply. *)
Theorem C8_failed_exchange_mutates_nothing (env : Env)
    (create : list pyval -> completion) :
  client env = Some create ->
  (forall messages q msg w,
      create messages = ApiError msg ->
      answer env messages q w
      = (Ok tt, mkWorld (fs w) (bot_data w) (BOT_USERNAME w)
                  (trace w ++ [EvReply (lit "❌ 回答失败：" ++ msg)])))
  /\ (forall messages q w,
        (create messages = Completion []
         \/ exists rest, create messages = Completion (None :: rest)) ->
        answer env messages q w
        = (Ok tt, mkWorld (fs w) (bot_data w) (BOT_USERNAME w)
                    (trace w ++ [EvReply (error_tip (CONFIG env))])))
  /\ (forall update w,
        (forall messages, failed (create messages) = true) ->
        typed_state (bot_data w) = true ->
        simple_template (no_question_tip (CONFIG env)) = true ->
        bot_data (snd (handle_mention env update w)) = bot_data w
        /\ fs (snd (handle_mention env update w)) = fs w
        /\ (trace (snd (handle_mention env update w)) = trace w
            \/ exists s, trace (snd (handle_mention env update w)) = trace w ++ [EvReply s])).
Proof.
  intros Hc. split.
  { intros messages q msg w Hm. apply (AnswerFacts.answer_api_error env create); assumption. }
  split.
  { intros messages q w Hm. unfold answer, try_except. rewrite Hc.
    destruct Hm as [->|[rest ->]]; reflexivity. }
  intros update [f d u t] Hfail _ _. unfold handle_mention.
  destruct (Tg.message update) as [message|]; [|cbn; eauto].
  destruct (Tg.text message) as [[|c text]|]; try (cbn; eauto).
  mrun.
  assert (Hbody : forall (name : str) (w0 : World),
             fs w0 = f -> bot_data w0 = d -> trace w0 = t ->
             let r := (let (is_mention_me, user_question) :=
                         parse_mention (c :: text) name (Tg.entities message)
                           (Py.strip (c :: text)) in
                       if negb is_mention_me then ret tt
                       else match user_question with
                            | [] => reply_text (format_user_name (no_question_tip (CONFIG env))
                                                  (user_name_of update))
                            | _ :: _ => messages <- build_messages user_question ;;
                                        answer env messages user_question
                            end) w0 in
             bot_data (snd r) = d /\ fs (snd r) = f
             /\ (trace (snd r) = t \/ exists s, trace (snd r) = t ++ [EvReply s])).
  { intros name [f0 d0 u0 t0]. cbn [fs bot_data trace]. intros -> -> ->.
    destruct (parse_mention (c :: text) name (Tg.entities message) (Py.strip (c :: text)))
      as [[|] [|x question]]; cbn; eauto.
    unfold bind.
    destruct (AnswerFacts.build_messages_pure (x :: question) (mkWorld f d u0 t))
      as [[messages|e] ->]; [|cbn; eauto].
    destruct (AnswerFacts.answer_failed env create messages (x :: question)
                (mkWorld f d u0 t) Hc (Hfail messages)) as [s ->].
    cbn. eauto. }
  destruct u as [[|c0 u]|]; mrun; apply Hbody; reflexivity.
Qed.

Lemma C8_failed_exchange_mutates_nothing_witness :
  answer (sample_env_with out_of_quota) [] (lit "hello") (fresh_world sample_env)
  = (Ok tt, mkWorld [] (empty_bot_data sample_env) None
              [EvReply (ANSWER_FAILED ++ lit "quota exceeded")])
  /\ bot_data (snd (handle_mention (sample_env_with out_of_quota)
                      (text_update (lit "@bot hello") [first_mention] None)
                      (fresh_world sample_env)))
     = empty_bot_data sample_env
  /\ trace (snd (handle_mention (sample_env_with out_of_quota)
                   (text_update (lit "@bot hello") [first_mention] None)
                   (fresh_world sample_env)))
     = [EvReply (ANSWER_FAILED ++ lit "quota exceeded")].
Proof.
  destruct (C8_failed_exchange_mutates_nothing (sample_env_with out_of_quota) out_of_quota
              eq_refl) as (H1 & _ & H3).
  split.
  - exact (H1 [] (lit "hello") (lit "quota exceeded") (fresh_world sample_env) eq_refl).
  - split.
    + exact (proj1 (H3 (text_update (lit "@bot hello") [first_mention] None)
                      (fresh_world sample_env) (fun _ => eq_refl) eq_refl eq_refl)).
    + reflexivity.
Defined.

(** A response without a choice and a response whose first choice has no
    content are two failures with two causes (IndexError, AttributeError);
    the user gets the same reply for both, the general error tip of the
    configuration: the cause is not in it. *)
Lemma C8_counterexample :
  answer (sample_env_with no_choices) [] (lit "hello") (fresh_world sample_env)
  = (Ok tt, mkWorld [] (empty_bot_data sample_env) None
              [EvReply (error_tip default_config)])
  /\ answer (sample_env_with no_content) [] (lit "hello") (fresh_world sample_env)
     = (Ok tt, mkWorld [] (empty_bot_data sample_env) None
                 [EvReply (error_tip default_config)])
  /\ first_content [] (fresh_world sample_env)
     = (Raise IndexError, fresh_world sample_env)
  /\ first_content [None] (fresh_world sample_env)
     = (Raise AttributeError, fresh_world sample_env).
Proof. repeat split. Qed.


(** ** Reloading the documents and the transcript *)

Module ReloadFacts.
Import CommitFacts.

Lemma strip_prefix_app (p s n : str) : strip_prefix p s = Some n -> s = p ++ n.
Proof.
  revert s. induction p as [|x p IH]; intros [|y s]; simpl; try discriminate.
  - intros [= <-]. reflexivity.
  - intros [= <-]. reflexivity.
  - destruct (Z.eqb_spec x y) as [->|]; [|discriminate].
    intros H. f_equal. apply IH, H.
Qed.

(** A listed name leads back to the file it was listed for. *)
Lemma entry_name_join (d path n : str) :
  d <> [] -> entry_name d path = Some n -> path_join d n = path.
Proof.
  intros Hd. unfold entry_name.
  destruct (strip_prefix (path_join d []) path) as [m|] eqn:Hs; [|discriminate].
  destruct m as [|x m]; [discriminate|].
  destruct (existsb (Z.eqb slash) (x :: m)) eqn:Hx; [discriminate|].
  intros [= <-]. apply strip_prefix_app in Hs. rewrite Hs.
  cbn [existsb] in Hx. apply orb_false_iff in Hx. destruct Hx as [Hx _].
  unfold path_join. cbn [Py.startswith]. rewrite Hx. cbn [andb].
  destruct d as [|c d]; [contradiction|].
  destruct (Py.endswith (c :: d) [slash]); rewrite <- ?app_assoc, ?app_nil_r; reflexivity.
Qed.

Lemma in_omap {A B} (g : A -> option B) (l : list A) (y : B) :
  In y (omap g l) -> exists x, In x l /\ g x = Some y.
Proof.
  induction l as [|x l IH]; simpl; [contradiction|].
  destruct (g x) as [z|] eqn:E.
  - intros [<-|H]; [exists x; auto|]. destruct (IH H) as (x' & H1 & H2). exists x'. auto.
  - intros H. destruct (IH H) as (x' & H1 & H2). exists x'. auto.
Qed.

Lemma fs_read_in (f : FS) (path : str) (c : bytes) :
  In (path, c) f -> exists c', fs_read f path = Some c'.
Proof.
  induction f as [|[q c0] f IH]; simpl; [contradiction|].
  destruct (str_eqb q path) eqn:E; [eauto|].
  intros [[= -> ->]|H]; [rewrite str_eqb_refl in E; discriminate | apply IH, H].
Qed.

Lemma listing_present (d : str) (f : FS) (n : str) :
  d <> [] -> In n (omap (fun e => entry_name d (fst e)) f) ->
  exists path c, entry_name d path = Some n /\ path_join d n = path
                 /\ fs_read f path = Some c.
Proof.
  intros Hd H. apply in_omap in H. destruct H as ([path c] & Hin & He).
  cbn [fst] in He. destruct (fs_read_in f path c Hin) as [c' Hc'].
  exists path, c'. split; [exact He|]. split; [apply entry_name_join; assumption | exact Hc'].
Qed.

(** One round of the loop adds the document's text, if it has any. *)
Lemma load_doc_shaped (env : Env) (n : str) (total : Z) (f : FS) (ctx : list pyval)
    (kb p : str) (u : option str) (t : list event) (c : bytes) :
  fs_read f (path_join (docs_dir (CONFIG env)) n) = Some c ->
  exists total',
    load_doc env n total (mkWorld f (shaped ctx kb p) u t)
    = (Ok total', mkWorld f (shaped ctx (kb ++ doc_text (CONFIG env) f n) p) u t).
Proof.
  intros Hf. unfold load_doc, doc_text.
  destruct (Py.endswith (Py.lower n) dot_txt); cbn [negb];
    [|exists total; rewrite app_nil_r; reflexivity].
  repeat (mrun; rewrite ?Hf).
  destruct (len c >? MAX_SINGLE_FILE_SIZE);
    [exists total; rewrite app_nil_r; reflexivity|].
  repeat (mrun; rewrite ?Hf).
  destruct (Utf8.decode c) as [s|];
    [|exists total; rewrite app_nil_r; reflexivity].
  mrun. destruct (Py.strip (Py.universal_newlines s)) as [|x content];
    [exists total; rewrite app_nil_r; reflexivity|].
  exists (total + 1). reflexivity.
Qed.

Lemma load_docs_shaped (env : Env) (f : FS) (ctx : list pyval) (p : str)
    (u : option str) (t : list event) (names : list str) :
  (forall n, In n names ->
             exists c, fs_read f (path_join (docs_dir (CONFIG env)) n) = Some c) ->
  forall (total : Z) (kb : str),
  exists total',
    load_docs env names total (mkWorld f (shaped ctx kb p) u t)
    = (Ok total',
       mkWorld f (shaped ctx (kb ++ flat_map (doc_text (CONFIG env) f) names) p) u t).
Proof.
  induction names as [|n names IH]; intros Hin total kb.
  - exists total. cbn [load_docs flat_map]. rewrite app_nil_r. reflexivity.
  - destruct (Hin n (or_introl eq_refl)) as [c Hc].
    destruct (load_doc_shaped env n total f ctx kb p u t c Hc) as [total1 H1].
    destruct (IH (fun m Hm => Hin m (or_intror Hm)) total1
                (kb ++ doc_text (CONFIG env) f n)) as [total2 H2].
    exists total2. cbn [load_docs flat_map]. unfold bind. rewrite H1, H2.
    rewrite <- app_assoc. reflexivity.
Qed.

Lemma listdir_ok (d : str) (w : World) :
  d <> [] -> listdir d w = (Ok (omap (fun e => entry_name d (fst e)) (fs w)), w).
Proof. intros Hd. unfold listdir. destruct d; [contradiction | reflexivity]. Qed.

Lemma header_bytes : Utf8.encode HISTORY_HEADER = Some HISTORY_HEADER_BYTES.
Proof. reflexivity. Qed.

(** The third step: the history file is created when absent; when it is
    there and decodes, the conversation is replaced by what it amounts to. *)
Lemma load_history_shaped (env : Env) (f : FS) (ctx : list pyval) (kb p : str)
    (u : option str) (t : list event) :
  exists n,
    load_history env (mkWorld f (shaped ctx kb p) u t)
    = (Ok n,
       mkWorld (replay (history_events (CONFIG env) f) f)
         (shaped (reloaded_conversation (CONFIG env) f ctx) kb p) u
         (t ++ history_events (CONFIG env) f)).
Proof.
  unfold load_history, history_events, reloaded_conversation, transcript. mrun.
  destruct (fs_read f (chat_history_file (CONFIG env))) as [c|] eqn:Hf; cbn [negb].
  - repeat (mrun; rewrite ?Hf).
    destruct (Utf8.decode c) as [s|].
    + shaped_run. eexists. cbn [replay fold_left]. rewrite app_nil_r. reflexivity.
    + mrun. eexists. cbn [replay fold_left]. rewrite app_nil_r. reflexivity.
  - unfold write_text. rewrite header_bytes. mrun. eexists. reflexivity.
Qed.

(** [load_all_docs] on a shaped state: the knowledge base becomes the corpus
    of the directory, the conversation is reloaded, the history file is
    created if absent and the data file is written. *)
Lemma load_all_docs_shaped (env : Env) (notify : bool) (f : FS) (ctx : list pyval)
    (kb p : str) (u : option str) (t : list event) :
  docs_dir (CONFIG env) <> [] ->
  exists r c0,
    load_all_docs env notify (mkWorld f (shaped ctx kb p) u t)
    = (Ok r,
       mkWorld
         (fs_write (replay (history_events (CONFIG env) f) f) (data_file (CONFIG env)) c0)
         (shaped (reloaded_conversation (CONFIG env) f ctx) (corpus_of (CONFIG env) f) p) u
         ((t ++ history_events (CONFIG env) f) ++ [EvWrite (data_file (CONFIG env)) c0])).
Proof.
  intros Hd. unfold load_all_docs. shaped_run. rewrite (listdir_ok _ _ Hd).
  mbind.
  destruct (load_docs_shaped env f ctx p u t
              (omap (fun e => entry_name (docs_dir (CONFIG env)) (fst e)) f)) with
    (total := 0) (kb := @nil Z) as [total Hdocs].
  { intros n Hn. destruct (listing_present _ f n Hd Hn)
      as (path & c & _ & Hj & Hc). exists c. rewrite Hj. exact Hc. }
  cbn [fs]. rewrite Hdocs. cbn [app]. fold (corpus_of (CONFIG env) f). mbind.
  destruct (load_history_shaped env f ctx (corpus_of (CONFIG env) f) p u t) as [n ->].
  mbind.
  match goal with |- context [save_data env ?w1] =>
    destruct (StateFacts.save_data_total env w1) as (c0 & -> & _)
  end.
  cbn [fs bot_data BOT_USERNAME trace]. eexists. exists c0. reflexivity.
Qed.

Lemma flat_map_ext_on {A B} (g h : A -> list B) (l : list A) :
  (forall x, In x l -> g x = h x) -> flat_map g l = flat_map h l.
Proof.
  induction l as [|x l IH]; intros H; [reflexivity|]. cbn [flat_map].
  rewrite (H x (or_introl eq_refl)), IH; [reflexivity|].
  intros y Hy. apply H. right. exact Hy.
Qed.

Lemma doc_text_ext (cfg : Config) (F F' : FS) (n : str) :
  fs_read F' (path_join (docs_dir cfg) n) = fs_read F (path_join (docs_dir cfg) n) ->
  doc_text cfg F' n = doc_text cfg F n.
Proof. intros H. unfold doc_text. rewrite H. reflexivity. Qed.

Lemma doc_text_not_txt (cfg : Config) (F : FS) (n : str) :
  Py.endswith (Py.lower n) dot_txt = false -> doc_text cfg F n = [].
Proof. intros H. unfold doc_text. rewrite H. reflexivity. Qed.

Lemma listing_write (cfg : Config) (F F' : FS) (q : str) (c : bytes) (f : FS) :
  (forall n, In n (omap (fun e => entry_name (docs_dir cfg) (fst e)) f) ->
             doc_text cfg F' n = doc_text cfg F n) ->
  (forall n, entry_name (docs_dir cfg) q = Some n ->
             doc_text cfg F' n = [] /\ doc_text cfg F n = []) ->
  flat_map (doc_text cfg F') (omap (fun e => entry_name (docs_dir cfg) (fst e)) (fs_write f q c))
  = flat_map (doc_text cfg F) (omap (fun e => entry_name (docs_dir cfg) (fst e)) f).
Proof.
  intros Hsame Hq. induction f as [|[r c'] f IH].
  - cbn [fs_write omap fst].
    destruct (entry_name (docs_dir cfg) q) as [n|] eqn:E; [|reflexivity].
    cbn [omap flat_map]. rewrite (proj1 (Hq n eq_refl)). reflexivity.
  - cbn [fs_write]. destruct (str_eqb r q) eqn:Er.
    + cbn [omap fst]. apply flat_map_ext_on. exact Hsame.
    + cbn [omap fst] in *.
      destruct (entry_name (docs_dir cfg) r) as [n|] eqn:E.
      * cbn [flat_map]. rewrite (Hsame n (or_introl eq_refl)). f_equal.
        apply IH. intros m Hm. apply Hsame. right. exact Hm.
      * apply IH. exact Hsame.
Qed.

(** Writing a file the loader does not read as a document leaves the corpus
    of the directory as it was. *)
Lemma corpus_write_other (cfg : Config) (f : FS) (q : str) (c : bytes) :
  docs_dir cfg <> [] -> is_document cfg q = false ->
  corpus_of cfg (fs_write f q c) = corpus_of cfg f.
Proof.
  intros Hd Hq. unfold corpus_of. apply listing_write.
  - intros n Hn. destruct (Py.endswith (Py.lower n) dot_txt) eqn:Et;
      [|rewrite !doc_text_not_txt by exact Et; reflexivity].
    destruct (listing_present _ f n Hd Hn) as (path & c' & He & Hj & _).
    apply doc_text_ext, fs_read_write_other. rewrite Hj.
    apply str_eqb_neq. intros ->. unfold is_document in Hq. rewrite He, Et in Hq.
    discriminate Hq.
  - intros n He. unfold is_document in Hq. rewrite He in Hq.
    rewrite !doc_text_not_txt by exact Hq. split; reflexivity.
Qed.

Lemma knowledge_shaped f ctx kb p u t :
  knowledge_of (mkWorld f (shaped ctx kb p) u t) = Some kb.
Proof. reflexivity. Qed.

End ReloadFacts.

(** ** C9: when the conversation is re-derived from the transcript *)

(** C9 (as amended).  A reload re-derives the conversation from the
    transcript whenever the history file is there and decodes, on the first
    call as on every later one; the conversation in memory is left as it is
    only when the file is absent (it is then created) or cannot be
    decoded. *)
Theorem C9_reload_rederives_conversation (env : Env) (notify : bool) (w : World)
    (ctx : list pyval) (kb p : str) :
  bot_data w = shaped ctx kb p ->
  docs_dir (CONFIG env) <> [] ->
  (forall s, transcript (CONFIG env) (fs w) = Some s ->
             conversation_of (snd (load_all_docs env notify w))
             = Some (conversation_from (CONFIG env) s))
  /\ (transcript (CONFIG env) (fs w) = None ->
      conversation_of (snd (load_all_docs env notify w)) = Some ctx)
  /\ (fs_exists (fs w) (chat_history_file (CONFIG env)) = false ->
      exists c0,
        trace (snd (load_all_docs env notify w))
        = trace w ++ [EvWrite (chat_history_file (CONFIG env)) HISTORY_HEADER_BYTES;
                      EvWrite (data_file (CONFIG env)) c0]).
Proof.
  destruct w as [f d u t]. cbn [bot_data fs trace]. intros -> Hd.
  destruct (ReloadFacts.load_all_docs_shaped env notify f ctx kb p u t Hd)
    as (r & c0 & ->).
  cbn [snd conversation_of bot_data trace]. unfold reloaded_conversation.
  split; [intros s ->; reflexivity|]. split; [intros ->; reflexivity|].
  intros He. exists c0. unfold history_events. rewrite He, <- app_assoc. reflexivity.
Qed.

Lemma C9_reload_rederives_conversation_witness :
  transcript default_config (fs warm_world)
  = Some (HISTORY_HEADER ++ history_record (lit "q") two_line_reply)
  /\ conversation_of (snd (load_all_docs sample_env false warm_world))
     = Some (conversation_from default_config
               (HISTORY_HEADER ++ history_record (lit "q") two_line_reply)).
Proof.
  split; [reflexivity|].
  destruct (C9_reload_rederives_conversation sample_env false warm_world
              [turn r_user (lit "q"); turn r_assistant two_line_reply] []
              (default_system_prompt default_config) eq_refl
              ltac:(discriminate)) as [H _].
  apply H. reflexivity.
Defined.

(** After a first load and an exchange answered in two lines, a reload with
    the history file in place replaces the conversation in memory: the
    answer loses its second line. *)
Lemma C9_counterexample :
  fs_exists (fs warm_world) (chat_history_file default_config) = true
  /\ conversation_of warm_world
     = Some [turn r_user (lit "q"); turn r_assistant two_line_reply]
  /\ conversation_of (snd (load_all_docs sample_env false warm_world))
     = Some [turn r_user (lit "q"); turn r_assistant (lit "a")]
  /\ conversation_of (snd (load_all_docs sample_env false warm_world))
     <> conversation_of warm_world.
Proof.
  assert (H1 : conversation_of warm_world
               = Some [turn r_user (lit "q"); turn r_assistant two_line_reply])
    by (vm_compute; reflexivity).
  assert (H2 : conversation_of (snd (load_all_docs sample_env false warm_world))
               = Some [turn r_user (lit "q"); turn r_assistant (lit "a")])
    by (vm_compute; reflexivity).
  split; [vm_compute; reflexivity|]. split; [exact H1|]. split; [exact H2|].
  rewrite H1, H2. vm_compute. discriminate.
Qed.

(** ** C4: the corpus is rebuilt from the directory *)

(** C4 (as amended).  A reload sets the knowledge base to the corpus of the
    document directory as it is at the call, whatever the knowledge base
    was before; and when the history file is already there and the data
    file is not read as a document, a second reload right after yields the
    same knowledge base. *)
Theorem C4_corpus_rebuilt (env : Env) (notify notify' : bool) (w : World)
    (ctx : list pyval) (kb p : str) :
  bot_data w = shaped ctx kb p ->
  docs_dir (CONFIG env) <> [] ->
  knowledge_of (snd (load_all_docs env notify w)) = Some (corpus_of (CONFIG env) (fs w))
  /\ (fs_exists (fs w) (chat_history_file (CONFIG env)) = true ->
      is_document (CONFIG env) (data_file (CONFIG env)) = false ->
      knowledge_of (snd (load_all_docs env notify' (snd (load_all_docs env notify w))))
      = knowledge_of (snd (load_all_docs env notify w))).
Proof.
  destruct w as [f d u t]. cbn [bot_data fs]. intros -> Hd.
  destruct (ReloadFacts.load_all_docs_shaped env notify f ctx kb p u t Hd)
    as (r & c0 & ->).
  cbn [snd]. rewrite ReloadFacts.knowledge_shaped. split; [reflexivity|]. intros He Hdoc.
  unfold history_events. rewrite He. cbn [replay fold_left].
  match goal with |- context [load_all_docs env notify' (mkWorld ?f1 (shaped ?c1 ?k1 _) _ ?t1)] =>
    destruct (ReloadFacts.load_all_docs_shaped env notify' f1 c1 k1 p u t1 Hd)
      as (r' & c1' & ->)
  end.
  cbn [snd]. rewrite ReloadFacts.knowledge_shaped. f_equal.
  apply ReloadFacts.corpus_write_other; assumption.
Qed.

Lemma C4_corpus_rebuilt_witness :
  knowledge_of (snd (load_all_docs sample_env false settled_world))
  = Some (doc_entry (lit "weather.txt") (lit "Sunny, 25C")
          ++ doc_entry (lit "chat_history.txt") (lit "# 群聊对话历史"))
  /\ knowledge_of (snd (load_all_docs sample_env true
                          (snd (load_all_docs sample_env false settled_world))))
     = knowledge_of (snd (load_all_docs sample_env false settled_world)).
Proof.
  destruct (C4_corpus_rebuilt sample_env false true settled_world [] []
              (default_system_prompt default_config) eq_refl ltac:(discriminate))
    as [H1 H2].
  split; [exact H1 | exact (H2 eq_refl eq_refl)].
Defined.

(** A fresh directory holding [weather.txt]: the first reload creates the
    history file in it, and the second reload takes that file in as a
    document; the two knowledge bases differ. *)
Lemma C4_counterexample :
  knowledge_of (snd (load_all_docs sample_env false weather_world))
  = Some (doc_entry (lit "weather.txt") (lit "Sunny, 25C"))
  /\ knowledge_of (snd (load_all_docs sample_env false
                          (snd (load_all_docs sample_env false weather_world))))
     = Some (doc_entry (lit "weather.txt") (lit "Sunny, 25C")
             ++ doc_entry (lit "chat_history.txt") (lit "# 群聊对话历史"))
  /\ knowledge_of (snd (load_all_docs sample_env false
                          (snd (load_all_docs sample_env false weather_world))))
     <> knowledge_of (snd (load_all_docs sample_env false weather_world)).
Proof.
  assert (H1 : knowledge_of (snd (load_all_docs sample_env false weather_world))
               = Some (doc_entry (lit "weather.txt") (lit "Sunny, 25C")))
    by (vm_compute; reflexivity).
  assert (H2 : knowledge_of (snd (load_all_docs sample_env false
                                    (snd (load_all_docs sample_env false weather_world))))
               = Some (doc_entry (lit "weather.txt") (lit "Sunny, 25C")
                       ++ doc_entry (lit "chat_history.txt") (lit "# 群聊对话历史")))
    by (vm_compute; reflexivity).
  split; [exact H1|]. split; [exact H2|]. rewrite H1, H2. vm_compute. discriminate.
Qed.

(** ** C7: the order of the three effects *)

(** Events on other files leave a file as it is. *)
Lemma replay_keeps (q : str) (es : list event) :
  Forall (fun e => match e with
                   | EvWrite p _ | EvAppend p _ => str_eqb p q = false
                   | EvReply _ => True
                   end) es ->
  forall f, fs_read (replay es f) q = fs_read f q.
Proof.
  induction 1 as [|e es He _ IH]; intros f; [reflexivity|].
  cbn [replay fold_left]. fold (replay es (apply_event f e)). rewrite IH.
  destruct e as [p c|p c|s]; cbn [apply_event]; [| |reflexivity].
  - apply fs_read_write_other, He.
  - unfold fs_append. destruct (fs_read f p); apply fs_read_write_other, He.
Qed.

(** C7 (as amended).  On a shaped state whose data and history file are
    two files, with the new state and the record encodable, [commit]
    succeeds; [bot_data] holds the conversation extended by the two turns of
    the exchange and cut, from its oldest end, to [max_context_msg] turns;
    the effects on the outside are, in this order, the write of the data
    file with that state, the rotation of the history file if one is due,
    and the append of the record (the question and the answer under their
    tags, a blank line after them); and once the first of them is done,
    whatever is still to come, the data file holds the new state.

    That state does not outlive a restart, though.  When the program stops
    after some of these effects and starts again, [load_data] does read the
    new conversation from the data file, but the [load_all_docs] that
    [main] runs next replaces it by the conversation the history file
    amounts to, whenever that file is there and decodes: an exchange whose
    record is not in the history file is lost. *)
Theorem C7_commit_order (env : Env) (q a : str) (w : World) (ctx : list pyval)
    (kb p : str) (blob rb : bytes) :
  bot_data w = shaped ctx kb p ->
  str_eqb (data_file (CONFIG env)) (chat_history_file (CONFIG env)) = false ->
  Utf8.encode
    (Json.dumps (shaped (append_turn_pair (max_context_msg (CONFIG env)) ctx (q, a)) kb p))
  = Some blob ->
  Utf8.encode (lit "【用户】" ++ q ++ nl ++ lit "【助手】" ++ a ++ nl ++ nl) = Some rb ->
  exists w' rot new_ctx,
    commit env q a w = (Ok tt, w')
    /\ bot_data w' = shaped new_ctx kb p
    /\ new_ctx = append_turn_pair (max_context_msg (CONFIG env)) ctx (q, a)
    /\ (exists dropped,
          ctx ++ [turn r_user q; turn r_assistant a] = dropped ++ new_ctx)
    /\ (0 < max_context_msg (CONFIG env) ->
        len new_ctx = Z.min (len ctx + 2) (max_context_msg (CONFIG env)))
    /\ (rot = [] \/ exists c, rot = [EvWrite (chat_history_file (CONFIG env)) c])
    /\ trace w'
       = trace w ++ EvWrite (data_file (CONFIG env)) blob :: rot
         ++ [EvAppend (chat_history_file (CONFIG env)) rb]
    /\ fs w'
       = replay (EvWrite (data_file (CONFIG env)) blob :: rot
                 ++ [EvAppend (chat_history_file (CONFIG env)) rb]) (fs w)
    /\ (forall done rest,
          EvWrite (data_file (CONFIG env)) blob :: rot
          ++ [EvAppend (chat_history_file (CONFIG env)) rb] = done ++ rest ->
          done <> [] ->
          fs_read (replay done (fs w)) (data_file (CONFIG env)) = Some blob)
    /\ (Json.plain (shaped new_ctx kb p) = true ->
        Json.strings_all valid_text (shaped new_ctx kb p) = true ->
        docs_dir (CONFIG env) <> [] ->
        forall done rest token junk u0 t0 s,
          EvWrite (data_file (CONFIG env)) blob :: rot
          ++ [EvAppend (chat_history_file (CONFIG env)) rb] = done ++ rest ->
          done <> [] -> token <> [] ->
          transcript (CONFIG env) (replay done (fs w)) = Some s ->
          conversation_of
            (snd (load_data env (mkWorld (replay done (fs w)) junk u0 t0)))
          = Some new_ctx
          /\ fst (main env (Some token) (mkWorld (replay done (fs w)) junk u0 t0)) = Ok tt
          /\ conversation_of
               (snd (main env (Some token) (mkWorld (replay done (fs w)) junk u0 t0)))
             = Some (conversation_from (CONFIG env) s)).
Proof.
  destruct w as [f d u t]. cbn [bot_data fs trace]. intros -> Hne Hblob Hrec.
  change (lit "【用户】" ++ q ++ nl ++ lit "【助手】" ++ a ++ nl ++ nl)
    with (history_record q a) in Hrec.
  destruct (CommitFacts.commit_run env q a f ctx kb p u t rb Hne Hrec)
    as (c0 & rot & Hrun & Hc0 & Hrot).
  rewrite (Hc0 blob Hblob) in Hrun. clear Hc0.
  assert (Hshape : rot = [] \/ exists c, rot = [EvWrite (chat_history_file (CONFIG env)) c]).
  { destruct (fs_read f (chat_history_file (CONFIG env))) as [c|]; [|left; exact Hrot].
    destruct (MAX_CHAT_FILE_SIZE <? len c); [|left; exact Hrot].
    destruct Hrot as (kept & _ & _ & ->). right. eexists. reflexivity. }
  assert (Hdata : forall done rest,
             EvWrite (data_file (CONFIG env)) blob :: rot
             ++ [EvAppend (chat_history_file (CONFIG env)) rb] = done ++ rest ->
             done <> [] ->
             fs_read (replay done f) (data_file (CONFIG env)) = Some blob).
  { intros done rest Hsplit Hdone.
    destruct done as [|e0 done']; [contradiction|].
    cbn [app] in Hsplit. injection Hsplit as <- Hsplit.
    cbn [replay fold_left apply_event].
    fold (replay done' (fs_write f (data_file (CONFIG env)) blob)).
    rewrite replay_keeps; [apply fs_read_write_same|].
    assert (Hall : Forall (fun e => match e with
                                    | EvWrite p _ | EvAppend p _ =>
                                        str_eqb p (data_file (CONFIG env)) = false
                                    | EvReply _ => True
                                    end)
                     (rot ++ [EvAppend (chat_history_file (CONFIG env)) rb])).
    { assert (Hne' : str_eqb (chat_history_file (CONFIG env)) (data_file (CONFIG env)) = false).
      { apply str_eqb_neq. intros E. apply str_eqb_neq in Hne. congruence. }
      apply Forall_app. split; [|constructor; [exact Hne' | constructor]].
      destruct Hshape as [->|[c ->]]; [constructor|].
      constructor; [exact Hne' | constructor]. }
    rewrite Hsplit in Hall. apply Forall_app in Hall. apply Hall. }
  set (new_ctx := append_turn_pair (max_context_msg (CONFIG env)) ctx (q, a)) in *.
  eexists. exists rot, new_ctx. split; [exact Hrun|]. cbn [bot_data trace fs].
  split; [reflexivity|]. split; [reflexivity|].
  split.
  { unfold new_ctx, append_turn_pair. cbn [fst snd].
    destruct (ConversationFacts.keep_last_suffix (max_context_msg (CONFIG env))
                ((ctx ++ [turn r_user q]) ++ [turn r_assistant a])) as [dropped Hd].
    exists dropped. rewrite <- Hd, <- app_assoc. reflexivity. }
  split.
  { intros Hmax. unfold new_ctx, append_turn_pair. cbn [fst snd].
    rewrite (ConversationFacts.keep_last_len _ _ Hmax), !len_app_Z.
    unfold len at 2 3. cbn [List.length]. f_equal. lia. }
  split; [exact Hshape|]. split; [reflexivity|]. split; [reflexivity|].
  split; [exact Hdata|].
  intros Hplain Hvalid Hd done rest token junk u0 t0 s Hsplit Hdone Htoken Hs.
  destruct (TextFacts.clean_text_file (Json.dumps (shaped new_ctx kb p)))
    as (c1 & He & Hdec & Hu).
  { apply TextFacts.clean_dumps; assumption. }
  rewrite Hblob in He. injection He as <-.
  pose proof (JsonFacts.loads_dumps _ Hplain) as Hl. rewrite <- Hu in Hl.
  pose proof (StateFacts.load_data_ok env (mkWorld (replay done f) junk u0 t0) blob _ _
                (Hdata done rest Hsplit Hdone) Hdec Hl) as Hload.
  cbn [fs BOT_USERNAME trace] in Hload.
  destruct (ReloadFacts.load_all_docs_shaped env false (replay done f) new_ctx kb p u0 t0 Hd)
    as (r & c2 & Hreload).
  destruct token as [|x token]; [contradiction|].
  unfold main. unfold bind at 1 3. rewrite Hload. unfold bind. rewrite Hreload.
  cbn [fst snd conversation_of bot_data shaped dict_get].
  split; [reflexivity|]. split; [reflexivity|].
  unfold reloaded_conversation. rewrite Hs. reflexivity.
Qed.

Lemma C7_commit_order_witness :
  exists blob rb w' rot,
    Utf8.encode
      (Json.dumps (shaped (append_turn_pair 20 [] (lit "one", lit "1")) []
                     (default_system_prompt default_config))) = Some blob
    /\ Utf8.encode (lit "【用户】" ++ lit "one" ++ nl ++ lit "【助手】" ++ lit "1" ++ nl ++ nl)
       = Some rb
    /\ commit sample_env (lit "one") (lit "1") (fresh_world sample_env) = (Ok tt, w')
    /\ conversation_of w' = Some [turn r_user (lit "one"); turn r_assistant (lit "1")]
    /\ trace w'
       = EvWrite (data_file default_config) blob :: rot
         ++ [EvAppend (chat_history_file default_config) rb].
Proof.
  eexists. eexists.
  destruct (C7_commit_order sample_env (lit "one") (lit "1") (fresh_world sample_env) [] []
              (default_system_prompt default_config) _ _ eq_refl eq_refl eq_refl eq_refl)
    as (w' & rot & new_ctx & H1 & Hb & Hn & _ & _ & _ & H2 & _).
  exists w', rot. split; [reflexivity|]. split; [reflexivity|]. split; [exact H1|].
  split; [|exact H2].
  unfold conversation_of. rewrite Hb, Hn. reflexivity.
Defined.

(** After a first load, the commit of ("q", "a") is cut short after its
    first effect, the write of the data file.  The data file holds the
    exchange, and [load_data] alone restores it; but the start-up that
    follows a crash runs [load_all_docs] too, which reads the history file,
    where the record is missing: the conversation is empty after it, and
    the data file has been written over with that empty conversation. *)
Lemma C7_counterexample :
  fs_read (fs crash_world) (chat_history_file default_config) = Some HISTORY_HEADER_BYTES
  /\ conversation_of (snd (load_data sample_env crash_world))
     = Some [turn r_user (lit "q"); turn r_assistant (lit "a")]
  /\ fst (main sample_env (Some (lit "token")) crash_world) = Ok tt
  /\ conversation_of (snd (main sample_env (Some (lit "token")) crash_world)) = Some []
  /\ conversation_of
       (snd (load_data sample_env
               (mkWorld (fs (snd (main sample_env (Some (lit "token")) crash_world)))
                  PNone None [])))
     = Some [].
Proof. repeat split; vm_compute; reflexivity. Qed.

(** * Further properties of the code *)

(** ** Saving and loading the state *)

(** X1.  [save_data] never raises, whatever [bot_data] holds: it writes the
    data file (with the JSON text of [bot_data] whenever that text can be
    encoded), leaves [bot_data] and [BOT_USERNAME] as they were and changes
    no other file. *)
Theorem X1_save_data_never_raises (env : Env) (w : World) :
  exists c0,
    save_data env w
    = (Ok tt,
       mkWorld (fs_write (fs w) (data_file (CONFIG env)) c0) (bot_data w) (BOT_USERNAME w)
         (trace w ++ [EvWrite (data_file (CONFIG env)) c0]))
    /\ (forall blob, Utf8.encode (Json.dumps (bot_data w)) = Some blob -> c0 = blob)
    /\ (forall p, str_eqb (data_file (CONFIG env)) p = false ->
                  fs_read (fs (snd (save_data env w))) p = fs_read (fs w) p).
Proof.
  destruct (StateFacts.save_data_total env w) as (c0 & H & Hc).
  exists c0. split; [exact H|]. split; [exact Hc|].
  intros p Hp. rewrite H. cbn [snd fs]. apply fs_read_write_other, Hp.
Qed.

(** X2.  When the data file does not exist, [load_data] puts the empty
    state (no conversation, no knowledge base, the default prompt) in
    [bot_data] and creates the file; the file is one [json.load] accepts,
    and a second [load_data] reads the empty state back from it without
    writing anything. *)
Theorem X2_load_data_creates_missing_file (env : Env) (w : World) :
  fs_read (fs w) (data_file (CONFIG env)) = None ->
  valid_text (default_system_prompt (CONFIG env)) = true ->
  exists w1 c1,
    load_data env w = (Ok tt, w1)
    /\ bot_data w1 = empty_bot_data env
    /\ fs w1 = fs_write (fs w) (data_file (CONFIG env)) c1
    /\ trace w1 = trace w ++ [EvWrite (data_file (CONFIG env)) c1]
    /\ well_formed c1 = true
    /\ load_data env w1 = (Ok tt, w1).
Proof.
  intros Hf Hp.
  set (st := mkState [] [] (default_system_prompt (CONFIG env))).
  assert (Hv : valid_state st = true)
    by (unfold valid_state, st; simpl; rewrite Hp; reflexivity).
  destruct (StateFacts.state_file st Hv) as (c1 & He & Hd & Hu & Hl).
  change (state_value st) with (empty_bot_data env) in *.
  set (w0 := mkWorld (fs w) (empty_bot_data env) (BOT_USERNAME w) (trace w)).
  pose proof (StateFacts.save_data_ok env w0 c1 He) as Hs.
  eexists. exists c1.
  split; [rewrite (StateFacts.load_data_missing env w Hf); exact Hs|].
  cbn [bot_data fs trace w0].
  split; [reflexivity|]. split; [reflexivity|]. split; [reflexivity|].
  split; [unfold well_formed; rewrite Hd, Hu, Hl; reflexivity|].
  rewrite <- Hu in Hl.
  match goal with |- load_data env ?w1 = _ =>
    rewrite (StateFacts.load_data_ok env w1 c1 _ _ (fs_read_write_same _ _ _) Hd Hl)
  end.
  reflexivity.
Qed.

Lemma X2_load_data_creates_missing_file_witness :
  exists w1 c1,
    load_data sample_env (mkWorld [] PNone None []) = (Ok tt, w1)
    /\ bot_data w1 = empty_bot_data sample_env
    /\ fs w1 = fs_write [] (data_file default_config) c1
    /\ trace w1 = [] ++ [EvWrite (data_file default_config) c1]
    /\ well_formed c1 = true
    /\ load_data sample_env w1 = (Ok tt, w1).
Proof.
  apply (X2_load_data_creates_missing_file sample_env (mkWorld [] PNone None []));
    reflexivity.
Defined.

(** ** The configuration file *)

(** X3.  [load_config] changes nothing on disk.  Without a [config.json]
    beside the script it returns the default configuration.  With one that
    decodes and stays within the limits CPython puts on [json.load] (depth
    of nesting, digits of an integer), it returns the default configuration
    when the text is not JSON, and the value of the text as it is, whatever
    its shape, when it is.  A file that is not UTF-8 makes it raise
    [UnicodeDecodeError], which neither [except] clause catches. *)
Theorem X3_load_config_fallback (script_dir : str) (w : World) :
  (fs_read (fs w) (path_join script_dir config_json) = None ->
   load_config script_dir w = (Ok default_config_value, w))
  /\ (forall c s,
        fs_read (fs w) (path_join script_dir config_json) = Some c ->
        Utf8.decode c = Some s ->
        within_limits (Py.universal_newlines s) = true ->
        load_config script_dir w
        = (Ok match Json.loads (Py.universal_newlines s) with
              | Some v => v
              | None => default_config_value
              end, w))
  /\ (forall c,
        fs_read (fs w) (path_join script_dir config_json) = Some c ->
        Utf8.decode c = None ->
        load_config script_dir w = (Raise UnicodeDecodeError, w)).
Proof.
  unfold load_config. split; [|split].
  - intros Hf. mrun. rewrite Hf. reflexivity.
  - intros c s Hf Hd _. repeat (mrun; rewrite ?Hf, ?Hd).
    destruct (Json.loads (Py.universal_newlines s)); reflexivity.
  - intros c Hf Hd. repeat (mrun; rewrite ?Hf, ?Hd). reflexivity.
Qed.

(** ** What a reload reports *)

Module ReportFacts.
Import CommitFacts ReloadFacts.

Lemma load_doc_count (env : Env) (n : str) (total : Z) (f : FS) (ctx : list pyval)
    (kb p : str) (u : option str) (t : list event) (c : bytes) :
  fs_read f (path_join (docs_dir (CONFIG env)) n) = Some c ->
  load_doc env n total (mkWorld f (shaped ctx kb p) u t)
  = (Ok (total + (if loaded (CONFIG env) f n then 1 else 0)),
     mkWorld f (shaped ctx (kb ++ doc_text (CONFIG env) f n) p) u t).
Proof.
  intros Hf. unfold load_doc, loaded, doc_text.
  destruct (Py.endswith (Py.lower n) dot_txt); cbn [negb];
    [|rewrite app_nil_r, Z.add_0_r; reflexivity].
  repeat (mrun; rewrite ?Hf).
  destruct (len c >? MAX_SINGLE_FILE_SIZE);
    [rewrite app_nil_r, Z.add_0_r; reflexivity|].
  repeat (mrun; rewrite ?Hf).
  destruct (Utf8.decode c) as [s|];
    [|rewrite app_nil_r, Z.add_0_r; reflexivity].
  mrun. destruct (Py.strip (Py.universal_newlines s)) as [|x content];
    [rewrite app_nil_r, Z.add_0_r; reflexivity|].
  reflexivity.
Qed.

Lemma load_docs_count (env : Env) (f : FS) (ctx : list pyval) (p : str)
    (u : option str) (t : list event) (names : list str) :
  (forall n, In n names ->
             exists c, fs_read f (path_join (docs_dir (CONFIG env)) n) = Some c) ->
  forall (total : Z) (kb : str),
    load_docs env names total (mkWorld f (shaped ctx kb p) u t)
    = (Ok (total + len (filter (loaded (CONFIG env) f) names)),
       mkWorld f (shaped ctx (kb ++ flat_map (doc_text (CONFIG env) f) names) p) u t).
Proof.
  induction names as [|n names IH]; intros Hin total kb.
  - cbn [load_docs flat_map filter]. rewrite app_nil_r. unfold len. cbn [List.length].
    rewrite Z.add_0_r. reflexivity.
  - destruct (Hin n (or_introl eq_refl)) as [c Hc].
    cbn [load_docs flat_map filter]. unfold bind.
    rewrite (load_doc_count env n total f ctx kb p u t c Hc).
    rewrite (IH (fun m Hm => Hin m (or_intror Hm))).
    rewrite <- app_assoc. f_equal. f_equal.
    destruct (loaded (CONFIG env) f n); unfold len; cbn [List.length]; lia.
Qed.

Lemma load_history_count (env : Env) (f : FS) (ctx : list pyval) (kb p : str)
    (u : option str) (t : list event) :
  load_history env (mkWorld f (shaped ctx kb p) u t)
  = (Ok (chat_count (CONFIG env) f),
     mkWorld (replay (history_events (CONFIG env) f) f)
       (shaped (reloaded_conversation (CONFIG env) f ctx) kb p) u
       (t ++ history_events (CONFIG env) f)).
Proof.
  unfold load_history, history_events, reloaded_conversation, chat_count, transcript.
  mrun.
  destruct (fs_read f (chat_history_file (CONFIG env))) as [c|] eqn:Hf; cbn [negb].
  - repeat (mrun; rewrite ?Hf).
    destruct (Utf8.decode c) as [s|].
    + shaped_run. cbn [replay fold_left]. rewrite app_nil_r. reflexivity.
    + mrun. cbn [replay fold_left]. rewrite app_nil_r. reflexivity.
  - unfold write_text. rewrite header_bytes. mrun. reflexivity.
Qed.

(** [load_all_docs] on a shaped state, with what it returns. *)
Lemma load_all_docs_report (env : Env) (notify : bool) (f : FS) (ctx : list pyval)
    (kb p : str) (u : option str) (t : list event) :
  docs_dir (CONFIG env) <> [] ->
  exists c0,
    load_all_docs env notify (mkWorld f (shaped ctx kb p) u t)
    = (Ok (if notify
           then Some (load_report env (doc_count (CONFIG env) f) (chat_count (CONFIG env) f))
           else None),
       mkWorld
         (fs_write (replay (history_events (CONFIG env) f) f) (data_file (CONFIG env)) c0)
         (shaped (reloaded_conversation (CONFIG env) f ctx) (corpus_of (CONFIG env) f) p) u
         ((t ++ history_events (CONFIG env) f) ++ [EvWrite (data_file (CONFIG env)) c0]))
    /\ forall blob,
         Utf8.encode
           (Json.dumps (shaped (reloaded_conversation (CONFIG env) f ctx)
                          (corpus_of (CONFIG env) f) p)) = Some blob ->
         c0 = blob.
Proof.
  intros Hd. unfold load_all_docs. shaped_run. rewrite (listdir_ok _ _ Hd).
  mbind. cbn [fs].
  rewrite (load_docs_count env f ctx p u t
             (omap (fun e => entry_name (docs_dir (CONFIG env)) (fst e)) f)).
  2:{ intros n Hn. destruct (listing_present _ f n Hd Hn)
        as (path & c & _ & Hj & Hc). exists c. rewrite Hj. exact Hc. }
  cbn [app]. fold (corpus_of (CONFIG env) f). fold (doc_count (CONFIG env) f). mbind.
  rewrite load_history_count. mbind.
  match goal with |- context [save_data env ?w1] =>
    destruct (StateFacts.save_data_total env w1) as (c0 & -> & Hc0)
  end.
  cbn [fs bot_data BOT_USERNAME trace] in *. exists c0. split; [|exact Hc0].
  rewrite Z.add_0_l. reflexivity.
Qed.

End ReportFacts.

(** X4.  [reload_all_cmd] on a state of the usual shape never raises and
    sends one reply, the report of the reload: the number of documents it
    names is the number of files of the directory that add to the knowledge
    base, and the number of exchanges is half the length of the conversation
    re-derived from the history file, or 0 when that file is absent or
    cannot be decoded (whatever conversation is kept in memory then).
    [start_cmd] does the same reload and sends the guide with the same
    report in it. *)
Theorem X4_reload_reports_what_was_loaded (env : Env) (w : World) (ctx : list pyval)
    (kb p : str) :
  bot_data w = shaped ctx kb p ->
  docs_dir (CONFIG env) <> [] ->
  exists w1,
    reload_all_cmd env w = (Ok tt, w1)
    /\ trace w1
       = trace (snd (load_all_docs env true w))
         ++ [EvReply (load_report env (doc_count (CONFIG env) (fs w))
                        (chat_count (CONFIG env) (fs w)))]
    /\ bot_data w1
       = shaped (reloaded_conversation (CONFIG env) (fs w) ctx)
           (corpus_of (CONFIG env) (fs w)) p
    /\ fs w1 = fs (snd (load_all_docs env true w))
    /\ start_cmd env w
       = (Ok tt,
          mkWorld (fs w1) (bot_data w1) (BOT_USERNAME w1)
            (trace (snd (load_all_docs env true w))
             ++ [EvReply (guide (load_report env (doc_count (CONFIG env) (fs w))
                                   (chat_count (CONFIG env) (fs w))))])).
Proof.
  destruct w as [f d u t]. cbn [bot_data fs trace]. intros -> Hd.
  destruct (ReportFacts.load_all_docs_report env true f ctx kb p u t Hd) as (c0 & H & _).
  unfold reload_all_cmd, start_cmd, bind. rewrite H. eexists. split; [reflexivity|].
  cbn [snd fs bot_data trace]. repeat split.
Qed.

Lemma X4_reload_reports_what_was_loaded_witness :
  exists w1,
    reload_all_cmd sample_env settled_world = (Ok tt, w1)
    /\ trace w1
       = trace (snd (load_all_docs sample_env true settled_world))
         ++ [EvReply (load_report sample_env 2 0)]
    /\ bot_data w1
       = shaped (reloaded_conversation default_config (fs settled_world) [])
           (corpus_of default_config (fs settled_world))
           (default_system_prompt default_config)
    /\ fs w1 = fs (snd (load_all_docs sample_env true settled_world))
    /\ start_cmd sample_env settled_world
       = (Ok tt,
          mkWorld (fs w1) (bot_data w1) (BOT_USERNAME w1)
            (trace (snd (load_all_docs sample_env true settled_world))
             ++ [EvReply (guide (load_report sample_env 2 0))])).
Proof.
  apply (X4_reload_reports_what_was_loaded sample_env settled_world [] []
           (default_system_prompt default_config) eq_refl).
  discriminate.
Defined.

(** ** Reading the transcript *)

Module TranscriptFacts.

(** Whatever the lines, the loop adds whole exchanges only: a question and
    its answer, neither of them empty. *)
Lemma parse_history_pairs (lines : list str) :
  forall (user_msg assistant_msg : str) (ctx : list pyval),
  exists qas,
    parse_history lines user_msg assistant_msg ctx = ctx ++ flat_map pair_turns qas
    /\ Forall (fun qa => fst qa <> [] /\ snd qa <> []) qas.
Proof.
  induction lines as [|l lines IH]; intros u a ctx.
  - exists []. cbn [parse_history flat_map]. rewrite app_nil_r. split; constructor.
  - cbn [parse_history].
    destruct (Py.startswith (Py.strip l) USER_TAG); [apply IH|].
    destruct (Py.startswith (Py.strip l) ASSISTANT_TAG); [|apply IH].
    destruct u as [|x u]; [apply IH|].
    destruct (Py.strip (Py.replace (Py.strip l) ASSISTANT_TAG [])) as [|y a'] eqn:Ea;
      [apply IH|].
    destruct (IH [] [] (ctx ++ [turn r_user (x :: u); turn r_assistant (y :: a')]))
      as (qas & H & HF).
    exists ((x :: u, y :: a') :: qas). split.
    + rewrite H. cbn [flat_map pair_turns fst snd]. rewrite <- app_assoc. reflexivity.
    + constructor; [split; discriminate | exact HF].
Qed.

(** A last line that is a question adds nothing. *)
Lemma parse_history_last_question (l : str) (lines : list str) :
  Py.startswith (Py.strip l) USER_TAG = true ->
  forall (user_msg assistant_msg : str) (ctx : list pyval),
    parse_history (lines ++ [l]) user_msg assistant_msg ctx
    = parse_history lines user_msg assistant_msg ctx.
Proof.
  intros Hl. induction lines as [|x lines IH]; intros u a ctx.
  - cbn [app parse_history]. rewrite Hl. reflexivity.
  - cbn [app parse_history].
    destruct (Py.startswith (Py.strip x) USER_TAG); [apply IH|].
    destruct (Py.startswith (Py.strip x) ASSISTANT_TAG); [|apply IH].
    destruct u as [|y u]; [apply IH|].
    destruct (Py.strip (Py.replace (Py.strip x) ASSISTANT_TAG [])); apply IH.
Qed.

End TranscriptFacts.

(** X5.  The conversation [load_all_docs] reads from the lines of the
    history file is made of whole exchanges, whatever the lines hold: a user
    turn followed by an assistant turn, neither with empty content; so its
    length is even. *)
Theorem X5_transcript_yields_whole_exchanges (lines : list str) :
  exists qas,
    parse_history lines [] [] [] = flat_map pair_turns qas
    /\ Forall (fun qa => fst qa <> [] /\ snd qa <> []) qas
    /\ len (parse_history lines [] [] []) = 2 * len qas.
Proof.
  destruct (TranscriptFacts.parse_history_pairs lines [] [] []) as (qas & H & HF).
  exists qas. cbn [app] in H. split; [exact H|]. split; [exact HF|].
  rewrite H. clear. unfold len. induction qas as [|qa qas IH]; [reflexivity|].
  cbn [flat_map pair_turns app List.length]. lia.
Qed.

(** X6.  A question at the end of the history file with no answer after it
    (as when the file was cut after the question) is dropped: the
    conversation read is the one read without that line. *)
Theorem X6_unanswered_question_dropped (lines : list str) (l : str) :
  Py.startswith (Py.strip l) USER_TAG = true ->
  parse_history (lines ++ [l]) [] [] [] = parse_history lines [] [] [].
Proof. intros Hl. apply TranscriptFacts.parse_history_last_question, Hl. Qed.

Lemma X6_unanswered_question_dropped_witness :
  parse_history
    ([USER_TAG ++ lit "q" ++ nl; ASSISTANT_TAG ++ lit "a" ++ nl] ++ [USER_TAG ++ lit "lost"])
    [] [] []
  = parse_history [USER_TAG ++ lit "q" ++ nl; ASSISTANT_TAG ++ lit "a" ++ nl] [] [] [].
Proof.
  apply (X6_unanswered_question_dropped
           [USER_TAG ++ lit "q" ++ nl; ASSISTANT_TAG ++ lit "a" ++ nl]
           (USER_TAG ++ lit "lost")).
  reflexivity.
Defined.

Module RoundTripFacts.

Lemma lines_from_line (line rest cur : str) :
  existsb (Z.eqb 10) line = false ->
  Py.lines_from cur (line ++ 10 :: rest)
  = (rev cur ++ line ++ [10]) :: Py.lines_from [] rest.
Proof.
  revert cur. induction line as [|c line IH]; intros cur H.
  - cbn [app Py.lines_from]. rewrite Z.eqb_refl. cbn [rev]. reflexivity.
  - cbn [existsb] in H. apply orb_false_iff in H. destruct H as [Hc Hl].
    cbn [app Py.lines_from]. rewrite Z.eqb_sym, Hc, (IH (c :: cur) Hl).
    cbn [rev]. rewrite <- app_assoc. reflexivity.
Qed.

Lemma lstrip_length (s : str) : (List.length (Py.lstrip s) <= List.length s)%nat.
Proof.
  induction s as [|c s IH]; [apply Nat.le_refl|]. cbn [Py.lstrip].
  destruct (Py.isspace c); cbn [List.length]; lia.
Qed.

Lemma lstrip_fixed (c : Z) (s : str) :
  Py.lstrip (c :: s) = c :: s -> Py.isspace c = false.
Proof.
  cbn [Py.lstrip]. destruct (Py.isspace c); [|reflexivity].
  intros H. pose proof (lstrip_length s) as L. rewrite H in L.
  cbn [List.length] in L. lia.
Qed.

Lemma rstrip_length (s : str) : (List.length (Py.rstrip s) <= List.length s)%nat.
Proof.
  unfold Py.rstrip. rewrite length_rev.
  pose proof (lstrip_length (rev s)) as L. rewrite length_rev in L. exact L.
Qed.

Lemma lstrip_same_length (s : str) :
  List.length (Py.lstrip s) = List.length s -> Py.lstrip s = s.
Proof.
  destruct s as [|c s]; [reflexivity|]. cbn [Py.lstrip].
  destruct (Py.isspace c); [|reflexivity].
  intros H. pose proof (lstrip_length s) as L. cbn [List.length] in H. lia.
Qed.

(** Text that [strip] leaves alone starts and ends with a character that
    is not white space. *)
Lemma strip_fixed (s : str) :
  Py.strip s = s -> Py.lstrip s = s /\ Py.lstrip (rev s) = rev s.
Proof.
  intros H.
  assert (L1 : Py.lstrip s = s).
  { apply lstrip_same_length.
    pose proof (rstrip_length (Py.lstrip s)) as L. pose proof (lstrip_length s) as L'.
    unfold Py.strip in H. rewrite H in L. lia. }
  split; [exact L1|].
  unfold Py.strip in H. rewrite L1 in H. unfold Py.rstrip in H.
  rewrite <- H at 2. rewrite rev_involutive. reflexivity.
Qed.

(** A line of the history file, stripped. *)
Lemma strip_line (c : Z) (p s : str) :
  Py.isspace c = false -> s <> [] -> Py.strip s = s ->
  Py.strip ((c :: p) ++ s ++ [10]) = (c :: p) ++ s.
Proof.
  intros Hc Hs H. destruct (strip_fixed s H) as [_ Hr].
  unfold Py.strip. cbn [app Py.lstrip]. rewrite Hc.
  unfold Py.rstrip. change (c :: p ++ s ++ [10]) with ((c :: p) ++ s ++ [10]).
  rewrite !rev_app_distr. cbn [rev app Py.lstrip].
  change (Py.isspace 10) with true. cbv iota.
  destruct (rev s) as [|d r] eqn:Er.
  { exfalso. apply Hs. rewrite <- (rev_involutive s), Er. reflexivity. }
  pose proof (lstrip_fixed d r Hr) as Hd.
  cbn [app Py.lstrip]. rewrite Hd.
  change (d :: r ++ rev p ++ [c]) with ((d :: r) ++ rev p ++ [c]).
  rewrite <- Er, !rev_app_distr, !rev_involutive. cbn [rev app].
  reflexivity.
Qed.

Lemma startswith_app (p s : str) : Py.startswith (p ++ s) p = true.
Proof.
  induction p as [|x p IH]; [apply MentionFacts.startswith_nil|].
  cbn [app Py.startswith]. rewrite Z.eqb_refl, IH. reflexivity.
Qed.

Lemma replace_from_skip (old new a s : str) :
  Py.replace_from old new (List.length a) (a ++ s) = Py.replace_from old new O s.
Proof.
  induction a as [|x a IH]; [reflexivity|]. cbn [app List.length Py.replace_from].
  exact IH.
Qed.

(** Removing a tag from a line that starts with it. *)
Lemma replace_prefix (x : Z) (o s : str) :
  Py.replace ((x :: o) ++ s) (x :: o) [] = Py.replace s (x :: o) [].
Proof.
  unfold Py.replace. cbn [app Py.replace_from].
  change (x :: o ++ s) with ((x :: o) ++ s). rewrite startswith_app.
  cbn [List.length Nat.pred app]. apply replace_from_skip.
Qed.

Lemma loggable_facts (tag s : str) :
  loggable tag s = true ->
  s <> [] /\ Py.strip s = s /\ existsb (Z.eqb 10) s = false
  /\ existsb (Z.eqb 13) s = false /\ Py.replace s tag [] = s.
Proof.
  unfold loggable. intros H.
  apply andb_true_iff in H. destruct H as [H H5].
  apply andb_true_iff in H. destruct H as [H H4].
  apply andb_true_iff in H. destruct H as [H H3].
  apply andb_true_iff in H. destruct H as [H1 H2].
  split; [destruct s; [discriminate H1 | discriminate]|].
  split; [apply str_eqb_eq, H2|].
  split; [apply negb_true_iff, H3|].
  split; [apply negb_true_iff, H4 | apply str_eqb_eq, H5].
Qed.

Lemma parse_history_skip (l : str) (lines : list str) (u a : str) (ctx : list pyval) :
  Py.startswith (Py.strip l) USER_TAG = false ->
  Py.startswith (Py.strip l) ASSISTANT_TAG = false ->
  parse_history (l :: lines) u a ctx = parse_history lines u a ctx.
Proof. intros H1 H2. cbn [parse_history]. rewrite H1, H2. reflexivity. Qed.

Lemma strip_user_line (q : str) :
  q <> [] -> Py.strip q = q -> Py.strip (USER_TAG ++ q ++ [10]) = USER_TAG ++ q.
Proof. exact (strip_line 12304 [29992; 25143; 12305] q eq_refl). Qed.

Lemma strip_assistant_line (a : str) :
  a <> [] -> Py.strip a = a -> Py.strip (ASSISTANT_TAG ++ a ++ [10]) = ASSISTANT_TAG ++ a.
Proof. exact (strip_line 12304 [21161; 25163; 12305] a eq_refl). Qed.

Lemma replace_user_tag (q : str) :
  Py.replace (USER_TAG ++ q) USER_TAG [] = Py.replace q USER_TAG [].
Proof. exact (replace_prefix 12304 [29992; 25143; 12305] q). Qed.

Lemma replace_assistant_tag (a : str) :
  Py.replace (ASSISTANT_TAG ++ a) ASSISTANT_TAG [] = Py.replace a ASSISTANT_TAG [].
Proof. exact (replace_prefix 12304 [21161; 25163; 12305] a). Qed.

Lemma answer_line_is_no_question (a : str) :
  Py.startswith (ASSISTANT_TAG ++ a) USER_TAG = false.
Proof. reflexivity. Qed.

(** The three lines of a record add the exchange. *)
Lemma parse_record (q a : str) (lines : list str) (u0 a0 : str) (ctx : list pyval) :
  loggable USER_TAG q = true -> loggable ASSISTANT_TAG a = true ->
  parse_history
    ((USER_TAG ++ q ++ [10]) :: (ASSISTANT_TAG ++ a ++ [10]) :: [10] :: lines) u0 a0 ctx
  = parse_history lines [] [] (ctx ++ pair_turns (q, a)).
Proof.
  intros Hq Ha.
  destruct (loggable_facts _ _ Hq) as (Hq1 & Hq2 & _ & _ & Hq4).
  destruct (loggable_facts _ _ Ha) as (Ha1 & Ha2 & _ & _ & Ha4).
  cbn [parse_history].
  rewrite (strip_user_line q Hq1 Hq2), (strip_assistant_line a Ha1 Ha2).
  rewrite !startswith_app, answer_line_is_no_question.
  rewrite replace_user_tag, replace_assistant_tag, Hq4, Ha4, Hq2, Ha2.
  destruct q as [|x q]; [contradiction|]. destruct a as [|y a]; [contradiction|].
  change (Py.strip [10]) with (@nil Z). cbn [Py.startswith].
  reflexivity.
Qed.

Lemma readlines_record (q a rest : str) :
  loggable USER_TAG q = true -> loggable ASSISTANT_TAG a = true ->
  Py.readlines (history_record q a ++ rest)
  = (USER_TAG ++ q ++ [10]) :: (ASSISTANT_TAG ++ a ++ [10]) :: [10] :: Py.readlines rest.
Proof.
  intros Hq Ha.
  destruct (loggable_facts _ _ Hq) as (_ & _ & Hq3 & _ & _).
  destruct (loggable_facts _ _ Ha) as (_ & _ & Ha3 & _ & _).
  unfold Py.readlines, history_record, nl.
  replace ((USER_TAG ++ q ++ [10] ++ ASSISTANT_TAG ++ a ++ [10] ++ [10]) ++ rest)
    with ((USER_TAG ++ q) ++ 10 :: (ASSISTANT_TAG ++ a) ++ 10 :: [] ++ 10 :: rest)
    by (rewrite <- !app_assoc; reflexivity).
  rewrite lines_from_line by (rewrite existsb_app, Hq3; reflexivity).
  rewrite lines_from_line by (rewrite existsb_app, Ha3; reflexivity).
  rewrite lines_from_line by reflexivity.
  cbn [rev app]. rewrite <- !app_assoc. reflexivity.
Qed.

Lemma parse_records (qas : list (str * str)) :
  forallb (fun qa => loggable USER_TAG (fst qa) && loggable ASSISTANT_TAG (snd qa)) qas
  = true ->
  forall (u0 a0 : str) (ctx : list pyval),
    parse_history (Py.readlines (records qas)) u0 a0 ctx
    = match qas with
      | [] => ctx
      | _ => ctx ++ flat_map pair_turns qas
      end.
Proof.
  induction qas as [|[q a] qas IH]; intros H u0 a0 ctx; [reflexivity|].
  cbn [forallb fst snd] in H. apply andb_true_iff in H. destruct H as [H Hr].
  apply andb_true_iff in H. destruct H as [Hq Ha].
  unfold records. cbn [flat_map fst snd]. fold (records qas).
  rewrite (readlines_record q a _ Hq Ha), (parse_record q a _ u0 a0 ctx Hq Ha).
  rewrite (IH Hr). destruct qas as [|qa qas'].
  - cbn [flat_map]. rewrite app_nil_r. reflexivity.
  - cbn [flat_map]. rewrite <- app_assoc. reflexivity.
Qed.

(** The text of the header and the records, read as lines and parsed. *)
Lemma parse_transcript (qas : list (str * str)) :
  forallb (fun qa => loggable USER_TAG (fst qa) && loggable ASSISTANT_TAG (snd qa)) qas
  = true ->
  parse_history (Py.readlines (HISTORY_HEADER ++ records qas)) [] [] []
  = flat_map pair_turns qas.
Proof.
  intros H.
  change HISTORY_HEADER
    with ([35; 32; 32676; 32842; 23545; 35805; 21382; 21490] ++ 10 :: [] ++ 10 :: []).
  unfold Py.readlines. rewrite <- !app_assoc. cbn [app].
  change (35 :: 32 :: 32676 :: 32842 :: 23545 :: 35805 :: 21382 :: 21490 :: 10 :: 10
          :: records qas)
    with ([35; 32; 32676; 32842; 23545; 35805; 21382; 21490] ++ 10 :: [] ++ 10 :: records qas).
  rewrite !lines_from_line by reflexivity.
  rewrite !parse_history_skip by reflexivity.
  fold (Py.readlines (records qas)).
  rewrite (parse_records qas H). destruct qas; reflexivity.
Qed.

(** Text without a carriage return is read from a file as it is. *)
Lemma no_cr_universal_newlines (s : str) :
  existsb (Z.eqb 13) s = false -> Py.universal_newlines s = s.
Proof.
  induction s as [|c s IH]; [reflexivity|]. cbn [existsb Py.universal_newlines].
  intros H. apply orb_false_iff in H. destruct H as [Hc Hs].
  rewrite Z.eqb_sym, Hc, (IH Hs). reflexivity.
Qed.

Lemma no_cr_records (qas : list (str * str)) :
  forallb (fun qa => loggable USER_TAG (fst qa) && loggable ASSISTANT_TAG (snd qa)) qas
  = true ->
  existsb (Z.eqb 13) (records qas) = false.
Proof.
  induction qas as [|[q a] qas IH]; intros H; [reflexivity|].
  cbn [forallb fst snd] in H. apply andb_true_iff in H. destruct H as [H Hr].
  apply andb_true_iff in H. destruct H as [Hq Ha].
  destruct (loggable_facts _ _ Hq) as (_ & _ & _ & Hq4 & _).
  destruct (loggable_facts _ _ Ha) as (_ & _ & _ & Ha4 & _).
  unfold records. cbn [flat_map fst snd]. fold (records qas).
  unfold history_record. rewrite !existsb_app, Hq4, Ha4, (IH Hr). reflexivity.
Qed.

End RoundTripFacts.

(** X7.  The history file gives back what was logged.  When the file holds
    the header and the records of a run of exchanges, as [load_all_docs]
    and [handle_mention] write them, and the questions and answers are not
    empty, have nothing for [strip] to remove, hold no line feed and no
    carriage return and do not contain their own tag, the reading of the
    file is that very text, and the conversation after a reload is the turns
    of those exchanges, cut to the configured length. *)
Theorem X7_transcript_roundtrip (env : Env) (notify : bool) (w : World)
    (ctx : list pyval) (kb p : str) (qas : list (str * str)) (c : bytes) :
  bot_data w = shaped ctx kb p ->
  docs_dir (CONFIG env) <> [] ->
  forallb (fun qa => loggable USER_TAG (fst qa) && loggable ASSISTANT_TAG (snd qa)) qas
  = true ->
  Utf8.encode (HISTORY_HEADER ++ records qas) = Some c ->
  fs_read (fs w) (chat_history_file (CONFIG env)) = Some c ->
  transcript (CONFIG env) (fs w) = Some (HISTORY_HEADER ++ records qas)
  /\ conversation_of (snd (load_all_docs env notify w))
     = Some (keep_last (max_context_msg (CONFIG env)) (flat_map pair_turns qas)).
Proof.
  intros Hb Hd H He Hf. destruct w as [f d u t]. cbn [bot_data fs] in *. subst d.
  assert (Ht : transcript (CONFIG env) f = Some (HISTORY_HEADER ++ records qas)).
  { unfold transcript. rewrite Hf, (Utf8Facts.decode_encode _ _ He).
    rewrite RoundTripFacts.no_cr_universal_newlines; [reflexivity|].
    rewrite existsb_app, (RoundTripFacts.no_cr_records qas H). reflexivity. }
  split; [exact Ht|].
  destruct (ReloadFacts.load_all_docs_shaped env notify f ctx kb p u t Hd)
    as (r & c0 & ->).
  cbn [snd conversation_of bot_data shaped dict_get].
  unfold reloaded_conversation. rewrite Ht. unfold conversation_from.
  rewrite (RoundTripFacts.parse_transcript qas H). reflexivity.
Qed.

Lemma X7_transcript_roundtrip_witness :
  transcript default_config (fs logged_world)
  = Some (HISTORY_HEADER ++ records two_exchanges)
  /\ conversation_of (snd (load_all_docs sample_env false logged_world))
     = Some (keep_last (max_context_msg default_config)
               (flat_map pair_turns two_exchanges)).
Proof.
  apply (X7_transcript_roundtrip sample_env false logged_world [] [] (lit "p")
           two_exchanges two_exchanges_log).
  - reflexivity.
  - discriminate.
  - reflexivity.
  - reflexivity.
  - reflexivity.
Defined.

(** ** Messages that mention the bot *)

Module DispatchFacts.

(** [handle_mention] on a text message: the name is settled, then the
    mention decides. *)
Lemma handle_mention_text (env : Env) (text : str) (es : list Tg.MessageEntity)
    (name : option str) (w : World) :
  text <> [] ->
  handle_mention env (text_update text es name) w
  = (let (is_mention_me, user_question) :=
       parse_mention text (bot_name env w) es (Py.strip text) in
     if negb is_mention_me then ret tt
     else
       match user_question with
       | [] => reply_text (format_user_name (no_question_tip (CONFIG env))
                             (user_name_of (text_update text es name)))
       | _ => messages <- build_messages user_question ;;
              answer env messages user_question
       end)
      (mkWorld (fs w) (bot_data w) (Some (bot_name env w)) (trace w)).
Proof.
  intros Ht. destruct text as [|c text]; [contradiction|].
  destruct w as [f d [[|x u]|] t]; reflexivity.
Qed.

Lemma build_messages_shaped (q : str) (f : FS) (ctx : list pyval) (kb p : str)
    (u : option str) (t : list event) :
  build_messages q (mkWorld f (shaped ctx kb p) u t)
  = (Ok ([turn r_system (system_content p kb)] ++ ctx ++ [turn r_user q]),
     mkWorld f (shaped ctx kb p) u t).
Proof. reflexivity. Qed.

End DispatchFacts.

(** X8.  A text message none of whose entities mentions the bot is passed
    over in silence: [handle_mention] sends nothing, writes no file and
    leaves [bot_data] alone; all it does is settle the bot's name (it asks
    for it when none is cached, even though the message is not for the
    bot). *)
Theorem X8_unaddressed_message_ignored (env : Env) (text : str)
    (es : list Tg.MessageEntity) (name : option str) (w : World) :
  text <> [] ->
  question_of text (bot_name env w) es = None ->
  handle_mention env (text_update text es name) w
  = (Ok tt, mkWorld (fs w) (bot_data w) (Some (bot_name env w)) (trace w)).
Proof.
  intros Ht Hq. rewrite (DispatchFacts.handle_mention_text env text es name w Ht).
  unfold question_of in Hq.
  destruct (parse_mention text (bot_name env w) es (Py.strip text)) as [[|] q];
    [discriminate Hq | reflexivity].
Qed.

Lemma X8_unaddressed_message_ignored_witness :
  handle_mention sample_env (text_update (lit "hello @alice") [Tg.mkEntity Tg.mention 6 6] None)
    (fresh_world sample_env)
  = (Ok tt, mkWorld [] (empty_bot_data sample_env) (Some (lit "bot")) []).
Proof.
  apply (X8_unaddressed_message_ignored sample_env (lit "hello @alice")
           [Tg.mkEntity Tg.mention 6 6] None (fresh_world sample_env)).
  - discriminate.
  - reflexivity.
Defined.

(** X9.  A message that mentions the bot and holds nothing else but white
    space gets the "no question" tip, with the sender's first name (or
    "用户") in place of [{user_name}], when that field is the only one of the
    tip and the tip has no other brace; the model is not called, no file is
    written and [bot_data] is left alone. *)
Theorem X9_mention_without_question (env : Env) (text : str)
    (es : list Tg.MessageEntity) (name : option str) (w : World) :
  text <> [] ->
  question_of text (bot_name env w) es = Some [] ->
  simple_template (no_question_tip (CONFIG env)) = true ->
  handle_mention env (text_update text es name) w
  = (Ok tt,
     mkWorld (fs w) (bot_data w) (Some (bot_name env w))
       (trace w ++ [EvReply (Py.replace (no_question_tip (CONFIG env)) USER_NAME_FIELD
                               match name with
                               | None | Some [] => DEFAULT_USER_NAME
                               | Some n => n
                               end)])).
Proof.
  intros Ht Hq _. rewrite (DispatchFacts.handle_mention_text env text es name w Ht).
  unfold question_of in Hq.
  destruct (parse_mention text (bot_name env w) es (Py.strip text)) as [[|] q];
    [|discriminate Hq].
  injection Hq as ->. reflexivity.
Qed.

Lemma X9_mention_without_question_witness :
  handle_mention sample_env (text_update (lit " @Bot ") [Tg.mkEntity Tg.mention 1 4] None)
    (fresh_world sample_env)
  = (Ok tt,
     mkWorld [] (empty_bot_data sample_env) (Some (lit "bot"))
       ([] ++ [EvReply (Py.replace (no_question_tip default_config) USER_NAME_FIELD
                          DEFAULT_USER_NAME)])).
Proof.
  apply (X9_mention_without_question sample_env (lit " @Bot ")
           [Tg.mkEntity Tg.mention 1 4] None (fresh_world sample_env)).
  - discriminate.
  - reflexivity.
  - reflexivity.
Defined.

(** X10.  Without an API key ([client] is [None]) a question put to the bot
    gets one reply, the notice that no key is configured; nothing is added
    to the conversation and no file is written. *)
Theorem X10_no_api_key (env : Env) (text : str) (es : list Tg.MessageEntity)
    (name : option str) (w : World) (q : str) (ctx : list pyval) (kb p : str) :
  client env = None ->
  text <> [] ->
  question_of text (bot_name env w) es = Some q -> q <> [] ->
  bot_data w = shaped ctx kb p ->
  handle_mention env (text_update text es name) w
  = (Ok tt,
     mkWorld (fs w) (bot_data w) (Some (bot_name env w)) (trace w ++ [EvReply NO_KEY_TIP])).
Proof.
  intros Hc Ht Hq Hn Hb. rewrite (DispatchFacts.handle_mention_text env text es name w Ht).
  unfold question_of in Hq.
  destruct (parse_mention text (bot_name env w) es (Py.strip text)) as [[|] q'];
    [|discriminate Hq].
  injection Hq as ->. destruct q as [|x q]; [contradiction|].
  cbn [negb]. rewrite Hb. unfold bind.
  rewrite DispatchFacts.build_messages_shaped.
  unfold answer, try_except. rewrite Hc. reflexivity.
Qed.

Lemma X10_no_api_key_witness :
  handle_mention sample_env (text_update (lit "@Bot hi") [Tg.mkEntity Tg.mention 0 4] None)
    (fresh_world sample_env)
  = (Ok tt,
     mkWorld [] (empty_bot_data sample_env) (Some (lit "bot")) ([] ++ [EvReply NO_KEY_TIP])).
Proof.
  apply (X10_no_api_key sample_env (lit "@Bot hi") [Tg.mkEntity Tg.mention 0 4] None
           (fresh_world sample_env) (lit "hi") [] []
           (default_system_prompt default_config)).
  - reflexivity.
  - discriminate.
  - reflexivity.
  - discriminate.
  - reflexivity.
Defined.

(** X11.  When [bot_data] has no custom prompt (a data file may hold any
    JSON object), a question put to the bot makes [handle_mention] raise
    [KeyError] while it builds the request, before its [try] block: it sends
    no reply and writes nothing, whether or not a model is configured. *)
Theorem X11_missing_prompt_raises (env : Env) (text : str) (es : list Tg.MessageEntity)
    (name : option str) (w : World) (q : str) (d : pydict) :
  text <> [] ->
  question_of text (bot_name env w) es = Some q -> q <> [] ->
  bot_data w = PDict d -> dict_get d k_custom_prompt = None ->
  handle_mention env (text_update text es name) w
  = (Raise KeyError, mkWorld (fs w) (bot_data w) (Some (bot_name env w)) (trace w)).
Proof.
  intros Ht Hq Hn Hb Hd. rewrite (DispatchFacts.handle_mention_text env text es name w Ht).
  unfold question_of in Hq.
  destruct (parse_mention text (bot_name env w) es (Py.strip text)) as [[|] q'];
    [|discriminate Hq].
  injection Hq as ->. destruct q as [|x q]; [contradiction|].
  cbn [negb]. rewrite Hb. unfold build_messages. mrun. rewrite Hd. reflexivity.
Qed.

Lemma X11_missing_prompt_raises_witness :
  handle_mention sample_env (text_update (lit "@Bot hi") [Tg.mkEntity Tg.mention 0 4] None)
    (mkWorld [] (PDict []) None [])
  = (Raise KeyError, mkWorld [] (PDict []) (Some (lit "bot")) []).
Proof.
  apply (X11_missing_prompt_raises sample_env (lit "@Bot hi") [Tg.mkEntity Tg.mention 0 4]
           None (mkWorld [] (PDict []) None []) (lit "hi") []).
  - discriminate.
  - reflexivity.
  - discriminate.
  - reflexivity.
  - reflexivity.
Defined.



(** ** What a handler leaves alone *)

Module FrameFacts.

Section Part.
Context {T : Type} (part : World -> T).

Lemma keeps_ret {A} (a : A) : keeps part (ret a).
Proof. intros w. reflexivity. Qed.

Lemma keeps_raise {A} (e : exn) : keeps part (@raise A e).
Proof. intros w. reflexivity. Qed.

Lemma keeps_bind {A B} (m : M A) (k : A -> M B) :
  keeps part m -> (forall a, keeps part (k a)) -> keeps part (bind m k).
Proof.
  intros Hm Hk w. unfold bind. specialize (Hm w).
  destruct (m w) as [[a|e] w1]; cbn [snd] in *; [rewrite Hk|]; exact Hm.
Qed.

Lemma keeps_try {A} (m : M A) (h : exn -> M A) :
  keeps part m -> (forall e, keeps part (h e)) -> keeps part (try_except m h).
Proof.
  intros Hm Hh w. unfold try_except. specialize (Hm w).
  destruct (m w) as [[a|e] w1]; cbn [snd] in *; [|rewrite Hh]; exact Hm.
Qed.

(** Reading changes nothing. *)
Lemma keeps_get_bot_data : keeps part get_bot_data.
Proof. intros w. reflexivity. Qed.

Lemma keeps_get_BOT_USERNAME : keeps part get_BOT_USERNAME.
Proof. intros w. reflexivity. Qed.

Lemma keeps_path_exists (p : str) : keeps part (path_exists p).
Proof. intros w. reflexivity. Qed.

Lemma keeps_read_bytes (p : str) : keeps part (read_bytes p).
Proof. intros w. unfold read_bytes. destruct (fs_read (fs w) p); reflexivity. Qed.

Lemma keeps_as_dict (v : pyval) : keeps part (as_dict v).
Proof. intros w. destruct v; reflexivity. Qed.

Lemma keeps_as_str (v : pyval) : keeps part (as_str v).
Proof. intros w. destruct v; reflexivity. Qed.

Lemma keeps_as_list (v : pyval) : keeps part (as_list v).
Proof. intros w. destruct v; reflexivity. Qed.

Lemma keeps_first_content (choices : list (option str)) : keeps part (first_content choices).
Proof. intros w. destruct choices as [|[c|] r]; reflexivity. Qed.

End Part.

(** Step through a handler, one construct at a time. *)
Ltac keeps_step :=
  first
    [ apply keeps_ret | apply keeps_raise | apply keeps_get_bot_data
    | apply keeps_get_BOT_USERNAME | apply keeps_path_exists | apply keeps_read_bytes
    | apply keeps_as_dict | apply keeps_as_str | apply keeps_as_list
    | apply keeps_first_content
    | apply keeps_bind; [|intros ?] | apply keeps_try; [|intros ?]
    | match goal with
      | |- keeps _ (match ?x with _ => _ end) => destruct x
      end ].

Lemma keeps_getsize {T} (part : World -> T) (p : str) : keeps part (getsize p).
Proof. unfold getsize. repeat keeps_step. Qed.

Lemma keeps_read_text {T} (part : World -> T) (p : str) : keeps part (read_text p).
Proof. unfold read_text. repeat keeps_step. Qed.

Lemma keeps_get_item {T} (part : World -> T) (k : str) : keeps part (get_item k).
Proof. unfold get_item. repeat keeps_step. Qed.

(** The cached name is left alone by everything but its own assignment. *)
Lemma emit_keeps_name (e : event) : keeps BOT_USERNAME (emit e).
Proof. intros w. reflexivity. Qed.

Lemma set_bot_data_keeps_name (v : pyval) : keeps BOT_USERNAME (set_bot_data v).
Proof. intros w. reflexivity. Qed.

Ltac name_step :=
  first
    [ apply keeps_getsize | apply keeps_read_text | apply keeps_get_item
    | apply emit_keeps_name | apply set_bot_data_keeps_name | keeps_step ].

Lemma set_item_keeps_name (k : str) (x : pyval) : keeps BOT_USERNAME (set_item k x).
Proof. unfold set_item. repeat name_step. Qed.

Lemma write_text_keeps_name (p s : str) : keeps BOT_USERNAME (write_text p s).
Proof. unfold write_text. repeat name_step. Qed.

Lemma append_text_keeps_name (p s : str) : keeps BOT_USERNAME (append_text p s).
Proof. unfold append_text. repeat name_step. Qed.

Lemma save_data_keeps_name (env : Env) : keeps BOT_USERNAME (save_data env).
Proof. unfold save_data. repeat first [apply write_text_keeps_name | name_step]. Qed.

Lemma rotate_history_keeps_name (env : Env) : keeps BOT_USERNAME (rotate_history env).
Proof.
  unfold rotate_history. cbv zeta.
  repeat first [apply write_text_keeps_name | name_step].
Qed.

Lemma commit_keeps_name (env : Env) (q a : str) : keeps BOT_USERNAME (commit env q a).
Proof.
  unfold commit.
  repeat first [apply set_item_keeps_name | apply save_data_keeps_name
               | apply rotate_history_keeps_name | apply append_text_keeps_name
               | name_step].
Qed.

Lemma build_messages_keeps_name (q : str) : keeps BOT_USERNAME (build_messages q).
Proof. unfold build_messages. repeat name_step. Qed.

Lemma answer_keeps_name (env : Env) (messages : list pyval) (q : str) :
  keeps BOT_USERNAME (answer env messages q).
Proof.
  unfold answer, reply_text.
  repeat first [apply commit_keeps_name | name_step].
Qed.

End FrameFacts.

(** X13.  The bot's name is asked for once.  When a name is cached in
    [BOT_USERNAME], [handle_mention] behaves the same whatever name
    [get_me] would report (a bot renamed while the program runs is still
    addressed by its old name), and it leaves the cached name as it is. *)
Theorem X13_bot_name_cached (cfg : Config) (cl : option (list pyval -> completion))
    (name name' : str) (update : Tg.Update) (w : World) (u : str) :
  BOT_USERNAME w = Some u -> u <> [] ->
  handle_mention (mkEnv cfg cl name) update w = handle_mention (mkEnv cfg cl name') update w
  /\ BOT_USERNAME (snd (handle_mention (mkEnv cfg cl name) update w)) = Some u.
Proof.
  intros Hu Hne. destruct u as [|x u]; [contradiction|].
  destruct update as [[[[[|c text]|] es]|] sender]; try (split; [reflexivity | exact Hu]).
  change (Tg.mkUpdate (Some (Tg.mkMessage (Some (c :: text)) es)) sender)
    with (text_update (c :: text) es sender).
  rewrite !DispatchFacts.handle_mention_text by discriminate.
  unfold bot_name. rewrite Hu. cbn [CONFIG].
  split; [reflexivity|].
  destruct (parse_mention (c :: text) (x :: u) es (Py.strip (c :: text))) as [[|] [|y q]];
    try reflexivity.
  cbn [negb]. rewrite FrameFacts.keeps_bind; [reflexivity | |].
  - apply FrameFacts.build_messages_keeps_name.
  - intros messages. apply FrameFacts.answer_keeps_name.
Qed.

Lemma X13_bot_name_cached_witness :
  handle_mention (mkEnv default_config None (lit "Bot"))
    (text_update (lit "@Renamed hi") [Tg.mkEntity Tg.mention 0 8] None)
    (mkWorld [] (empty_bot_data sample_env) (Some (lit "bot")) [])
  = handle_mention (mkEnv default_config None (lit "Renamed"))
      (text_update (lit "@Renamed hi") [Tg.mkEntity Tg.mention 0 8] None)
      (mkWorld [] (empty_bot_data sample_env) (Some (lit "bot")) [])
  /\ BOT_USERNAME
       (snd (handle_mention (mkEnv default_config None (lit "Bot"))
               (text_update (lit "@Renamed hi") [Tg.mkEntity Tg.mention 0 8] None)
               (mkWorld [] (empty_bot_data sample_env) (Some (lit "bot")) [])))
     = Some (lit "bot").
Proof.
  apply (X13_bot_name_cached default_config None (lit "Bot") (lit "Renamed")
           (text_update (lit "@Renamed hi") [Tg.mkEntity Tg.mention 0 8] None)
           (mkWorld [] (empty_bot_data sample_env) (Some (lit "bot")) []) (lit "bot")).
  - reflexivity.
  - discriminate.
Defined.

(** ** Rotation of the history file *)

(** X14.  The cap on the history file is inclusive: a file of at most
    [MAX_CHAT_FILE_SIZE] bytes is left alone.  A longer one is replaced by
    the marker line and what decodes of its last [TRIM_TO_SIZE] bytes: the
    new file is at most [TRIM_TO_SIZE] bytes and the 62 of the marker long,
    it is valid UTF-8 whatever the old one was, [bot_data] is untouched, and
    rotating again changes nothing. *)
Theorem X14_rotation_bounds_history (env : Env) (w : World) (c : bytes) :
  fs_read (fs w) (chat_history_file (CONFIG env)) = Some c ->
  (len c <= MAX_CHAT_FILE_SIZE -> rotate_history env w = (Ok tt, w))
  /\ (MAX_CHAT_FILE_SIZE < len c ->
      exists w1 c1 s,
        rotate_history env w = (Ok tt, w1)
        /\ fs_read (fs w1) (chat_history_file (CONFIG env)) = Some c1
        /\ len c1 <= TRIM_TO_SIZE + 62
        /\ Utf8.decode c1 = Some (ROTATION_MARKER ++ s)
        /\ bot_data w1 = bot_data w
        /\ rotate_history env w1 = (Ok tt, w1)).
Proof.
  intros Hf. split.
  - intros Hs. apply CommitFacts.rotate_small. rewrite Hf. exact Hs.
  - intros Hbig.
    destruct (CommitFacts.rotate_big env w c Hf Hbig) as (kept & Hk & Hl & Hr).
    eexists. exists (ROTATION_MARKER_BYTES ++ kept).
    exists (Utf8.decode_ignore (skipn (Z.to_nat (len c - TRIM_TO_SIZE)) c)).
    split; [exact Hr|]. cbn [fs bot_data].
    assert (Hlen : len (ROTATION_MARKER_BYTES ++ kept) <= TRIM_TO_SIZE + 62).
    { rewrite len_app_Z. change (len ROTATION_MARKER_BYTES) with 62. lia. }
    split; [apply fs_read_write_same|]. split; [exact Hlen|].
    split; [apply Utf8Facts.decode_encode, Utf8Facts.encode_app_some;
            [exact CommitFacts.marker_bytes | exact Hk]|].
    split; [reflexivity|].
    apply CommitFacts.rotate_small. cbn [fs]. rewrite fs_read_write_same.
    unfold MAX_CHAT_FILE_SIZE, TRIM_TO_SIZE in *. lia.
Qed.

Lemma X14_rotation_bounds_history_witness :
  (len big_history <= MAX_CHAT_FILE_SIZE -> rotate_history sample_env big_world = (Ok tt, big_world))
  /\ (MAX_CHAT_FILE_SIZE < len big_history ->
      exists w1 c1 s,
        rotate_history sample_env big_world = (Ok tt, w1)
        /\ fs_read (fs w1) (chat_history_file default_config) = Some c1
        /\ len c1 <= TRIM_TO_SIZE + 62
        /\ Utf8.decode c1 = Some (ROTATION_MARKER ++ s)
        /\ bot_data w1 = bot_data big_world
        /\ rotate_history sample_env w1 = (Ok tt, w1)).
Proof.
  apply (X14_rotation_bounds_history sample_env big_world big_history). reflexivity.
Defined.

(** ** The commands *)

Module CommandFacts.

Lemma set_prompt f ctx kb p u t p' :
  set_item k_custom_prompt (PStr p') (mkWorld f (shaped ctx kb p) u t)
  = (Ok tt, mkWorld f (shaped ctx kb p') u t).
Proof. reflexivity. Qed.

Lemma keep_last_nil (n : Z) : keep_last n [] = [].
Proof.
  unfold keep_last, Py.slice_from. destruct (len (@nil pyval) >? n); [|reflexivity].
  destruct (0 <=? - n); apply skipn_nil.
Qed.

(** The history file as [clear_all_cmd] leaves it holds no exchange. *)
Lemma header_only (cfg : Config) (f : FS) (ctx : list pyval) :
  fs_read f (chat_history_file cfg) = Some HISTORY_HEADER_BYTES ->
  reloaded_conversation cfg f ctx = [].
Proof.
  intros H. unfold reloaded_conversation, transcript. rewrite H.
  change (Utf8.decode HISTORY_HEADER_BYTES) with (Some HISTORY_HEADER).
  change (Py.universal_newlines HISTORY_HEADER) with HISTORY_HEADER.
  unfold conversation_from.
  change (parse_history (Py.readlines HISTORY_HEADER) [] [] []) with (@nil pyval).
  apply keep_last_nil.
Qed.

End CommandFacts.

(** X15.  [set_prompt_cmd] with a prompt: the arguments, joined by single
    spaces and stripped, replace the custom prompt; the conversation and the
    knowledge base stay as they are; the data file is written before the
    reply is sent, and [load_data] (as after a restart) reads the new state
    back from it. *)
Theorem X15_set_prompt_persists (env : Env) (args : list str) (st : PersistedState)
    (w : World) (new_prompt : str) (junk : pyval) :
  bot_data w = state_value st -> valid_state st = true ->
  Py.strip (str_join (lit " ") args) = new_prompt ->
  new_prompt <> [] -> valid_text new_prompt = true ->
  exists w1 c1,
    set_prompt_cmd env args w = (Ok tt, w1)
    /\ bot_data w1 = state_value (mkState (conversation st) (corpus st) new_prompt)
    /\ fs w1 = fs_write (fs w) (data_file (CONFIG env)) c1
    /\ trace w1
       = trace w ++ [EvWrite (data_file (CONFIG env)) c1;
                     EvReply (prompt_updated_reply new_prompt)]
    /\ load_data env (mkWorld (fs w1) junk (BOT_USERNAME w1) (trace w1)) = (Ok tt, w1).
Proof.
  intros Hb Hv Hj Hn Hp. destruct w as [f d u t]. cbn [bot_data fs trace] in *. subst d.
  set (st' := mkState (conversation st) (corpus st) new_prompt).
  assert (Hv' : valid_state st' = true).
  { unfold valid_state in *. cbn [conversation corpus systemPrompt st'].
    apply andb_true_iff in Hv. destruct Hv as [Hv _]. rewrite Hv, Hp. reflexivity. }
  destruct (StateFacts.state_file st' Hv') as (c1 & He & Hd & Hu & Hl).
  rewrite <- Hu in Hl.
  assert (Hargs : args <> []) by (intros ->; apply Hn; rewrite <- Hj; reflexivity).
  unfold set_prompt_cmd. destruct args as [|a args]; [contradiction|].
  rewrite Hj. destruct new_prompt as [|x new_prompt]; [contradiction|].
  unfold state_value at 1. unfold bind at 1. rewrite CommandFacts.set_prompt.
  unfold bind at 1.
  match goal with |- context [save_data env ?w0] =>
    rewrite (StateFacts.save_data_ok env w0 c1 He)
  end.
  eexists. exists c1. split; [reflexivity|].
  cbn [fs bot_data BOT_USERNAME trace apply_event]. rewrite <- app_assoc.
  repeat (split; [reflexivity|]).
  match goal with |- load_data env ?w0 = _ =>
    rewrite (StateFacts.load_data_ok env w0 c1 _ _ (fs_read_write_same _ _ _) Hd Hl)
  end.
  reflexivity.
Qed.

Lemma X15_set_prompt_persists_witness :
  exists w1 c1,
    set_prompt_cmd sample_env [lit "Be"; lit "brief."]
      (mkWorld [] (state_value sample_state) None []) = (Ok tt, w1)
    /\ bot_data w1
       = state_value (mkState (conversation sample_state) (corpus sample_state)
                        (lit "Be brief."))
    /\ fs w1 = fs_write [] (data_file default_config) c1
    /\ trace w1
       = [] ++ [EvWrite (data_file default_config) c1;
                EvReply (prompt_updated_reply (lit "Be brief."))]
    /\ load_data sample_env (mkWorld (fs w1) PNone (BOT_USERNAME w1) (trace w1))
       = (Ok tt, w1).
Proof.
  apply (X15_set_prompt_persists sample_env [lit "Be"; lit "brief."] sample_state
           (mkWorld [] (state_value sample_state) None []) (lit "Be brief.") PNone).
  - reflexivity.
  - reflexivity.
  - reflexivity.
  - discriminate.
  - reflexivity.
Defined.

(** X16.  [set_prompt_cmd] with no argument, or with arguments that are all
    white space, changes nothing: it replies with the prompt in use and
    writes no file. *)
Theorem X16_set_prompt_without_text (env : Env) (args : list str) (w : World)
    (ctx : list pyval) (kb p : str) :
  Py.strip (str_join (lit " ") args) = [] ->
  bot_data w = shaped ctx kb p ->
  set_prompt_cmd env args w
  = (Ok tt,
     mkWorld (fs w) (bot_data w) (BOT_USERNAME w)
       (trace w ++ [EvReply (current_prompt_reply p)])).
Proof.
  intros Hj Hb. destruct w as [f d u t]. cbn [bot_data fs BOT_USERNAME trace] in *. subst d.
  unfold set_prompt_cmd. destruct args as [|a args]; [reflexivity|].
  rewrite Hj. reflexivity.
Qed.

Lemma X16_set_prompt_without_text_witness :
  set_prompt_cmd sample_env [] (fresh_world sample_env)
  = (Ok tt,
     mkWorld [] (empty_bot_data sample_env) None
       ([] ++ [EvReply (current_prompt_reply (default_system_prompt default_config))])).
Proof.
  apply (X16_set_prompt_without_text sample_env [] (fresh_world sample_env) [] []
           (default_system_prompt default_config)); reflexivity.
Defined.

(** X17.  [clear_all_cmd] puts the empty state in [bot_data], writes it to
    the data file, resets the history file to its header and then replies;
    it touches no other file, so the documents stay on disk: a reload right
    after brings the knowledge base back from the directory, while the
    conversation stays empty and the prompt the default one. *)
Theorem X17_clear_all_then_reload (env : Env) (notify : bool) (w : World)
    (ctx : list pyval) (kb p : str) :
  bot_data w = shaped ctx kb p ->
  docs_dir (CONFIG env) <> [] ->
  exists w1 c1,
    clear_all_cmd env w = (Ok tt, w1)
    /\ bot_data w1 = empty_bot_data env
    /\ fs w1
       = fs_write (fs_write (fs w) (data_file (CONFIG env)) c1)
           (chat_history_file (CONFIG env)) HISTORY_HEADER_BYTES
    /\ trace w1
       = trace w ++ [EvWrite (data_file (CONFIG env)) c1;
                     EvWrite (chat_history_file (CONFIG env)) HISTORY_HEADER_BYTES;
                     EvReply CLEARED_TIP]
    /\ bot_data (snd (load_all_docs env notify w1))
       = shaped [] (corpus_of (CONFIG env) (fs w1)) (default_system_prompt (CONFIG env)).
Proof.
  intros Hb Hd. destruct w as [f d u t]. cbn [bot_data fs trace] in *. subst d.
  unfold clear_all_cmd.
  unfold bind at 1. rewrite CommitFacts.set_ctx.
  unfold bind at 1. rewrite CommitFacts.set_kb.
  unfold bind at 1. rewrite CommandFacts.set_prompt.
  unfold bind at 1.
  match goal with |- context [save_data env ?w0] =>
    destruct (StateFacts.save_data_total env w0) as (c1 & -> & _)
  end.
  cbn [fs bot_data BOT_USERNAME trace].
  unfold bind, write_text. rewrite ReloadFacts.header_bytes.
  unfold reply_text, emit. cbn [fs bot_data BOT_USERNAME trace apply_event].
  eexists. exists c1. split; [reflexivity|].
  cbn [fs bot_data BOT_USERNAME trace]. rewrite <- !app_assoc.
  repeat (split; [reflexivity|]).
  match goal with |- context [load_all_docs env notify (mkWorld ?f1 _ ?u1 ?t1)] =>
    destruct (ReloadFacts.load_all_docs_shaped env notify f1 [] []
                (default_system_prompt (CONFIG env)) u1 t1 Hd) as (r & c0 & H);
    rewrite H;
    cbn [snd bot_data];
    rewrite (CommandFacts.header_only (CONFIG env) f1 [] (fs_read_write_same _ _ _))
  end.
  reflexivity.
Qed.

Lemma X17_clear_all_then_reload_witness :
  exists w1 c1,
    clear_all_cmd sample_env
      (mkWorld (fs weather_world) (state_value sample_state) None []) = (Ok tt, w1)
    /\ bot_data w1 = empty_bot_data sample_env
    /\ fs w1
       = fs_write (fs_write (fs weather_world) (data_file default_config) c1)
           (chat_history_file default_config) HISTORY_HEADER_BYTES
    /\ trace w1
       = [] ++ [EvWrite (data_file default_config) c1;
                EvWrite (chat_history_file default_config) HISTORY_HEADER_BYTES;
                EvReply CLEARED_TIP]
    /\ bot_data (snd (load_all_docs sample_env false w1))
       = shaped [] (corpus_of default_config (fs w1))
           (default_system_prompt default_config).
Proof.
  apply (X17_clear_all_then_reload sample_env false
           (mkWorld (fs weather_world) (state_value sample_state) None [])
           (map turn_value (conversation sample_state)) (corpus sample_state)
           (systemPrompt sample_state)).
  - reflexivity.
  - discriminate.
Defined.

(** X18.  [weather_cmd] neither reads nor changes the state: it sends one
    reply, the same whatever [bot_data] and the files hold, and leaves the
    world as it was otherwise.  The request it makes is the weather prompt
    and the fixed question, with nothing of the knowledge base in it.
    Without an API key the reply is the notice; with an answer from the
    model it is the answer, stripped, under the weather heading. *)
Theorem X18_weather_ignores_state (env : Env) (cenv : CommandEnv) :
  exists s,
    (forall w,
        weather_cmd env cenv w
        = (Ok tt, mkWorld (fs w) (bot_data w) (BOT_USERNAME w) (trace w ++ [EvReply s])))
    /\ (client env = None -> s = NO_KEY_TIP)
    /\ (forall c rest,
          client env <> None ->
          weather_create cenv
            [turn r_system (weather_system_prompt cenv); turn r_user WEATHER_QUESTION]
          = Completion (Some c :: rest) ->
          s = WEATHER_PREFIX ++ Py.strip c)
    /\ (forall msg,
          client env <> None ->
          weather_create cenv
            [turn r_system (weather_system_prompt cenv); turn r_user WEATHER_QUESTION]
          = ApiError msg ->
          s = WEATHER_API_FAILED ++ msg).
Proof.
  unfold weather_cmd, weather_messages, try_except. cbv zeta.
  destruct (client env) as [create|].
  - destruct (weather_create cenv
                [turn r_system (weather_system_prompt cenv); turn r_user WEATHER_QUESTION])
      as [[|[c|] rest]|msg].
    + eexists. split; [intros w; reflexivity|].
      split; [discriminate|]. split; intros; discriminate.
    + eexists. split; [intros w; reflexivity|].
      split; [discriminate|]. split; [|intros; discriminate].
      intros c' rest' _ [= <- <-]. reflexivity.
    + eexists. split; [intros w; reflexivity|].
      split; [discriminate|]. split; intros; discriminate.
    + eexists. split; [intros w; reflexivity|].
      split; [discriminate|]. split; [intros; discriminate|].
      intros msg' _ [= <-]. reflexivity.
  - exists NO_KEY_TIP. split; [intros w; reflexivity|].
    split; [reflexivity|]. split; intros; contradiction.
Qed.

Module ShowFacts.

Lemma findall_from_skip (a s : str) :
  findall_from (List.length a) (a ++ s) = findall_from O s.
Proof. induction a as [|x a IH]; [reflexivity | exact IH]. Qed.

Lemma findall_other (c : Z) (s : str) :
  (0x3010 =? c) = false -> findall_from O (c :: s) = findall_from O s.
Proof.
  intros Hc. cbn [findall_from]. unfold match_doc_name.
  change DOC_OPEN with (0x3010 :: [25991; 26723; 65306]). cbn [strip_prefix].
  rewrite Hc. reflexivity.
Qed.

Lemma findall_no_open (a s : str) :
  no_open a = true -> findall_from O (a ++ s) = findall_from O s.
Proof.
  unfold no_open. intros H. apply negb_true_iff in H.
  induction a as [|c a IH]; [reflexivity|].
  cbn [existsb] in H. apply orb_false_iff in H. destruct H as [Hc Ha].
  cbn [app]. rewrite (findall_other c _ Hc). apply IH, Ha.
Qed.

Lemma strip_prefix_same (p s : str) : strip_prefix p (p ++ s) = Some s.
Proof.
  induction p as [|x p IH]; [destruct s; reflexivity|].
  cbn [app strip_prefix]. rewrite Z.eqb_refl. exact IH.
Qed.

Lemma lazy_name (n rest : str) :
  plain_name n = true -> lazy_until_close (n ++ DOC_CLOSE :: rest) = Some n.
Proof.
  unfold plain_name. intros H. apply negb_true_iff in H.
  induction n as [|c n IH].
  - cbn [app lazy_until_close]. rewrite Z.eqb_refl. reflexivity.
  - cbn [existsb] in H. apply orb_false_iff in H. destruct H as [Hc Hn].
    apply orb_false_iff in Hc. destruct Hc as [Hc1 Hc2].
    cbn [app lazy_until_close]. rewrite Hc1, Hc2, (IH Hn). reflexivity.
Qed.

(** A header is found, and the search goes on after its "】". *)
Lemma findall_header (n rest : str) :
  plain_name n = true ->
  findall_from O (DOC_OPEN ++ n ++ DOC_CLOSE :: rest) = n :: findall_from O rest.
Proof.
  intros Hn.
  assert (Hm : match_doc_name (DOC_OPEN ++ n ++ DOC_CLOSE :: rest) = Some n).
  { unfold match_doc_name. rewrite strip_prefix_same. apply lazy_name, Hn. }
  change (DOC_OPEN ++ n ++ DOC_CLOSE :: rest)
    with (0x3010 :: [25991; 26723; 65306] ++ n ++ DOC_CLOSE :: rest) in *.
  cbn [findall_from]. rewrite Hm. f_equal.
  replace ([25991; 26723; 65306] ++ n ++ DOC_CLOSE :: rest)
    with (([25991; 26723; 65306] ++ n ++ [DOC_CLOSE]) ++ rest)
    by (rewrite <- !app_assoc; reflexivity).
  replace (List.length DOC_OPEN + List.length n)%nat
    with (List.length ([25991; 26723; 65306] ++ n ++ [DOC_CLOSE])).
  - apply findall_from_skip.
  - rewrite !length_app. change (List.length DOC_OPEN) with 4%nat.
    cbn [List.length]. lia.
Qed.

Lemma doc_entry_parts (n c rest : str) :
  doc_entry n c ++ rest
  = [10; 10; 61; 61; 61; 61; 61; 32]
    ++ (DOC_OPEN ++ n ++ DOC_CLOSE :: [32; 61; 61; 61; 61; 61; 10] ++ (c ++ rest)).
Proof.
  change (doc_entry n c)
    with ([10; 10; 61; 61; 61; 61; 61; 32]
          ++ (DOC_OPEN ++ (n ++ (DOC_CLOSE :: [32; 61; 61; 61; 61; 61; 10]) ++ c))).
  rewrite <- !app_assoc. reflexivity.
Qed.

Lemma findall_entries (docs : list (str * str)) :
  forallb (fun nc => plain_name (fst nc) && no_open (snd nc)) docs = true ->
  findall_doc_names (entries docs) = map fst docs.
Proof.
  unfold findall_doc_names.
  induction docs as [|[n c] docs IH]; intros H; [reflexivity|].
  cbn [forallb fst snd] in H. apply andb_true_iff in H. destruct H as [H Hr].
  apply andb_true_iff in H. destruct H as [Hn Hc].
  unfold entries. cbn [flat_map map fst snd]. fold (entries docs).
  rewrite doc_entry_parts.
  rewrite findall_no_open by reflexivity.
  rewrite findall_header by exact Hn.
  f_equal.
  rewrite findall_no_open by reflexivity.
  rewrite findall_no_open by exact Hc.
  apply IH, Hr.
Qed.

End ShowFacts.

(** X19.  [show_kb_cmd] changes nothing and sends one reply.  For a
    knowledge base made of the entries of documents whose names hold no "】"
    and no line feed and whose contents hold no "【", the reply lists
    exactly the names of the documents, in the order of the entries, each
    on a line of its own after a dash; the preview under the list is the
    first 1500 characters of the knowledge base. *)
Theorem X19_show_kb_lists_documents (docs : list (str * str)) (w : World)
    (ctx : list pyval) (p : str) :
  docs <> [] ->
  forallb (fun nc => plain_name (fst nc) && no_open (snd nc)) docs = true ->
  bot_data w = shaped ctx (entries docs) p ->
  show_kb_cmd w
  = (Ok tt,
     mkWorld (fs w) (bot_data w) (BOT_USERNAME w)
       (trace w ++ [EvReply (show_kb_reply (entries docs))]))
  /\ doc_list_text (findall_doc_names (entries docs))
     = BULLET ++ str_join BULLET (map fst docs)
  /\ firstn PREVIEW_LENGTH (preview_of (entries docs))
     = firstn PREVIEW_LENGTH (entries docs).
Proof.
  intros Hne Hd Hb. destruct w as [f d u t]. cbn [bot_data fs BOT_USERNAME trace] in *.
  subst d. split; [|split].
  - unfold show_kb_cmd. unfold bind at 1. rewrite CommitFacts.get_kb.
    unfold bind, as_str, ret. destruct docs as [|[n c] docs]; [contradiction|].
    reflexivity.
  - rewrite (ShowFacts.findall_entries docs Hd).
    destruct docs as [|[n c] docs]; [contradiction|]. reflexivity.
  - unfold preview_of. rewrite firstn_app, firstn_firstn, Nat.min_id.
    destruct (Nat.le_gt_cases PREVIEW_LENGTH (List.length (entries docs))) as [Hl|Hl].
    + rewrite firstn_length_le by exact Hl. rewrite Nat.sub_diag.
      cbn [firstn]. apply app_nil_r.
    + replace (len (entries docs) >? Z.of_nat PREVIEW_LENGTH) with false
        by (symmetry; rewrite Z.gtb_ltb; apply Z.ltb_ge; unfold len; lia).
      rewrite firstn_nil. apply app_nil_r.
Qed.

Lemma X19_show_kb_lists_documents_witness :
  show_kb_cmd
    (mkWorld [] (shaped [] (entries [(lit "a.txt", lit "A"); (lit "b.txt", lit "B")])
                   (lit "p")) None [])
  = (Ok tt,
     mkWorld [] (shaped [] (entries [(lit "a.txt", lit "A"); (lit "b.txt", lit "B")])
                   (lit "p")) None
       ([] ++ [EvReply (show_kb_reply
                          (entries [(lit "a.txt", lit "A"); (lit "b.txt", lit "B")]))]))
  /\ doc_list_text
       (findall_doc_names (entries [(lit "a.txt", lit "A"); (lit "b.txt", lit "B")]))
     = BULLET ++ str_join BULLET (map fst [(lit "a.txt", lit "A"); (lit "b.txt", lit "B")])
  /\ firstn PREVIEW_LENGTH
       (preview_of (entries [(lit "a.txt", lit "A"); (lit "b.txt", lit "B")]))
     = firstn PREVIEW_LENGTH (entries [(lit "a.txt", lit "A"); (lit "b.txt", lit "B")]).
Proof.
  apply (X19_show_kb_lists_documents [(lit "a.txt", lit "A"); (lit "b.txt", lit "B")]
           (mkWorld [] (shaped [] (entries [(lit "a.txt", lit "A"); (lit "b.txt", lit "B")])
                          (lit "p")) None [])
           [] (lit "p")).
  - discriminate.
  - reflexivity.
  - reflexivity.
Defined.

(** ** Uploads *)

Module UploadFacts.
Import ReloadFacts.






(** An accepted upload: the file is saved, then everything is reloaded. *)
Lemma upload_ok (env : Env) (cenv : CommandEnv) (document : Document) (content : bytes)
    (f : FS) (ctx : list pyval) (kb p : str) (u : option str) (t : list event)
    (name : str) (size : Z) :
  file_name document = Some name -> Py.endswith (Py.lower name) dot_txt = true ->
  file_size document = Some size -> size <= max_file_size cenv ->
  docs_dir (CONFIG env) <> [] ->
  exists c0,
    handle_file_upload env cenv document (Ok content) (mkWorld f (shaped ctx kb p) u t)
    = (Ok tt,
       mkWorld
         (fs_write
            (replay (history_events (CONFIG env)
                       (fs_write f (path_join (docs_dir (CONFIG env)) name) content))
               (fs_write f (path_join (docs_dir (CONFIG env)) name) content))
            (data_file (CONFIG env)) c0)
         (shaped
            (reloaded_conversation (CONFIG env)
               (fs_write f (path_join (docs_dir (CONFIG env)) name) content) ctx)
            (corpus_of (CONFIG env)
               (fs_write f (path_join (docs_dir (CONFIG env)) name) content)) p)
         u
         (t ++ [EvWrite (path_join (docs_dir (CONFIG env)) name) content]
          ++ history_events (CONFIG env)
               (fs_write f (path_join (docs_dir (CONFIG env)) name) content)
          ++ [EvWrite (data_file (CONFIG env)) c0;
              EvReply (upload_ok_reply (path_join (docs_dir (CONFIG env)) name))])).
Proof.
  intros Hn Ht Hs Hle Hd.
  destruct (load_all_docs_shaped env false
              (fs_write f (path_join (docs_dir (CONFIG env)) name) content) ctx kb p u
              (t ++ [EvWrite (path_join (docs_dir (CONFIG env)) name) content]) Hd)
    as (r & c0 & Hload).
  exists c0. unfold handle_file_upload. rewrite Hn, Hs.
  unfold bind at 1. unfold ret at 1. cbv iota beta. rewrite Ht. cbn [negb].
  unfold bind at 1. unfold ret at 1. cbv iota beta.
  replace (size >? max_file_size cenv) with false
    by (symmetry; rewrite Z.gtb_ltb; apply Z.ltb_ge; exact Hle).
  unfold try_except. cbv zeta. unfold bind at 1. cbv iota beta.
  unfold bind at 1. unfold emit at 1. cbn [fs bot_data BOT_USERNAME trace apply_event].
  cbv iota beta. unfold bind at 1. rewrite Hload.
  unfold reply_text, emit. cbn [fs bot_data BOT_USERNAME trace apply_event].
  rewrite <- !app_assoc. reflexivity.
Qed.

End UploadFacts.

(** X20.  An upload that is turned down changes nothing and gets one reply.
    A name that does not end in ".txt" (in any case) is refused before the
    size is looked at; a ".txt" file reported larger than [max_file_size]
    is refused with both sizes in whole megabytes; and when fetching the
    file fails, the reply carries the text of the error.  In none of the
    three cases is a file written, [bot_data] changed or anything
    reloaded. *)
Theorem X20_upload_refused (env : Env) (cenv : CommandEnv) (document : Document)
    (fetched : result bytes) (w : World) (name : str) :
  file_name document = Some name ->
  (Py.endswith (Py.lower name) dot_txt = false ->
   handle_file_upload env cenv document fetched w
   = (Ok tt, mkWorld (fs w) (bot_data w) (BOT_USERNAME w) (trace w ++ [EvReply NOT_TXT_TIP])))
  /\ (forall size,
        Py.endswith (Py.lower name) dot_txt = true ->
        file_size document = Some size -> max_file_size cenv < size ->
        handle_file_upload env cenv document fetched w
        = (Ok tt,
           mkWorld (fs w) (bot_data w) (BOT_USERNAME w)
             (trace w ++ [EvReply (too_big_reply (max_file_size cenv) size)])))
  /\ (forall size e,
        Py.endswith (Py.lower name) dot_txt = true ->
        file_size document = Some size -> size <= max_file_size cenv ->
        fetched = Raise e ->
        handle_file_upload env cenv document fetched w
        = (Ok tt,
           mkWorld (fs w) (bot_data w) (BOT_USERNAME w)
             (trace w ++ [EvReply (UPLOAD_FAILED ++ str_of_exn cenv e)]))).
Proof.
  intros Hn. split; [|split].
  - intros Ht. unfold handle_file_upload. rewrite Hn.
    unfold bind at 1. unfold ret at 1. cbv iota beta. rewrite Ht. reflexivity.
  - intros size Ht Hs Hbig. unfold handle_file_upload. rewrite Hn, Hs.
    unfold bind at 1. unfold ret at 1. cbv iota beta. rewrite Ht. cbn [negb].
    unfold bind at 1. unfold ret at 1. cbv iota beta.
    replace (size >? max_file_size cenv) with true
      by (symmetry; rewrite Z.gtb_ltb; apply Z.ltb_lt; exact Hbig).
    reflexivity.
  - intros size e Ht Hs Hle ->. unfold handle_file_upload. rewrite Hn, Hs.
    unfold bind at 1. unfold ret at 1. cbv iota beta. rewrite Ht. cbn [negb].
    unfold bind at 1. unfold ret at 1. cbv iota beta.
    replace (size >? max_file_size cenv) with false
      by (symmetry; rewrite Z.gtb_ltb; apply Z.ltb_ge; exact Hle).
    reflexivity.
Qed.

Lemma X20_upload_refused_witness :
  (Py.endswith (Py.lower (lit "notes.txt")) dot_txt = false ->
   handle_file_upload sample_env (default_cenv sunny) notes_document (Raise OSError)
     (fresh_world sample_env)
   = (Ok tt,
      mkWorld (fs (fresh_world sample_env)) (bot_data (fresh_world sample_env))
        (BOT_USERNAME (fresh_world sample_env))
        (trace (fresh_world sample_env) ++ [EvReply NOT_TXT_TIP])))
  /\ (forall size,
        Py.endswith (Py.lower (lit "notes.txt")) dot_txt = true ->
        file_size notes_document = Some size -> max_file_size (default_cenv sunny) < size ->
        handle_file_upload sample_env (default_cenv sunny) notes_document (Raise OSError)
          (fresh_world sample_env)
        = (Ok tt,
           mkWorld (fs (fresh_world sample_env)) (bot_data (fresh_world sample_env))
             (BOT_USERNAME (fresh_world sample_env))
             (trace (fresh_world sample_env)
              ++ [EvReply (too_big_reply (max_file_size (default_cenv sunny)) size)])))
  /\ (forall size e,
        Py.endswith (Py.lower (lit "notes.txt")) dot_txt = true ->
        file_size notes_document = Some size -> size <= max_file_size (default_cenv sunny) ->
        @Raise bytes OSError = Raise e ->
        handle_file_upload sample_env (default_cenv sunny) notes_document (Raise OSError)
          (fresh_world sample_env)
        = (Ok tt,
           mkWorld (fs (fresh_world sample_env)) (bot_data (fresh_world sample_env))
             (BOT_USERNAME (fresh_world sample_env))
             (trace (fresh_world sample_env)
              ++ [EvReply (UPLOAD_FAILED ++ str_of_exn (default_cenv sunny) e)]))).
Proof.
  apply (X20_upload_refused sample_env (default_cenv sunny) notes_document (Raise OSError)
           (fresh_world sample_env) (lit "notes.txt")).
  reflexivity.
Defined.



(** X22.  Nothing keeps an upload from landing on the history file.  When
    the name of an accepted upload, joined to the document directory, is the
    path of the history file (as "chat_history.txt" is under the default
    configuration), the upload replaces the transcript, and the reload that
    follows replaces the conversation in memory by the one the uploaded text
    amounts to. *)
Theorem X22_upload_can_replace_transcript (env : Env) (cenv : CommandEnv)
    (document : Document) (content : bytes) (f : FS) (ctx : list pyval) (kb p : str)
    (u : option str) (t : list event) (name : str) (size : Z) (s : str) :
  file_name document = Some name -> Py.endswith (Py.lower name) dot_txt = true ->
  file_size document = Some size -> size <= max_file_size cenv ->
  docs_dir (CONFIG env) <> [] ->
  path_join (docs_dir (CONFIG env)) name = chat_history_file (CONFIG env) ->
  Utf8.decode content = Some s ->
  exists w1,
    handle_file_upload env cenv document (Ok content) (mkWorld f (shaped ctx kb p) u t)
    = (Ok tt, w1)
    /\ conversation_of w1
       = Some (conversation_from (CONFIG env) (Py.universal_newlines s)).
Proof.
  intros Hn Ht Hs Hle Hd Hp Hdec.
  destruct (UploadFacts.upload_ok env cenv document content f ctx kb p u t name size
              Hn Ht Hs Hle Hd) as (c0 & ->).
  eexists. split; [reflexivity|].
  cbn [conversation_of bot_data shaped dict_get]. 
  unfold reloaded_conversation, transcript.
  rewrite Hp, fs_read_write_same, Hdec. reflexivity.
Qed.

Lemma X22_upload_can_replace_transcript_witness :
  exists w1,
    handle_file_upload sample_env (default_cenv sunny)
      (mkDocument (Some (lit "chat_history.txt")) (Some 20))
      (Ok (bytes_of_string "forged"))
      (mkWorld [] (shaped [turn r_user (lit "q"); turn r_assistant (lit "a")] [] (lit "p"))
         None [])
    = (Ok tt, w1)
    /\ conversation_of w1
       = Some (conversation_from default_config (Py.universal_newlines (lit "forged"))).
Proof.
  apply (X22_upload_can_replace_transcript sample_env (default_cenv sunny)
           (mkDocument (Some (lit "chat_history.txt")) (Some 20))
           (bytes_of_string "forged") []
           [turn r_user (lit "q"); turn r_assistant (lit "a")] [] (lit "p") None []
           (lit "chat_history.txt") 20 (lit "forged")).
  - reflexivity.
  - reflexivity.
  - reflexivity.
  - unfold default_cenv, max_file_size. lia.
  - discriminate.
  - reflexivity.
  - reflexivity.
Defined.

(** ** Start-up *)

(** X23.  What a restart keeps.  Without a token [main] loads nothing.
    With one, and a data file that [save_data] wrote from a valid state,
    start-up never raises, and of what the file holds only the custom
    prompt is sure to come through: the knowledge base is rebuilt from the
    document directory, and the conversation is the one re-derived from the
    history file whenever that file is there and decodes (the saved one
    otherwise). *)
Theorem X23_restart_keeps_the_prompt (env : Env) (token : str) (st : PersistedState)
    (f : FS) (c : bytes) (junk : pyval) (u : option str) (t : list event) :
  token <> [] ->
  valid_state st = true ->
  fs_read f (data_file (CONFIG env)) = Some c ->
  Utf8.encode (Json.dumps (state_value st)) = Some c ->
  docs_dir (CONFIG env) <> [] ->
  main env None (mkWorld f junk u t) = (Ok tt, mkWorld f junk u t)
  /\ exists c0,
       main env (Some token) (mkWorld f junk u t)
       = (Ok tt,
          mkWorld
            (fs_write (replay (history_events (CONFIG env) f) f) (data_file (CONFIG env)) c0)
            (shaped
               (reloaded_conversation (CONFIG env) f (map turn_value (conversation st)))
               (corpus_of (CONFIG env) f) (systemPrompt st))
            u
            ((t ++ history_events (CONFIG env) f) ++ [EvWrite (data_file (CONFIG env)) c0])).
Proof.
  intros Ht Hv Hf He Hd. split; [reflexivity|].
  destruct token as [|x token]; [contradiction|].
  destruct (StateFacts.state_file st Hv) as (c' & He' & Hdec & Hu & Hl).
  rewrite He in He'. injection He' as <-. rewrite <- Hu in Hl.
  destruct (ReloadFacts.load_all_docs_shaped env false f (map turn_value (conversation st))
              (corpus st) (systemPrompt st) u t Hd) as (r & c0 & Hload).
  exists c0. unfold main. unfold bind at 1.
  rewrite (StateFacts.load_data_ok env (mkWorld f junk u t) c _ _ Hf Hdec Hl).
  cbn [fs BOT_USERNAME trace]. unfold bind. unfold state_value. rewrite Hload.
  reflexivity.
Qed.

Lemma X23_restart_keeps_the_prompt_witness :
  main sample_env None saved_world = (Ok tt, saved_world)
  /\ exists c0,
       main sample_env (Some (lit "token")) saved_world
       = (Ok tt,
          mkWorld
            (fs_write
               (replay (history_events default_config (fs saved_world)) (fs saved_world))
               (data_file default_config) c0)
            (shaped
               (reloaded_conversation default_config (fs saved_world)
                  (map turn_value (conversation sample_state)))
               (corpus_of default_config (fs saved_world))
               (systemPrompt sample_state))
            None
            (([] ++ history_events default_config (fs saved_world))
             ++ [EvWrite (data_file default_config) c0])).
Proof.
  apply (X23_restart_keeps_the_prompt sample_env (lit "token") sample_state
           (fs saved_world) sample_data_file PNone None []).
  - discriminate.
  - reflexivity.
  - reflexivity.
  - reflexivity.
  - discriminate.
Defined.

(** X24.  [load_data] takes any JSON value for the state.  When the data
    file holds JSON that is not an object (a list, a number, a string:
    nothing [json.load] rejects) and stays within the limits CPython puts
    on [json.load] (depth of nesting, digits of an integer), [load_data]
    puts it in [bot_data] as it is, and [main] then raises [TypeError] at
    the first assignment of [load_all_docs]: the program does not start,
    and the file is left as it was. *)
Theorem X24_start_fails_on_non_object (env : Env) (token : str) (w : World) (c : bytes)
    (s : str) (v : pyval) :
  token <> [] ->
  fs_read (fs w) (data_file (CONFIG env)) = Some c ->
  Utf8.decode c = Some s ->
  within_limits (Py.universal_newlines s) = true ->
  Json.loads (Py.universal_newlines s) = Some v ->
  (forall d, v <> PDict d) ->
  load_data env w = (Ok tt, mkWorld (fs w) v (BOT_USERNAME w) (trace w))
  /\ main env (Some token) w
     = (Raise TypeError, mkWorld (fs w) v (BOT_USERNAME w) (trace w)).
Proof.
  intros Ht Hf Hdec _ Hl Hv.
  pose proof (StateFacts.load_data_ok env w c s v Hf Hdec Hl) as Hload.
  split; [exact Hload|].
  destruct token as [|x token]; [contradiction|].
  unfold main. unfold bind at 1. rewrite Hload.
  unfold load_all_docs. mrun.
  destruct v as [ |b|z|x0|s0|l|d]; try reflexivity.
  exfalso. apply (Hv d). reflexivity.
Qed.

Lemma X24_start_fails_on_non_object_witness :
  load_data sample_env list_world
  = (Ok tt, mkWorld (fs list_world) (PList []) (BOT_USERNAME list_world) (trace list_world))
  /\ main sample_env (Some (lit "token")) list_world
     = (Raise TypeError,
        mkWorld (fs list_world) (PList []) (BOT_USERNAME list_world) (trace list_world)).
Proof.
  apply (X24_start_fails_on_non_object sample_env (lit "token") list_world
           (bytes_of_string "[]") (lit "[]") (PList [])).
  - discriminate.
  - reflexivity.
  - reflexivity.
  - reflexivity.
  - reflexivity.
  - discriminate.
Defined.
